(** * TensorFlow Similarity: the PN loss and the similarity model's index setup

    A shallow embedding of
    - [tensorflow_similarity/losses/pn_loss.py]  ([pn_loss], [PNLoss]), and
    - [tensorflow_similarity/models/similarity_model.py]
      ([SimilarityModel.compile], [SimilarityModel.create_index]),
    followed by the properties established about them.

    Conventions.
    - A Python call that may raise is a value of [result A]; exceptions are
      values of [exn].
    - Code that may touch the ambient process state (the externally supplied
      distance callable, Keras) lives in [Eff W], a state-and-exception monad
      over an abstract world [W].
    - Float tensors are lists over a scalar type [T] that carries the
      comparison the tensor kernels use.  [Z] gives an executable instance,
      [R] the idealised reals (needed for [exp] and [log]).  NaN is outside
      the model.
    - A rank-1 tensor of shape [N] and a column of shape [N,1] are both
      [list]; a rank-2 tensor is a list of rows. *)

From Stdlib Require Import String.
From Stdlib Require Import List ZArith Bool Lia Reals Lra.
Import ListNotations.

Set Implicit Arguments.

(* ================================================================== *)
(** ** Python exceptions and the two monads *)

Module Py.

Inductive exn : Type :=
| ValueError (msg : string)
| IndexError (msg : string)
| TypeError (msg : string)
| InvalidArgumentError (msg : string)
| OtherError (msg : string).

Definition result (A : Type) : Type := (exn + A)%type.

Definition ok {A} (a : A) : result A := inr a.
Definition raise {A} (e : exn) : result A := inl e.

Definition rbind {A B} (m : result A) (k : A -> result B) : result B :=
  match m with
  | inl e => inl e
  | inr a => k a
  end.

(** Computations over an ambient world [W]: the exception aborts the rest
    of the computation, the world reached so far is kept. *)
Definition Eff (W A : Type) : Type := W -> result A * W.

Definition eret {W A} (a : A) : Eff W A := fun w => (ok a, w).

Definition ebind {W A B} (m : Eff W A) (k : A -> Eff W B) : Eff W B :=
  fun w =>
    match m w with
    | (inl e, w') => (inl e, w')
    | (inr a, w') => k a w'
    end.

(** A computation that does not look at the world. *)
Definition lift {W A} (r : result A) : Eff W A := fun w => (r, w).

(** Python's [x if x is given else default] for keyword arguments. *)
Definition default {A} (d : A) (o : option A) : A :=
  match o with
  | Some a => a
  | None => d
  end.

(** [s in [...]] on strings. *)
Definition str_in (s : string) (l : list string) : bool :=
  existsb (String.eqb s) l.

End Py.
Import Py.

Declare Scope res_scope.
Delimit Scope res_scope with res.
Declare Scope eff_scope.
Delimit Scope eff_scope with eff.

Notation "x <- m ;; k" := (rbind m (fun x => k))
  (at level 61, m at next level, right associativity) : res_scope.
Notation "' p <- m ;; k" := (rbind m (fun x => match x with p => k end))
  (at level 61, p pattern, m at next level, right associativity) : res_scope.
Notation "x <- m ;; k" := (ebind m (fun x => k))
  (at level 61, m at next level, right associativity) : eff_scope.
Notation "' p <- m ;; k" := (ebind m (fun x => match x with p => k end))
  (at level 61, p pattern, m at next level, right associativity) : eff_scope.

(* ================================================================== *)
(** ** The TensorFlow operations used by [pn_loss] *)

Module TF.

(** The scalar type of a float tensor: a zero and the strict comparison. *)
Class Scalar (T : Type) : Type := {
  zero : T;
  ltb : T -> T -> bool
}.

(** The comparison is a strict total order (no NaN). *)
Class ScalarOrder (T : Type) `{Scalar T} : Prop := {
  ltb_irrefl : forall x : T, ltb x x = false;
  ltb_trans : forall x y z : T, ltb x y = true -> ltb y z = true -> ltb x z = true;
  ltb_connex : forall x y : T, ltb x y = false -> ltb y x = false -> x = y
}.
Arguments ScalarOrder T {_}.

Definition leb {T} `{Scalar T} (x y : T) : bool := negb (ltb y x).

Definition matrix (T : Type) : Type := list (list T).
Definition mask : Type := list (list bool).

Section Ops.
Context {T : Type} `{Scalar T}.

(** [tf.size] of a label vector. *)
Definition size (labels : list Z) : nat := length labels.

(** [tf.math.greater x y] on one entry. *)
Definition greater (x y : T) : bool := ltb y x.

(** [tf.math.minimum x y] on one entry. *)
Definition minimum1 (x y : T) : T := if ltb y x then y else x.

(** [tf.stack([a, b], axis=1)] of two index vectors: the vector of pairs
    [[a[i], b[i]]]; the two shapes must agree. *)
Definition stack_axis1 (a b : list nat) : result (list (nat * nat)) :=
  if Nat.eqb (length a) (length b) then ok (combine a b)
  else raise (InvalidArgumentError "Shapes of all inputs must match").

(** Entry [[r][c]] of a rank-2 tensor. *)
Definition entry (P : matrix T) (r c : nat) : option T :=
  match nth_error P r with
  | Some row => nth_error row c
  | None => None
  end.

(** [tf.gather_nd(P, idx)] with index pairs into a rank-2 tensor: one
    entry per pair; an index out of bounds is an error. *)
Fixpoint gather_nd (P : matrix T) (idx : list (nat * nat)) : result (list T) :=
  match idx with
  | [] => ok []
  | (r, c) :: idx' =>
      match entry P r c with
      | None => raise (InvalidArgumentError "indices out of bounds")
      | Some v =>
          match gather_nd P idx' with
          | inl e => inl e
          | inr vs => ok (v :: vs)
          end
      end
  end.

(** [tf.reshape(v, [-1, 1])]: the values as one column. *)
Definition reshape_column (v : list T) : list T := v.

Fixpoint map2 {A B C} (f : A -> B -> C) (a : list A) (b : list B) : list C :=
  match a, b with
  | x :: a', y :: b' => f x y :: map2 f a' b'
  | _, _ => []
  end.

(** [tf.math.minimum] of two columns [[n,1]] and [[m,1]]: element-wise,
    a column of one row is broadcast, other shapes are incompatible. *)
Definition minimum (a b : list T) : result (list T) :=
  if Nat.eqb (length a) (length b) then ok (map2 minimum1 a b)
  else match a, b with
       | [x], _ => ok (map (fun y => minimum1 x y) b)
       | _, [y] => ok (map (fun x => minimum1 x y) a)
       | _, _ => raise (InvalidArgumentError "Incompatible shapes")
       end.

End Ops.

End TF.
Import TF.

#[global] Instance Scalar_Z : Scalar Z := {| zero := 0%Z; ltb := Z.ltb |}.

#[global] Instance Scalar_R : Scalar R :=
  {| zero := 0%R; ltb := fun x y => if Rlt_dec x y then true else false |}.

(* ================================================================== *)
(** ** [losses/pn_loss.py] *)

Module PN.

Section Source.
Context {T : Type} `{Scalar T}.
(** [W]: the ambient process state; [L]: what [compute_loss] returns. *)
Variables W L : Type.

(** A distance object is called on the query and key embeddings. *)
Definition Distance : Type := matrix T -> matrix T -> Eff W (matrix T).

(** The helpers imported from [..algebra] and [.utils].  The distance
    values come back as a column [[N,1]], the indices as a vector [[N]]. *)
Variable build_masks : list Z -> list Z -> nat -> bool -> result (mask * mask).
Variable positive_distances :
  string -> matrix T -> mask -> result (list T * list nat).
Variable negative_distances :
  string -> matrix T -> mask -> mask -> result (list T * list nat).
Variable compute_loss : list T -> list T -> option T -> result L.

(** [pn_loss], statement by statement. *)
Definition pn_loss
    (query_labels : list Z) (query_embeddings : matrix T)
    (key_labels : list Z) (key_embeddings : matrix T)
    (distance : Distance)
    (remove_diagonal : bool)
    (positive_mining_strategy negative_mining_strategy : string)
    (margin : option T) : Eff W L :=
  let batch_size := size query_labels in
  (pairwise_distances <- distance query_embeddings key_embeddings ;;
   lift
     ('(positive_mask, negative_mask) <-
          build_masks query_labels key_labels batch_size remove_diagonal ;;
      '(pos_distances, pos_idxs) <-
          positive_distances positive_mining_strategy
                             pairwise_distances positive_mask ;;
      '(neg_distances, neg_idxs) <-
          negative_distances negative_mining_strategy
                             pairwise_distances negative_mask positive_mask ;;
      pn_pairs <- stack_axis1 pos_idxs neg_idxs ;;
      pn_distances <- gather_nd pairwise_distances pn_pairs ;;
      let pn_distances := reshape_column pn_distances in
      neg_distances <- minimum pn_distances neg_distances ;;
      compute_loss pos_distances neg_distances margin)%res)%eff.

(** The four statements of [pn_loss] between the miners and
    [compute_loss] (the pos-neg cross term), as a function of what the
    miners returned. *)
Definition cross_term (pairwise_distances : matrix T)
    (pos_idxs neg_idxs : list nat) (neg_distances : list T)
    : result (list T) :=
  (pn_pairs <- stack_axis1 pos_idxs neg_idxs ;;
   pn_distances <- gather_nd pairwise_distances pn_pairs ;;
   let pn_distances := reshape_column pn_distances in
   minimum pn_distances neg_distances)%res.

(** Keyword arguments of a call [pn_loss(ql, qe, kl, ke, **kw)]; [None]
    is a keyword that is not passed. *)
Record kwargs : Type := {
  kw_distance : option Distance;
  kw_remove_diagonal : option bool;
  kw_positive_mining_strategy : option string;
  kw_negative_mining_strategy : option string;
  kw_margin : option (option T)
}.

(** The call [pn_loss(ql, qe, kl, ke, **kw)]: the defaults of the
    signature fill in what is not passed; [distance] has none. *)
Definition pn_loss_call
    (query_labels : list Z) (query_embeddings : matrix T)
    (key_labels : list Z) (key_embeddings : matrix T)
    (kw : kwargs) : Eff W L :=
  match kw_distance kw with
  | None =>
      lift (raise (TypeError "pn_loss() missing 1 required positional argument: 'distance'"))
  | Some distance =>
      pn_loss query_labels query_embeddings key_labels key_embeddings
              distance
              (default true (kw_remove_diagonal kw))
              (default "hard"%string (kw_positive_mining_strategy kw))
              (default "semi-hard"%string (kw_negative_mining_strategy kw))
              (default None (kw_margin kw))
  end.

(** The [distance] argument of the constructor: a name or an object. *)
Inductive distance_arg : Type :=
| DistanceName (name : string)
| DistanceObject (d : Distance).

(** [distances.get]: the registry that canonicalises a distance. *)
Variable distances_get : distance_arg -> result Distance.

(** Modelled from the spec: [MetricLoss] (losses/metric_loss.py), the
    wrapper that "adapts a raw loss function into the embedding-training
    framework's loss interface".  Its initialiser keeps the name and the
    keyword arguments for the wrapped function, which here is always
    [pn_loss]. *)
Record MetricLoss : Type := {
  ml_name : string;
  ml_fn_kwargs : kwargs
}.

Definition MetricLoss_init (name : string) (fn_kwargs : kwargs) : MetricLoss :=
  {| ml_name := name; ml_fn_kwargs := fn_kwargs |}.

Record PNLoss : Type := {
  self_distance : Distance;
  self_base : MetricLoss
}.

(** [PNLoss.__init__].  An omitted argument is [None]; of the extra
    [**kwargs] the one [pn_loss] knows is [remove_diagonal]. *)
Definition PNLoss_init
    (distance : option distance_arg)
    (positive_mining_strategy negative_mining_strategy : option string)
    (margin : option (option T))
    (name : option string)
    (kwargs_remove_diagonal : option bool) : result PNLoss :=
  let distance := default (DistanceName "cosine") distance in
  let positive_mining_strategy := default "hard"%string positive_mining_strategy in
  let negative_mining_strategy := default "semi-hard"%string negative_mining_strategy in
  let margin := default None margin in
  let name := default "pn_loss"%string name in
  (self_distance <- distances_get distance ;;
   if negb (str_in positive_mining_strategy ["easy"; "hard"]%string)
   then raise (ValueError "Invalid positive mining strategy.")
   else
   if negb (str_in negative_mining_strategy ["easy"; "hard"; "semi-hard"]%string)
   then raise (ValueError "Invalid negative mining strategy.")
   else
     ok {| self_distance := self_distance;
           self_base :=
             MetricLoss_init name
               {| kw_distance := Some self_distance;
                  kw_remove_diagonal := kwargs_remove_diagonal;
                  kw_positive_mining_strategy := Some positive_mining_strategy;
                  kw_negative_mining_strategy := Some negative_mining_strategy;
                  kw_margin := Some margin |} |})%res.

(** Modelled from the spec: [MetricLoss.call] (losses/metric_loss.py).
    The framework's loss interface hands over one batch of labels and
    embeddings, used as queries and as keys, and the wrapped function
    receives the stored keyword arguments. *)
Definition PNLoss_call (self : PNLoss) (y_true : list Z) (y_pred : matrix T)
    : Eff W L :=
  pn_loss_call y_true y_pred y_true y_pred (ml_fn_kwargs (self_base self)).

End Source.

Arguments DistanceName {T W} name.
Arguments DistanceObject {T W} d.

End PN.

(* ================================================================== *)
(** ** The helpers [pn_loss] imports ([..algebra], [.utils]) *)

Module Helpers.

Section Mining.
Context {T : Type} `{Scalar T}.

Fixpoint clear_at (i : nat) (row : list bool) : list bool :=
  match row, i with
  | [], _ => []
  | _ :: row', O => false :: row'
  | b :: row', S i' => b :: clear_at i' row'
  end.

Fixpoint clear_diagonal_from (i : nat) (m : mask) : mask :=
  match m with
  | [] => []
  | row :: m' => clear_at i row :: clear_diagonal_from (S i) m'
  end.

(** Modelled from the spec: [build_masks] of algebra.py (section 4.2,
    MaskBuilder).  "PositiveMask[i][j] = (queryLabels[i] == keyLabels[j]);
    NegativeMask = logical NOT of PositiveMask.  If removeDiagonal is
    true AND query batch is the same set as key batch (same size, assumed
    aligned), force PositiveMask[i][i] = false for all i." *)
Definition build_masks (query_labels key_labels : list Z) (batch_size : nat)
    (remove_diagonal : bool) : result (mask * mask) :=
  let positive_mask :=
    map (fun q => map (fun k => Z.eqb q k) key_labels) query_labels in
  let negative_mask := map (map negb) positive_mask in
  let positive_mask :=
    if remove_diagonal && Nat.eqb batch_size (length key_labels)
    then clear_diagonal_from 0 positive_mask
    else positive_mask in
  ok (positive_mask, negative_mask).

(** One row of a masked reduction: the best entry among the columns the
    mask keeps, with its column; of equally good entries the one with the
    smallest column.  [worse x y] says that [x] is strictly worse than
    [y].  A masked-out entry never competes, which is what substituting
    the sentinel before the reduction achieves. *)
Fixpoint masked_select (worse : T -> T -> bool) (row : list T) (m : list bool)
    : option (T * nat) :=
  match row, m with
  | x :: row', b :: m' =>
      match masked_select worse row' m' with
      | None => if b then Some (x, 0) else None
      | Some (y, k) =>
          if b && negb (worse x y) then Some (x, 0) else Some (y, S k)
      end
  | _, _ => None
  end.

Definition row_min (row : list T) (m : list bool) : option (T * nat) :=
  masked_select (fun x y => ltb y x) row m.

Definition row_max (row : list T) (m : list bool) : option (T * nat) :=
  masked_select (fun x y => ltb x y) row m.

(** "Rows with no true mask entries: ... the implementation selects
    index 0 and an undefined/zero distance." *)
Definition or_degenerate (o : option (T * nat)) : T * nat :=
  match o with
  | Some p => p
  | None => (zero, 0)
  end.

(** Modelled from the spec: the masked row-wise maximum and minimum of
    algebra.py behind the miners (section 4.3): values as a column,
    columns as a vector. *)
Definition masked_max (distances : matrix T) (m : mask) : list T * list nat :=
  List.split (map2 (fun row mrow => or_degenerate (row_max row mrow)) distances m).

Definition masked_min (distances : matrix T) (m : mask) : list T * list nat :=
  List.split (map2 (fun row mrow => or_degenerate (row_min row mrow)) distances m).

(** Modelled from the spec: [positive_distances] of losses/utils.py
    (section 4.3): "hard" picks the same-label column that maximizes the
    distance, "easy" the one that minimizes it.  A name outside the
    enumeration has no selection. *)
Definition positive_distances (positive_mining_strategy : string)
    (distances : matrix T) (positive_mask : mask)
    : result (list T * list nat) :=
  if String.eqb positive_mining_strategy "hard" then
    ok (masked_max distances positive_mask)
  else if String.eqb positive_mining_strategy "easy" then
    ok (masked_min distances positive_mask)
  else raise (ValueError "Invalid positive mining strategy").

(** The semi-hard selection in one row, for a threshold [thr]: the
    closest negative strictly farther than [thr], and, when there is
    none, the closest negative. *)
Definition semi_hard_row (thr : T) (row : list T) (nrow : list bool)
    : option (T * nat) :=
  let semi_hard := map2 (fun d b => b && greater d thr) row nrow in
  if existsb (fun b => b) semi_hard then row_min row semi_hard
  else row_min row nrow.

(** Modelled from the spec: [negative_distances] of losses/utils.py
    (section 4.4): "hard" picks the negative column minimizing the
    distance, "easy" the one maximizing it, "semi-hard" the minimum among
    the negatives strictly farther than the anchor's positive distance,
    with an explicit fallback to the hardest negative.  The function
    receives the masks only (that is how [pn_loss] calls it), so the
    positive distance of an anchor is the one it can read off the
    positive mask: the largest. *)
Definition negative_distances (negative_mining_strategy : string)
    (distances : matrix T) (negative_mask positive_mask : mask)
    : result (list T * list nat) :=
  if String.eqb negative_mining_strategy "hard" then
    ok (masked_min distances negative_mask)
  else if String.eqb negative_mining_strategy "semi-hard" then
    let max_positive := fst (masked_max distances positive_mask) in
    ok (List.split
          (map2 (fun thr rn => or_degenerate (semi_hard_row thr (fst rn) (snd rn)))
                max_positive (combine distances negative_mask)))
  else if String.eqb negative_mining_strategy "easy" then
    ok (masked_max distances negative_mask)
  else raise (ValueError "Invalid negative mining strategy").

End Mining.

(** Modelled from the spec: [compute_loss] of losses/utils.py (section
    4.6, LossReducer): the hinge [max(0, p - n + m)] for a margin [m], the
    softplus [log(1 + exp(p - n))] without one, and the mean over the
    anchors. *)
Definition anchor_loss (margin : option R) (p n : R) : R :=
  match margin with
  | Some m => Rmax 0 (p - n + m)
  | None => ln (1 + exp (p - n))
  end.

Definition reduce_mean (v : list R) : R :=
  (fold_right Rplus 0 v / INR (length v))%R.

Definition compute_loss (positive_distances negative_distances : list R)
    (margin : option R) : result R :=
  if Nat.eqb (length positive_distances) (length negative_distances)
  then ok (reduce_mean (map2 (anchor_loss margin)
                             positive_distances negative_distances))
  else raise (InvalidArgumentError "Incompatible shapes").

End Helpers.

(* ================================================================== *)
(** ** [models/similarity_model.py] *)

Module SM.

(** [l[i]] on a Python list, negative positions counting from the end. *)
Definition py_getitem {A} (l : list A) (i : Z) : result A :=
  let n := Z.of_nat (length l) in
  let k := if (i <? 0)%Z then (i + n)%Z else i in
  if ((k <? 0) || (n <=? k))%Z then raise (IndexError "list index out of range")
  else match nth_error l (Z.to_nat k) with
       | Some a => ok a
       | None => raise (IndexError "list index out of range")
       end.

Section Source.
(** Distance objects, and what the index is configured with. *)
Variables Distance Search Store Evaluator : Type.

(** [str(distance)], used by the message [compile] prints. *)
Variable distance_str : Distance -> string.

Inductive distance_arg : Type :=
| DistanceName (name : string)
| DistanceObject (d : Distance).

(** [distance == "auto"]. *)
Definition is_auto (distance : distance_arg) : bool :=
  match distance with
  | DistanceName name => String.eqb name "auto"
  | DistanceObject _ => false
  end.

(** [distances.get] *)
Variable distances_get : distance_arg -> result Distance.

(** A loss object, as far as [compile] looks at it: its [distance]
    attribute, if it has one. *)
Record Loss : Type := { loss_distance : option Distance }.

(** The [loss] argument: [None], a list of losses, or any other object. *)
Inductive loss_arg : Type :=
| LossNone
| LossList (losses : list Loss)
| LossObject (loss : Loss).

(** A symbolic output of the Keras model: its shape. *)
Definition KerasTensor : Type := list (option nat).

(** [t.shape[1]] *)
Definition shape1 (t : KerasTensor) : result (option nat) :=
  match nth_error t 1 with
  | Some d => ok d
  | None => raise (IndexError "tuple index out of range")
  end.

(** The index object remembers what it was built with. *)
Record Indexer : Type := {
  ix_embedding_size : option nat;
  ix_distance : Distance;
  ix_search : Search;
  ix_kv_store : Store;
  ix_evaluator : Evaluator;
  ix_embedding_output : option Z;
  ix_stat_buffer_size : Z
}.

(** The checks of [Indexer.__init__] (indexer.py). *)
Variable Indexer_init : Indexer -> result unit.

(** The attributes of the model object these methods read and write,
    and the lines printed so far. *)
Record SimilarityModel : Type := {
  output_names : list string;
  outputs : list KerasTensor;
  embedding_size : option (option nat);
  _ix : option Indexer;
  stdout : list string
}.

Definition print (line : string) : Eff SimilarityModel unit :=
  fun self =>
    (ok tt,
     {| output_names := output_names self;
        outputs := outputs self;
        embedding_size := embedding_size self;
        _ix := _ix self;
        stdout := stdout self ++ [line] |}).

Definition set_embedding_size (d : option nat) : Eff SimilarityModel unit :=
  fun self =>
    (ok tt,
     {| output_names := output_names self;
        outputs := outputs self;
        embedding_size := Some d;
        _ix := _ix self;
        stdout := stdout self |}).

(** The [_index] setter. *)
Definition set_index (index : Indexer) : Eff SimilarityModel unit :=
  fun self =>
    (ok tt,
     {| output_names := output_names self;
        outputs := outputs self;
        embedding_size := embedding_size self;
        _ix := Some index;
        stdout := stdout self |}).

Definition get {A} (f : SimilarityModel -> A) : Eff SimilarityModel A :=
  fun self => (ok (f self), self).

Definition guard_message : string :=
  "Embedding_output value exceed number of model outputs".

(** [SimilarityModel.create_index] *)
Definition create_index
    (distance : Distance) (search : Search) (kv_store : Store)
    (evaluator : Evaluator) (embedding_output : option Z)
    (stat_buffer_size : Z) : Eff SimilarityModel unit :=
  (names <- get output_names ;;
   let num_outputs := Z.of_nat (length names) in
   _ <- match embedding_output with
   | Some e =>
       if (e >? num_outputs)%Z then lift (raise (ValueError guard_message))
       else eret tt
   | None => eret tt
   end ;;
   embedding_output <-
     match embedding_output with
     | None =>
         if (num_outputs >? 1)%Z then
           (_ <- print "Embedding output set to be model output 0.  Use the embedding_output arg to override this." ;;
            eret (Some 0%Z))
         else eret None
     | Some e => eret (Some e)
     end ;;
   outs <- get outputs ;;
   size <-
     lift (if (num_outputs >? 1)%Z then
             match embedding_output with
             | Some e => (t <- py_getitem outs e ;; shape1 t)%res
             | None => raise (TypeError "list indices must be integers or slices, not NoneType")
             end
           else (t <- py_getitem outs 0 ;; shape1 t)%res) ;;
   _ <- set_embedding_size size ;;
   let index :=
     {| ix_embedding_size := size;
        ix_distance := distance;
        ix_search := search;
        ix_kv_store := kv_store;
        ix_evaluator := evaluator;
        ix_embedding_output := embedding_output;
        ix_stat_buffer_size := stat_buffer_size |} in
   _ <- lift (Indexer_init index) ;;
   set_index index)%eff.

(** What [compile] hands on to [tf.keras.Model.compile]. *)
Variable KerasArgs : Type.
Variable keras_compile :
  KerasArgs -> loss_arg -> option Z -> Eff SimilarityModel unit.
(** [tf.executing_eagerly()] *)
Variable executing_eagerly : bool.

Definition auto_message (distance : Distance) : string :=
  ("Distance metric automatically set to " ++ distance_str distance
     ++ " use the distance arg to override.")%string.

Definition not_metric_loss_message : string :=
  "distance='auto' only works if the first loss is a metric loss".

(** The first loss: [loss[0]] of a non-empty list, the object itself
    when [loss] is not a list. *)
Definition first_loss (loss : loss_arg) : option Loss :=
  match loss with
  | LossNone => None
  | LossList [] => None
  | LossList (l :: _) => Some l
  | LossObject l => Some l
  end.

(** [try: distance = metric_loss.distance], with the [AttributeError]
    turned into a [ValueError]. *)
Definition metric_loss_distance (metric_loss : Loss) : result Distance :=
  match loss_distance metric_loss with
  | Some d => ok d
  | None => raise (ValueError not_metric_loss_message)
  end.

(** [SimilarityModel.compile]; [keras_args] stands for [optimizer],
    [metrics], [loss_weights], [weighted_metrics], [run_eagerly] and
    [**kwargs], which are passed on untouched. *)
Definition compile
    (keras_args : KerasArgs) (loss : loss_arg) (steps_per_execution : Z)
    (distance : distance_arg) (embedding_output : option Z)
    (kv_store : Store) (search : Search) (evaluator : Evaluator)
    (stat_buffer_size : Z) : Eff SimilarityModel unit :=
  (distance <-
     (if is_auto distance then
        distance <-
          lift (match loss with
                | LossNone => distances_get (DistanceName "cosine")
                | LossList losses =>
                    (metric_loss <- py_getitem losses 0 ;;
                     metric_loss_distance metric_loss)%res
                | LossObject metric_loss =>
                    metric_loss_distance metric_loss
                end) ;;
        _ <- print (auto_message distance) ;;
        eret distance
      else lift (distances_get distance)) ;;
   _ <- create_index distance search kv_store evaluator embedding_output
                     stat_buffer_size ;;
   if executing_eagerly
   then keras_compile keras_args loss (Some steps_per_execution)
   else keras_compile keras_args loss None)%eff.

End Source.

Arguments DistanceName {Distance} name.
Arguments DistanceObject {Distance} d.
Arguments LossNone {Distance}.

End SM.

(* ================================================================== *)
(** ** Vocabulary of the statements *)

Module Spec.

(** A computation that leaves the world as it found it. *)
Definition side_effect_free {W A} (m : Eff W A) : Prop :=
  forall w, snd (m w) = w.

Definition valid_positive_strategy (s : string) : Prop :=
  In s ["easy"; "hard"]%string.

Definition valid_negative_strategy (s : string) : Prop :=
  In s ["easy"; "hard"; "semi-hard"]%string.

Section Rows.
Context {T : Type} `{Scalar T}.

(** Column [j] of the row holds [v] and the mask keeps it. *)
Definition candidate (row : list T) (m : list bool) (j : nat) (v : T) : Prop :=
  nth_error row j = Some v /\ nth_error m j = Some true.

(** A negative strictly farther than [thr]. *)
Definition semi_hard_candidate (thr : T) (row : list T) (nrow : list bool)
    (j : nat) (v : T) : Prop :=
  candidate row nrow j v /\ ltb thr v = true.

(** [v] at column [j] is a minimum over the columns that satisfy [P]. *)
Definition minimum_among (P : nat -> T -> Prop) (j : nat) (v : T) : Prop :=
  P j v /\ forall k x, P k x -> leb v x = true.

(** [v] at column [j] is a maximum over the columns that satisfy [P]. *)
Definition maximum_among (P : nat -> T -> Prop) (j : nat) (v : T) : Prop :=
  P j v /\ forall k x, P k x -> leb x v = true.

(** The semi-hard selection relative to a positive distance [thr]: the
    minimum among the negatives strictly farther than [thr] if there is
    one, and the minimum among all negatives if there is none. *)
Definition semi_hard_selection (thr : T) (row : list T) (nrow : list bool)
    (j : nat) (v : T) : Prop :=
  ((exists k x, semi_hard_candidate thr row nrow k x) ->
   minimum_among (semi_hard_candidate thr row nrow) j v) /\
  ((~ exists k x, semi_hard_candidate thr row nrow k x) ->
   minimum_among (candidate row nrow) j v).

End Rows.

End Spec.

(* ================================================================== *)
(** ** A concrete batch *)

Module Example.
Import PN.
Local Open Scope string_scope.

(** Five points on a line, three of class 0 and two of class 1, compared by
    the L1 distance, which leaves the world alone. *)
Definition labels : list Z := [0; 0; 0; 1; 1]%Z.
Definition embeddings : matrix Z := [[0]; [1]; [5]; [3]; [7]]%Z.

Definition l1 (a b : list Z) : Z :=
  fold_right Z.add 0%Z (map2 (fun x y => Z.abs (x - y)) a b).

Definition l1_distance {W} : @Distance Z W :=
  fun queries keys w => (ok (map (fun q => map (l1 q) keys) queries), w).

Definition pairwise : matrix Z :=
  [[0; 1; 5; 3; 7];
   [1; 0; 4; 2; 6];
   [5; 4; 0; 2; 2];
   [3; 2; 2; 0; 4];
   [7; 6; 2; 4; 0]]%Z.

Definition positive_mask : mask :=
  [[false; true; true; false; false];
   [true; false; true; false; false];
   [true; true; false; false; false];
   [false; false; false; false; true];
   [false; false; false; true; false]].

Definition negative_mask : mask :=
  [[false; false; false; true; true];
   [false; false; false; true; true];
   [false; false; false; true; true];
   [true; true; true; false; false];
   [true; true; true; false; false]].

(** A registry that knows this distance under the name "l1". *)
Definition registry {W} (a : @distance_arg Z W) : result (@Distance Z W) :=
  match a with
  | DistanceObject d => ok d
  | DistanceName name =>
      if String.eqb name "l1" then ok l1_distance
      else raise (ValueError "Unknown distance")
  end.

(** A reducer that shows what it was given. *)
Definition show_loss (p n : list Z) (margin : option Z)
    : result (list Z * list Z * option Z) :=
  ok (p, n, margin).

(** Miners that read every strategy name as one they know. *)
Definition lenient_positive (s : string) : matrix Z -> mask -> result (list Z * list nat) :=
  Helpers.positive_distances (if String.eqb s "easy" then "easy" else "hard").

Definition lenient_negative (s : string)
    : matrix Z -> mask -> mask -> result (list Z * list nat) :=
  Helpers.negative_distances
    (if String.eqb s "easy" then "easy"
     else if String.eqb s "hard" then "hard" else "semi-hard").

(** A model with two output heads of 16 and 8 dimensions and no index
    yet; distances are known by their names, every index configuration
    is accepted, and Keras has nothing to object. *)
Definition model : SM.SimilarityModel string unit unit unit :=
  {| SM.output_names := ["embedding"; "aux"];
     SM.outputs := [[None; Some 16]; [None; Some 8]];
     SM.embedding_size := None;
     SM._ix := None;
     SM.stdout := [] |}.

Definition names_get (a : SM.distance_arg string) : result string :=
  match a with
  | SM.DistanceName name => ok name
  | SM.DistanceObject d => ok d
  end.

Definition accept_index (ix : SM.Indexer string unit unit unit) : result unit :=
  ok tt.

Definition keras_ok (args : unit) (loss : SM.loss_arg string)
    (steps_per_execution : option Z)
    : Eff (SM.SimilarityModel string unit unit unit) unit :=
  eret tt.

End Example.

(* ================================================================== *)
(** ** A [PNLoss] as the [loss] argument of [compile] *)

Module Link.

(** What [compile] sees of a [PNLoss] object: the attribute [distance] that
    [PNLoss.__init__] sets from [distances.get]. *)
Definition PNLoss_as_loss {T : Type} {W : Type} (self : @PN.PNLoss T W)
    : SM.Loss (@PN.Distance T W) :=
  {| SM.loss_distance := Some (PN.self_distance self) |}.

End Link.

(* ================================================================== *)
(** ** More concrete data *)

Module Example2.

(** One query against two keys: a 1 x 2 distance matrix. *)
Definition one_query : matrix Z := [[4; 9]]%Z.

(** A model with a single output head. *)
Definition single_head : SM.SimilarityModel string unit unit unit :=
  {| SM.output_names := ["embedding"%string];
     SM.outputs := [[None; Some 32]];
     SM.embedding_size := None;
     SM._ix := None;
     SM.stdout := [] |}.

(** An index constructor that knows the linear search only. *)
Definition linear_only (ix : SM.Indexer string string unit unit) : result unit :=
  if String.eqb (SM.ix_search ix) "linear" then ok tt
  else raise (ValueError "You need to either supply a known search framework name or a Search() object").

Definition two_heads : SM.SimilarityModel string string unit unit :=
  {| SM.output_names := ["embedding"%string; "aux"%string];
     SM.outputs := [[None; Some 16]; [None; Some 8]];
     SM.embedding_size := None;
     SM._ix := None;
     SM.stdout := [] |}.

(** The two-headed model after an index construction that failed in the
    constructor of the index: head 0 was announced and its size stored. *)
Definition two_heads_after_failure : SM.SimilarityModel string string unit unit :=
  {| SM.output_names := ["embedding"%string; "aux"%string];
     SM.outputs := [[None; Some 16]; [None; Some 8]];
     SM.embedding_size := Some (Some 16);
     SM._ix := None;
     SM.stdout := ["Embedding output set to be model output 0.  Use the embedding_output arg to override this."%string] |}.

(** The [PNLoss] built with the distance "l1" and nothing else, and a
    single-headed model whose distances are PN distance objects. *)
Definition l1_loss : @PN.PNLoss Z unit :=
  {| PN.self_distance := @Example.l1_distance unit;
     PN.self_base :=
       PN.MetricLoss_init "pn_loss"
         {| PN.kw_distance := Some (@Example.l1_distance unit);
            PN.kw_remove_diagonal := None;
            PN.kw_positive_mining_strategy := Some "hard"%string;
            PN.kw_negative_mining_strategy := Some "semi-hard"%string;
            PN.kw_margin := Some (@None Z) |} |}.

Definition fresh_model : SM.SimilarityModel (@PN.Distance Z unit) unit unit unit :=
  {| SM.output_names := ["embedding"%string];
     SM.outputs := [[None; Some 32]];
     SM.embedding_size := None;
     SM._ix := None;
     SM.stdout := [] |}.

Definition unknown_search : exn :=
  ValueError "You need to either supply a known search framework name or a Search() object".

End Example2.

(* ================================================================== *)
(** ** [models/similarity_model.py]: using the index *)

Module SMI.

(** Exception classes without a constructor in [exn], by their name. *)
Definition AttributeError (msg : string) : exn :=
  OtherError ("AttributeError: " ++ msg).
Definition KeyError (key : string) : exn :=
  OtherError ("KeyError: " ++ key).

(** A Python dict with string keys, in insertion order. *)
Definition dict (V : Type) : Type := list (string * V).

(** [d[key]] *)
Fixpoint dict_get {V} (d : dict V) (key : string) : result V :=
  match d with
  | [] => raise (KeyError key)
  | (k, v) :: d' => if String.eqb k key then ok v else dict_get d' key
  end.

(** [key in d] *)
Definition dict_mem {V} (d : dict V) (key : string) : bool :=
  existsb (fun kv => String.eqb (fst kv) key) d.

(** [d[key] = v]: a known key keeps its place, a new one goes last. *)
Fixpoint dict_set {V} (d : dict V) (key : string) (v : V) : dict V :=
  match d with
  | [] => [(key, v)]
  | (k, x) :: d' =>
      if String.eqb k key then (k, v) :: d' else (k, x) :: dict_set d' key v
  end.

(** [d.update(other)] *)
Definition dict_update {V} (d other : dict V) : dict V :=
  fold_left (fun acc kv => dict_set acc (fst kv) (snd kv)) other d.

(** [for a in l: ...], threading the variables the loop changes. *)
Fixpoint for_each {W A S} (body : A -> S -> Eff W S) (l : list A) (acc : S)
    : Eff W S :=
  match l with
  | [] => eret acc
  | a :: l' => (acc' <- body a acc ;; for_each body l' acc')%eff
  end.

(** A list comprehension whose element expression may raise. *)
Fixpoint map_result {A B} (f : A -> result B) (l : list A) : result (list B) :=
  match l with
  | [] => ok []
  | a :: l' => (b <- f a ;; bs <- map_result f l' ;; ok (b :: bs))%res
  end.

(** [d[key]] on a [defaultdict(dict)]: a missing key is inserted with an
    empty dict. *)
Definition defaultdict_get {V} (d : dict (dict V)) (key : string)
    : dict V * dict (dict V) :=
  if dict_mem d key
  then (match dict_get d key with inr v => v | inl _ => [] end, d)
  else ([], (d ++ [(key, [])])%list).

Definition newline : string :=
  String (Ascii.Ascii false true false true false false false false) EmptyString.

Section Source.
Variables Distance Search Store Evaluator : Type.

Local Abbreviation Model := (SM.SimilarityModel Distance Search Store Evaluator).
Local Abbreviation Indexer := (SM.Indexer Distance Search Store Evaluator).

(** What the index holds (records, calibration); together with the
    attributes of the model it makes up the world these methods run in. *)
Variable Contents : Type.
Definition World : Type := (Model * Contents)%type.

(** A method of the model object itself, run in the world. *)
Definition on_model {A} (m : Eff Model A) : Eff World A :=
  fun w =>
    match m (fst w) with
    | (r, self') => (r, (self', snd w))
    end.

Definition print (line : string) : Eff World unit := on_model (SM.print line).

(** [hasattr(self, "_ix")] *)
Definition hasattr_ix : Eff World bool :=
  fun w =>
    (ok (match SM._ix (fst w) with Some _ => true | None => false end), w).

(** [self._ix] *)
Definition getattr_ix : Eff World Indexer :=
  fun w =>
    match SM._ix (fst w) with
    | Some ix => (ok ix, w)
    | None =>
        (raise (AttributeError "'SimilarityModel' object has no attribute '_ix'"), w)
    end.

(** [bool(index)], the truth value of the index object. *)
Variable Indexer_bool : Indexer -> Eff World bool.

Definition no_index_message : string :=
  "The model does not currently have an index. To create an index you must call either model.compile() or model.create_index() and set a valid Distance.".

(** The getter of the [_index] property:
    [if not hasattr(self, "_ix") and self._ix: raise AttributeError(...)],
    then [return self._ix]. *)
Definition _index : Eff World Indexer :=
  (has <- hasattr_ix ;;
   condition <-
     (if negb has then (ix <- getattr_ix ;; Indexer_bool ix) else eret false) ;;
   if (condition : bool)
   then lift (raise (AttributeError no_index_message))
   else getattr_ix)%eff.

(** The [_index] setter. *)
Definition set__index (index : Indexer) : Eff World unit :=
  on_model (SM.set_index index).

(** Samples, what [predict] makes of them, labels, matchers. *)
Variables Samples Predictions Labels Matcher : Type.

(** [self.predict] of Keras. *)
Variable predict : Samples -> Eff World Predictions.

(** The attributes and methods of the index that the model calls. *)
Variable Indexer_is_calibrated : Indexer -> Eff World bool.
Variable Indexer_size : Indexer -> Eff World Z.
Variable Indexer_match :
  Indexer -> Predictions -> Z -> Z -> Matcher -> Z -> Eff World (dict Labels).

(** What [match] returns: all cutpoints, or the labels of one. *)
Inductive matches : Type :=
| AllCutpoints (m : dict Labels)
| OneCutpoint (labels : Labels).

Definition uncalibrated_message : string :=
  "Uncalibrated model: run model.calibration()".

(** [SimilarityModel.match] *)
Definition match_ (x : Samples) (cutpoint : string) (no_match_label k : Z)
    (matcher : Matcher) (verbose : Z) : Eff World matches :=
  (ix <- _index ;;
   calibrated <- Indexer_is_calibrated ix ;;
   if negb calibrated then lift (raise (ValueError uncalibrated_message))
   else
     predictions <- predict x ;;
     ix <- _index ;;
     found <- Indexer_match ix predictions no_match_label k matcher verbose ;;
     if String.eqb cutpoint "all" then eret (AllCutpoints found)
     else lift (labels <- dict_get found cutpoint ;; ok (OneCutpoint labels))%res)%eff.

(** Retrieval metrics and their values. *)
Variables RetrievalMetrics MetricValue : Type.
Variable Indexer_evaluate_retrieval :
  Indexer -> Predictions -> Labels -> RetrievalMetrics -> Z ->
  Eff World (dict MetricValue).
(** [tabulate(zip(results.keys(), results.values()), headers=headers)] *)
Variable tabulate_results : dict MetricValue -> list string -> string.

Definition empty_index_message : string :=
  "Index must contain embeddings but is currently empty. Have you run model.index()?".

Definition summary_title : string := (newline ++ " [Summary]" ++ newline)%string.

(** [if verbose: print(line)] *)
Definition print_if (verbose : Z) (line : string) : Eff World unit :=
  if (verbose =? 0)%Z then eret tt else print line.

(** [SimilarityModel.evaluate_retrieval] *)
Definition evaluate_retrieval (x : Samples) (y : Labels)
    (retrieval_metrics : RetrievalMetrics) (verbose : Z)
    : Eff World (dict MetricValue) :=
  (ix <- _index ;;
   n <- Indexer_size ix ;;
   if (n =? 0)%Z then lift (raise (IndexError empty_index_message))
   else
     _ <- print_if verbose "|-Computing embeddings" ;;
     predictions <- predict x ;;
     _ <- print_if verbose "|-Computing retrieval metrics" ;;
     ix <- _index ;;
     results <- Indexer_evaluate_retrieval ix predictions y retrieval_metrics verbose ;;
     _ <- (if (verbose =? 0)%Z then eret tt
           else
             _ <- print summary_title ;;
             print (tabulate_results results ["metric"; "Value"]%string)) ;;
     eret results)%eff.

(** Saving: [tf.keras.Model.save], paths, and [Indexer.save]. *)
Variables KerasSaveArgs Path : Type.
Variable keras_save : string -> bool -> KerasSaveArgs -> Eff World unit.
(** [Path(filepath) / "index"] *)
Variable index_path : string -> Path.
Variable Indexer_save : Indexer -> Path -> bool -> bool -> Eff World unit.

(** [SimilarityModel.save_index] *)
Definition save_index (filepath : string) (compression overwrite : bool)
    : Eff World unit :=
  (let index_path := index_path filepath in
   ix <- _index ;;
   Indexer_save ix index_path compression overwrite)%eff.

Definition not_saved_message : string :=
  "The index was not saved with the model.".
Definition no_index_to_save_message : string :=
  "The model does not currently have an index. To use indexing you must call either model.compile() or model.create_index() and set a valid Distance.".
Definition save_index_false_message : string :=
  " The save_index param is set to False.".

(** [SimilarityModel.save]; [keras_args] stands for [include_optimizer],
    [save_format], [signatures], [options] and [save_traces]. *)
Definition save (filepath : string) (save_index_flag compression overwrite : bool)
    (keras_args : KerasSaveArgs) : Eff World unit :=
  (_ <- keras_save filepath overwrite keras_args ;;
   has <- hasattr_ix ;;
   condition <-
     (if (has : bool) then
        ix <- _index ;;
        truth <- Indexer_bool ix ;;
        if (truth : bool) then eret save_index_flag else eret false
      else eret false) ;;
   if (condition : bool) then save_index filepath compression overwrite
   else
     let msg := not_saved_message in
     has <- hasattr_ix ;;
     let msg := if negb has then (msg ++ no_index_to_save_message)%string else msg in
     let msg := if negb save_index_flag
                then (msg ++ save_index_false_message)%string else msg in
     print msg)%eff.

(** Classification metrics, calibration, cutpoints and the progress bar. *)
Variables Float Array CutpointValue Metric CalibrationMetric ProgressBar : Type.

(** The values of a result entry: a name, a constant tensor holding the
    distance threshold, or an array computed by the index. *)
Inductive Value : Type :=
| VStr (s : string)
| VConstant (threshold : Float)
| VArray (a : Array).

Variable Indexer_get_calibration_metric : Indexer -> Eff World CalibrationMetric.
(** [cal_metric.name] *)
Variable metric_name : CalibrationMetric -> string.
(** [self._index.cutpoints] *)
Variable Indexer_cutpoints : Indexer -> Eff World (dict (dict CutpointValue)).
(** [float(...)] *)
Variable to_float : CutpointValue -> result Float.
Variable make_classification_metric : string -> result Metric.
Variable Indexer_evaluate_classification :
  Indexer -> Predictions -> Labels -> list Float -> list Metric -> Matcher -> Z ->
  Eff World (dict Array).
(** [tqdm(total=..., desc="Evaluating cutpoints")], [pb.update()],
    [pb.close()] *)
Variable tqdm : nat -> Eff World ProgressBar.
Variable pb_update : ProgressBar -> Eff World unit.
Variable pb_close : ProgressBar -> Eff World unit.
(** [tabulate(rows, headers=headers)] *)
Variable tabulate : list (list Value) -> list string -> string.

Definition empty_index_message_classification : string :=
  "Index must contain embeddings but is currently empty. Have you added examples via model.index()?".

(** The body of the loop over the cutpoints. *)
Definition evaluate_cutpoint (predictions : Predictions) (y : Labels) (k : Z)
    (extra_metrics : list Metric) (matcher : Matcher)
    (cal_metric : CalibrationMetric) (pb : option ProgressBar)
    (cp : string * dict CutpointValue) (results : dict (dict Value))
    : Eff World (dict (dict Value)) :=
  (let cp_name := fst cp in
   let cp_data := snd cp in
   distance_threshold <-
     lift (v <- dict_get cp_data "distance" ;; to_float v)%res ;;
   metric <- lift (make_classification_metric (metric_name cal_metric)) ;;
   let metrics := (extra_metrics ++ [metric])%list in
   let res : dict Value := [] in
   ix <- _index ;;
   computed <- Indexer_evaluate_classification
                 ix predictions y [distance_threshold] metrics matcher k ;;
   let res := dict_update res (map (fun kv => (fst kv, VArray (snd kv))) computed) in
   let res := dict_set res "distance" (VConstant distance_threshold) in
   let res := dict_set res "name" (VStr cp_name) in
   let results := dict_set results cp_name res in
   _ <- match pb with
        | Some p => pb_update p
        | None => eret tt
        end ;;
   eret results)%eff.

(** The summary table printed at the end when [verbose] is set. *)
Definition print_summary (cal_metric : CalibrationMetric)
    (results : dict (dict Value)) : Eff World (dict (dict Value)) :=
  (let headers := ["name"%string; metric_name cal_metric] in
   let (optimal, results) := defaultdict_get results "optimal" in
   let headers :=
     fold_left (fun hs i => if str_in i hs then hs else (hs ++ [i])%list)
               (map fst optimal) headers in
   rows <- lift (map_result
                   (fun data => map_result (fun v => dict_get data v) headers)
                   (map snd results)) ;;
   _ <- print summary_title ;;
   _ <- print (tabulate rows headers) ;;
   eret results)%eff.

(** [SimilarityModel.evaluate_classification] *)
Definition evaluate_classification (x : Samples) (y : Labels) (k : Z)
    (extra_metrics : list Metric) (matcher : Matcher) (verbose : Z)
    : Eff World (dict (dict Value)) :=
  (ix <- _index ;;
   n <- Indexer_size ix ;;
   if (n =? 0)%Z
   then lift (raise (IndexError empty_index_message_classification))
   else
     ix <- _index ;;
     calibrated <- Indexer_is_calibrated ix ;;
     if negb calibrated then lift (raise (ValueError uncalibrated_message))
     else
       ix <- _index ;;
       cal_metric <- Indexer_get_calibration_metric ix ;;
       _ <- print_if verbose "|-Computing embeddings" ;;
       predictions <- predict x ;;
       let results : dict (dict Value) := [] in
       pb <- (if (verbose =? 0)%Z then eret None
              else
                ix <- _index ;;
                cutpoints <- Indexer_cutpoints ix ;;
                p <- tqdm (length cutpoints) ;;
                eret (Some p)) ;;
       ix <- _index ;;
       cutpoints <- Indexer_cutpoints ix ;;
       results <- for_each
                    (evaluate_cutpoint predictions y k extra_metrics matcher
                                       cal_metric pb)
                    cutpoints results ;;
       _ <- match pb with
            | Some p => pb_close p
            | None => eret tt
            end ;;
       if (verbose =? 0)%Z then eret results
       else print_summary cal_metric results)%eff.

End Source.

End SMI.

(* ================================================================== *)
(** ** A concrete index *)

Module Example3.

Local Open Scope string_scope.

(** The index of the model: cosine distance, second head.  Its contents are
    the number of records and whether it is calibrated. *)
Definition cosine_index : SM.Indexer string unit unit unit :=
  {| SM.ix_embedding_size := Some 8;
     SM.ix_distance := "cosine";
     SM.ix_search := tt;
     SM.ix_kv_store := tt;
     SM.ix_evaluator := tt;
     SM.ix_embedding_output := Some 1%Z;
     SM.ix_stat_buffer_size := 1000%Z |}.

Definition indexed_model : SM.SimilarityModel string unit unit unit :=
  {| SM.output_names := ["embedding"; "aux"];
     SM.outputs := [[None; Some 16]; [None; Some 8]];
     SM.embedding_size := Some (Some 8);
     SM._ix := Some cosine_index;
     SM.stdout := [] |}.

Definition Contents : Type := (nat * bool)%type.
Definition World : Type := SMI.World string unit unit unit Contents.

Definition always_true (ix : SM.Indexer string unit unit unit) : Eff World bool :=
  eret true.

Definition is_calibrated (ix : SM.Indexer string unit unit unit) : Eff World bool :=
  fun w => (ok (snd (snd w)), w).

Definition size (ix : SM.Indexer string unit unit unit) : Eff World Z :=
  fun w => (ok (Z.of_nat (fst (snd w))), w).

(** Predictions are the samples themselves; every sample is matched with
    label 7 at the cutpoint "optimal". *)
Definition identity_predict (x : list Z) : Eff World (list Z) := eret x.

Definition match_all_seven (ix : SM.Indexer string unit unit unit)
    (predictions : list Z) (no_match_label k : Z) (matcher : unit) (verbose : Z)
    : Eff World (SMI.dict (list Z)) :=
  eret [("optimal", map (fun _ => 7%Z) predictions)].

Definition no_metrics (ix : SM.Indexer string unit unit unit)
    (predictions labels : list Z) (retrieval_metrics : unit) (verbose : Z)
    : Eff World (SMI.dict Z) :=
  eret [].

Definition keras_save_ok (filepath : string) (overwrite : bool) (args : unit)
    : Eff World unit :=
  eret tt.

Definition index_dir (filepath : string) : string := filepath ++ "/index".

Definition index_save_ok (ix : SM.Indexer string unit unit unit) (path : string)
    (compression overwrite : bool) : Eff World unit :=
  eret tt.

(** A calibrated index with three records, and an empty one. *)
Definition calibrated_world : World := (indexed_model, (3, true)).
Definition uncalibrated_world : World := (indexed_model, (3, false)).
Definition empty_world : World := (indexed_model, (0, false)).
Definition no_index_world : World := (Example.model, (0, false)).

(** Classification: metrics are known by their names, the calibration
    metric is "f1", the only cutpoint is "optimal" at distance 25, and the
    index reports one array per metric. *)
Definition calibration_metric (ix : SM.Indexer string unit unit unit)
    : Eff World string :=
  eret "f1".

Definition cutpoints (ix : SM.Indexer string unit unit unit)
    : Eff World (SMI.dict (SMI.dict Z)) :=
  eret [("optimal", [("value", 90%Z); ("distance", 25%Z)])].

Definition float_ok (v : Z) : result Z := ok v.

Definition metric_ok (name : string) : result string := ok name.

Definition one_array_per_metric (ix : SM.Indexer string unit unit unit)
    (predictions labels : list Z) (thresholds : list Z) (metrics : list string)
    (matcher : unit) (k : Z) : Eff World (SMI.dict (list Z)) :=
  eret (map (fun m => (m, thresholds)) metrics).

Definition no_bar (total : nat) : Eff World unit := eret tt.
Definition bar_ok (pb : unit) : Eff World unit := eret tt.

Definition headers_only (rows : list (list (SMI.Value Z (list Z))))
    (headers : list string) : string :=
  String.concat " " headers.

End Example3.

(* ================================================================== *)
(** ** [pn_loss], every call in the world *)

Module PNState.

(** [pn_loss] once more, with nothing taken for granted about what it
    calls: the distance, the four imported helpers and the five TensorFlow
    operations are all computations in the world [W].  What is left to
    [pn_loss] itself is the order of the calls and the local variables
    that carry a result from one call to the next. *)
Section Source.
Context {T : Type}.
Variables W L : Type.

Variable tf_size : list Z -> Eff W nat.
Variable build_masks : list Z -> list Z -> nat -> bool -> Eff W (mask * mask).
Variable positive_distances :
  string -> matrix T -> mask -> Eff W (list T * list nat).
Variable negative_distances :
  string -> matrix T -> mask -> mask -> Eff W (list T * list nat).
Variable tf_stack : list nat -> list nat -> Eff W (list (nat * nat)).
Variable tf_gather_nd : matrix T -> list (nat * nat) -> Eff W (list T).
Variable tf_reshape : list T -> Eff W (list T).
Variable tf_minimum : list T -> list T -> Eff W (list T).
Variable compute_loss : list T -> list T -> option T -> Eff W L.

Definition pn_loss
    (query_labels : list Z) (query_embeddings : matrix T)
    (key_labels : list Z) (key_embeddings : matrix T)
    (distance : matrix T -> matrix T -> Eff W (matrix T))
    (remove_diagonal : bool)
    (positive_mining_strategy negative_mining_strategy : string)
    (margin : option T) : Eff W L :=
  (batch_size <- tf_size query_labels ;;
   pairwise_distances <- distance query_embeddings key_embeddings ;;
   '(positive_mask, negative_mask) <-
       build_masks query_labels key_labels batch_size remove_diagonal ;;
   '(pos_distances, pos_idxs) <-
       positive_distances positive_mining_strategy
                          pairwise_distances positive_mask ;;
   '(neg_distances, neg_idxs) <-
       negative_distances negative_mining_strategy
                          pairwise_distances negative_mask positive_mask ;;
   pn_pairs <- tf_stack pos_idxs neg_idxs ;;
   pn_distances <- tf_gather_nd pairwise_distances pn_pairs ;;
   pn_distances <- tf_reshape pn_distances ;;
   neg_distances <- tf_minimum pn_distances neg_distances ;;
   compute_loss pos_distances neg_distances margin)%eff.

End Source.

End PNState.

(* ================================================================== *)
(** ** Two more batches *)

Module Example4.
Import PN.
Local Open Scope string_scope.

(** Four points on a line, two of class 0 and two of class 1, compared by
    a distance that is not symmetric: from [x] to [y] costs [y - x] going
    up and three times [x - y] going down. *)
Definition labels : list Z := [0; 0; 1; 1]%Z.
Definition embeddings : matrix Z := [[0]; [2]; [1]; [5]]%Z.

Definition uphill (a b : list Z) : Z :=
  fold_right Z.add 0%Z
    (map2 (fun x y => if (x <=? y)%Z then (y - x)%Z else (3 * (x - y))%Z) a b).

Definition uphill_distance {W} : @Distance Z W :=
  fun queries keys w => (ok (map (fun q => map (uphill q) keys) queries), w).

Definition pairwise : matrix Z :=
  [[0; 2; 1; 5];
   [6; 0; 3; 3];
   [3; 1; 0; 4];
   [15; 9; 12; 0]]%Z.

Definition positive_mask : mask :=
  [[false; true; false; false];
   [true; false; false; false];
   [false; false; false; true];
   [false; false; true; false]].

Definition negative_mask : mask :=
  [[false; false; true; true];
   [false; false; true; true];
   [true; true; false; false];
   [true; true; false; false]].

(** The L1 distance in the unit the world prescribes: it reads the world
    and leaves it as it is. *)
Definition scaled_l1_distance : matrix Z -> matrix Z -> Eff Z (matrix Z) :=
  fun queries keys w =>
    (ok (map (fun q => map (fun k => (w * Example.l1 q k)%Z) keys) queries), w).

(** The same labels over the reals: the points 0, 1, 3 and 7 compared by
    the squared Euclidean distance. *)
Definition points : matrix R := [[0]; [1]; [3]; [7]]%R.

Definition squared_l2 (a b : list R) : R :=
  fold_right Rplus 0%R (map2 (fun x y => ((x - y) * (x - y))%R) a b).

Definition squared_l2_distance {W} : @Distance R W :=
  fun queries keys w => (ok (map (fun q => map (squared_l2 q) keys) queries), w).

Definition squares : matrix R :=
  [[0; 1; 9; 49];
   [1; 0; 4; 36];
   [9; 4; 0; 16];
   [49; 36; 16; 0]]%R.

(** An index whose cutpoints do not include "optimal". *)
Definition cutpoints_without_optimal (ix : SM.Indexer string unit unit unit)
    : Eff Example3.World (SMI.dict (SMI.dict Z)) :=
  eret [("0.9", [("value", 90%Z); ("distance", 25%Z)])].

End Example4.

(* ================================================================== *)
(** * Properties *)

Import PN Spec.
Unset Implicit Arguments.
Local Open Scope string_scope.

(** ** The scalar instances are strict total orders *)

#[global] Instance ScalarOrder_Z : ScalarOrder Z.
Proof.
  split; cbn; intros.
  - apply Z.ltb_irrefl.
  - apply Z.ltb_lt in H, H0. apply Z.ltb_lt. lia.
  - apply Z.ltb_ge in H, H0. lia.
Qed.

#[global] Instance ScalarOrder_R : ScalarOrder R.
Proof.
  split; cbn; intros.
  - destruct (Rlt_dec x x); [lra | reflexivity].
  - destruct (Rlt_dec x y), (Rlt_dec y z), (Rlt_dec x z);
      try discriminate; try reflexivity; lra.
  - destruct (Rlt_dec x y), (Rlt_dec y x); try discriminate; lra.
Qed.

(** ** The tensor operations *)

Section TensorFacts.
Context {T : Type} `{Scalar T}.

Lemma map2_length {A B C} (f : A -> B -> C) (a : list A) (b : list B) :
  length a = length b -> length (map2 f a b) = length b.
Proof.
  revert b; induction a as [|x a IH]; intros [|y b]; cbn; intros E;
    try discriminate; auto.
Qed.

Lemma map2_nth {A B C} (f : A -> B -> C) (a : list A) (b : list B) da db dc i :
  i < length a -> i < length b ->
  nth i (map2 f a b) dc = f (nth i a da) (nth i b db).
Proof.
  revert b i; induction a as [|x a IH]; intros [|y b] [|i]; cbn; intros;
    try lia; auto.
  apply IH; lia.
Qed.

Lemma stack_axis1_ok (a b : list nat) :
  length a = length b -> stack_axis1 a b = ok (combine a b).
Proof.
  intros E. unfold stack_axis1. rewrite E, Nat.eqb_refl. reflexivity.
Qed.

Lemma minimum_same_length (a b : list T) :
  length a = length b -> minimum a b = ok (map2 minimum1 a b).
Proof.
  intros E. unfold minimum. rewrite E, Nat.eqb_refl. reflexivity.
Qed.

(** [gather_nd] succeeds exactly when every pair is within bounds, and
    then returns the entries in order. *)
Lemma gather_nd_ok (P : matrix T) (idx : list (nat * nat)) :
  (forall i, i < length idx ->
             entry P (fst (nth i idx (0, 0))) (snd (nth i idx (0, 0))) <> None) ->
  exists vs,
    gather_nd P idx = ok vs /\
    length vs = length idx /\
    forall i, i < length idx ->
      entry P (fst (nth i idx (0, 0))) (snd (nth i idx (0, 0)))
      = Some (nth i vs zero).
Proof.
  induction idx as [|[r c] idx IH]; intros Hin.
  - exists []. repeat split; cbn; intros; lia.
  - destruct IH as (vs & Hg & Hl & Hv).
    { intros i Hi. apply (Hin (S i)). cbn. lia. }
    pose proof (Hin 0 ltac:(cbn; lia)) as H0. cbn in H0.
    destruct (entry P r c) as [v|] eqn:Ev; [|congruence].
    exists (v :: vs). cbn. rewrite Ev, Hg. repeat split.
    + cbn. now rewrite Hl.
    + intros [|i] Hi; cbn; [assumption|]. apply Hv. lia.
Qed.

Lemma gather_nd_inv (P : matrix T) (idx : list (nat * nat)) vs :
  gather_nd P idx = ok vs ->
  length vs = length idx /\
  forall i, i < length idx ->
    entry P (fst (nth i idx (0, 0))) (snd (nth i idx (0, 0)))
    = Some (nth i vs zero).
Proof.
  revert vs; induction idx as [|[r c] idx IH]; cbn; intros vs E.
  - inversion E; subst. split; [reflexivity | cbn; intros; lia].
  - destruct (entry P r c) as [v|] eqn:Ev; [|discriminate].
    destruct (gather_nd P idx) as [e|vs'] eqn:Eg; [discriminate|].
    inversion E; subst. destruct (IH vs' eq_refl) as [Hl Hv].
    split; [cbn; now rewrite Hl|].
    intros [|i] Hi; cbn; [assumption|]. apply Hv. lia.
Qed.

Lemma minimum1_le_right `{!ScalarOrder T} (x y : T) :
  leb (minimum1 x y) y = true.
Proof.
  unfold leb, minimum1. destruct (ltb y x) eqn:E.
  - now rewrite ltb_irrefl.
  - now rewrite E.
Qed.

Lemma minimum1_le_left `{!ScalarOrder T} (x y : T) :
  leb (minimum1 x y) x = true.
Proof.
  unfold leb, minimum1. destruct (ltb y x) eqn:E.
  - destruct (ltb x y) eqn:E'; [|reflexivity].
    pose proof (ltb_trans x y x E' E) as Hxx. now rewrite ltb_irrefl in Hxx.
  - now rewrite ltb_irrefl.
Qed.

Lemma minimum1_cases (x y : T) : minimum1 x y = x \/ minimum1 x y = y.
Proof. unfold minimum1. destruct (ltb y x); auto. Qed.

(** An entry of a rank-2 tensor, as two list lookups. *)
Lemma entry_lookup (P : matrix T) r c v :
  entry P r c = Some v <->
  exists row, nth_error P r = Some row /\ nth_error row c = Some v.
Proof.
  unfold entry. destruct (nth_error P r) as [row|]; split.
  - eauto.
  - intros (row' & E & Hv). inversion E; now subst.
  - discriminate.
  - intros (row' & E & _). discriminate.
Qed.

Lemma entry_in_bounds (P : matrix T) r c :
  (exists row, nth_error P r = Some row /\ c < length row) <->
  entry P r c <> None.
Proof.
  unfold entry. destruct (nth_error P r) as [row|]; split.
  - intros (row' & E & Hc). inversion E; subst. now apply nth_error_Some.
  - intros Hc. exists row. split; [reflexivity | now apply nth_error_Some].
  - intros (row' & E & _). discriminate.
  - congruence.
Qed.

End TensorFacts.

(** ** [pn_loss] *)

Section PNLossFacts.
Context {T : Type} `{Scalar T}.
Variables W L : Type.
Variable build_masks : list Z -> list Z -> nat -> bool -> result (mask * mask).
Variable positive_distances :
  string -> matrix T -> mask -> result (list T * list nat).
Variable negative_distances :
  string -> matrix T -> mask -> mask -> result (list T * list nat).
Variable compute_loss : list T -> list T -> option T -> result L.

Local Abbreviation pn_loss :=
  (pn_loss build_masks positive_distances negative_distances compute_loss).

(** Once the distance matrix, the masks and the two selections are there,
    [pn_loss] is the cross term followed by [compute_loss]. *)
Lemma pn_loss_unfold ql qe kl ke (distance : Distance W) rd ps ns margin
      w w' D pm nm pd pi nd ni :
  distance qe ke w = (ok D, w') ->
  build_masks ql kl (size ql) rd = ok (pm, nm) ->
  positive_distances ps D pm = ok (pd, pi) ->
  negative_distances ns D nm pm = ok (nd, ni) ->
  pn_loss ql qe kl ke distance rd ps ns margin w
  = (rbind (cross_term D pi ni nd) (fun eff => compute_loss pd eff margin), w').
Proof.
  intros Hd Hm Hp Hn. unfold PN.pn_loss, ebind, lift, cross_term.
  rewrite Hd. cbn. rewrite Hm. cbn. rewrite Hp. cbn. rewrite Hn. cbn.
  destruct (stack_axis1 pi ni); cbn; [reflexivity|].
  destruct (gather_nd D l); cbn; [reflexivity|].
  destruct (minimum (reshape_column l0) nd); reflexivity.
Qed.

(** With one selection per anchor and the selected pairs inside the
    matrix, the cross term is defined: the gathered entries, and their
    element-wise minimum with the mined negative distances. *)
Lemma cross_term_ok (D : matrix T) (pi ni : list nat) (nd : list T) :
  length pi = length nd -> length ni = length nd ->
  (forall i, i < length nd -> entry D (nth i pi 0) (nth i ni 0) <> None) ->
  exists cross eff,
    cross_term D pi ni nd = ok eff /\
    length cross = length nd /\ length eff = length nd /\
    (forall i, i < length nd ->
       entry D (nth i pi 0) (nth i ni 0) = Some (nth i cross zero)) /\
    (forall i, i < length nd ->
       nth i eff zero = minimum1 (nth i cross zero) (nth i nd zero)).
Proof.
  intros Hpi Hni Hin.
  assert (Hlen : length (combine pi ni) = length nd).
  { rewrite length_combine. lia. }
  assert (Hnth : forall i, nth i (combine pi ni) (0, 0) = (nth i pi 0, nth i ni 0)).
  { intros i. apply combine_nth. lia. }
  destruct (gather_nd_ok D (combine pi ni)) as (vs & Hg & Hl & Hv).
  { intros i Hi. rewrite Hnth. cbn. apply Hin. lia. }
  exists vs, (map2 minimum1 vs nd).
  unfold cross_term. rewrite stack_axis1_ok by lia. cbn.
  rewrite Hg. cbn. unfold reshape_column.
  rewrite minimum_same_length by lia.
  repeat split.
  - lia.
  - rewrite map2_length; lia.
  - intros i Hi. specialize (Hv i ltac:(lia)). rewrite Hnth in Hv. exact Hv.
  - intros i Hi. apply map2_nth; lia.
Qed.

(** C1. For every batch, [pn_loss] reads for each anchor [i] the cell of
    the pairwise distances in row [pos_idxs[i]] and column [neg_idxs[i]]
    (the pos-neg cross distance), for the indices the two miners returned.
    What it passes to [compute_loss] as the negative distance of [i] is
    the minimum of that cell and the mined [neg_distances[i]]: it is at
    most either of them and equal to one of them. *)
Theorem pn_loss_cross_distance `{!ScalarOrder T}
    ql qe kl ke (distance : Distance W) rd ps ns margin
    w w' D pm nm pd pi nd ni :
  distance qe ke w = (ok D, w') ->
  build_masks ql kl (size ql) rd = ok (pm, nm) ->
  positive_distances ps D pm = ok (pd, pi) ->
  negative_distances ns D nm pm = ok (nd, ni) ->
  length pi = length nd -> length ni = length nd ->
  (forall i, i < length nd ->
     exists row, nth_error D (nth i pi 0) = Some row /\ nth i ni 0 < length row) ->
  exists eff,
    pn_loss ql qe kl ke distance rd ps ns margin w
    = (compute_loss pd eff margin, w') /\
    length eff = length nd /\
    forall i, i < length nd ->
      exists row cross,
        nth_error D (nth i pi 0) = Some row /\
        nth_error row (nth i ni 0) = Some cross /\
        leb (nth i eff zero) cross = true /\
        leb (nth i eff zero) (nth i nd zero) = true /\
        (nth i eff zero = cross \/ nth i eff zero = nth i nd zero).
Proof.
  intros Hd Hm Hp Hn Hpi Hni Hin.
  destruct (cross_term_ok D pi ni nd Hpi Hni) as (cross & eff & Hc & _ & Hle & Hcross & Heff).
  { intros i Hi. apply entry_in_bounds. exact (Hin i Hi). }
  exists eff. split; [|split].
  - rewrite (pn_loss_unfold ql qe kl ke distance rd ps ns margin
               w w' D pm nm pd pi nd ni Hd Hm Hp Hn).
    rewrite Hc. reflexivity.
  - exact Hle.
  - intros i Hi.
    destruct (proj1 (entry_lookup D _ _ _) (Hcross i Hi)) as (row & Hrow & Hcell).
    exists row, (nth i cross zero). rewrite (Heff i Hi).
    split; [exact Hrow|]. split; [exact Hcell|]. split; [|split].
    + apply minimum1_le_left.
    + apply minimum1_le_right.
    + apply minimum1_cases.
Qed.

(** C5. For every batch and every anchor [i], the negative distance
    [pn_loss] passes to [compute_loss] is at most the distance the
    negative miner returned for [i]. *)
Theorem pn_loss_effective_negative_le `{!ScalarOrder T}
    ql qe kl ke (distance : Distance W) rd ps ns margin
    w w' D pm nm pd pi nd ni eff :
  distance qe ke w = (ok D, w') ->
  build_masks ql kl (size ql) rd = ok (pm, nm) ->
  positive_distances ps D pm = ok (pd, pi) ->
  negative_distances ns D nm pm = ok (nd, ni) ->
  length pi = length nd ->
  cross_term D pi ni nd = ok eff ->
  pn_loss ql qe kl ke distance rd ps ns margin w
  = (compute_loss pd eff margin, w') /\
  length eff = length nd /\
  forall i, i < length nd -> leb (nth i eff zero) (nth i nd zero) = true.
Proof.
  intros Hd Hm Hp Hn Hpi Hc. split.
  { rewrite (pn_loss_unfold ql qe kl ke distance rd ps ns margin
               w w' D pm nm pd pi nd ni Hd Hm Hp Hn).
    rewrite Hc. reflexivity. }
  unfold cross_term, stack_axis1 in Hc.
  destruct (Nat.eqb (length pi) (length ni)) eqn:El; [|discriminate].
  apply Nat.eqb_eq in El. cbn in Hc.
  destruct (gather_nd D (combine pi ni)) as [e|vs] eqn:Eg; [discriminate|].
  cbn in Hc. unfold reshape_column in Hc.
  destruct (gather_nd_inv _ _ _ Eg) as [Hl _].
  rewrite length_combine in Hl.
  rewrite minimum_same_length in Hc by lia.
  inversion Hc; subst eff. split.
  - rewrite map2_length; lia.
  - intros i Hi.
    rewrite (map2_nth minimum1 vs nd zero zero zero) by lia.
    apply minimum1_le_right.
Qed.

End PNLossFacts.

(** ** No state of its own *)

Section PNLossState.
Context {T : Type}.
Variables W L : Type.
Variable tf_size : list Z -> Eff W nat.
Variable build_masks : list Z -> list Z -> nat -> bool -> Eff W (mask * mask).
Variable positive_distances :
  string -> matrix T -> mask -> Eff W (list T * list nat).
Variable negative_distances :
  string -> matrix T -> mask -> mask -> Eff W (list T * list nat).
Variable tf_stack : list nat -> list nat -> Eff W (list (nat * nat)).
Variable tf_gather_nd : matrix T -> list (nat * nat) -> Eff W (list T).
Variable tf_reshape : list T -> Eff W (list T).
Variable tf_minimum : list T -> list T -> Eff W (list T).
Variable compute_loss : list T -> list T -> option T -> Eff W L.

Local Abbreviation pn_loss :=
  (PNState.pn_loss tf_size build_masks positive_distances negative_distances
                   tf_stack tf_gather_nd tf_reshape tf_minimum compute_loss).

Lemma side_effect_free_ebind {A B} (m : Eff W A) (k : A -> Eff W B) :
  side_effect_free m -> (forall a, side_effect_free (k a)) ->
  side_effect_free (ebind m k).
Proof.
  intros Hm Hk w. unfold ebind. specialize (Hm w).
  destruct (m w) as [[e|a] w1]; cbn in *; subst w1; [reflexivity | apply Hk].
Qed.


End PNLossState.

(** With callees that are functions of their arguments, this is the
    [pn_loss] of the other statements. *)
Lemma pn_loss_of_functions {T : Type} `{Scalar T} (W L : Type)
    (build_masks : list Z -> list Z -> nat -> bool -> result (mask * mask))
    (positive_distances : string -> matrix T -> mask -> result (list T * list nat))
    (negative_distances :
       string -> matrix T -> mask -> mask -> result (list T * list nat))
    (compute_loss : list T -> list T -> option T -> result L)
    ql qe kl ke (distance : Distance W) rd ps ns margin w :
  PNState.pn_loss
    (fun labels => eret (size labels))
    (fun q k n r => lift (build_masks q k n r))
    (fun s D m => lift (positive_distances s D m))
    (fun s D n p => lift (negative_distances s D n p))
    (fun a b => lift (stack_axis1 a b))
    (fun P idx => lift (gather_nd P idx))
    (fun v => eret (reshape_column v))
    (fun a b => lift (minimum a b))
    (fun p n m => lift (compute_loss p n m))
    ql qe kl ke distance rd ps ns margin w
  = PN.pn_loss build_masks positive_distances negative_distances compute_loss
               ql qe kl ke distance rd ps ns margin w.
Proof.
  unfold PNState.pn_loss, PN.pn_loss, ebind, rbind, lift, eret. cbn.
  destruct (distance qe ke w) as [[e|D] w1]; [reflexivity|].
  destruct (build_masks ql kl (size ql) rd) as [e|[pm nm]]; cbn; [reflexivity|].
  destruct (positive_distances ps D pm) as [e|[pd pi]]; cbn; [reflexivity|].
  destruct (negative_distances ns D nm pm) as [e|[nd ni]]; cbn; [reflexivity|].
  destruct (stack_axis1 pi ni) as [e|pairs]; cbn; [reflexivity|].
  destruct (gather_nd D pairs) as [e|cross]; cbn; [reflexivity|].
  destruct (minimum (reshape_column cross) nd) as [e|eff]; reflexivity.
Qed.

(** ** Defaults and validation *)

Section PNLossInterface.
Context {T : Type} `{Scalar T}.
Variables W L : Type.
Variable build_masks : list Z -> list Z -> nat -> bool -> result (mask * mask).
Variable positive_distances :
  string -> matrix T -> mask -> result (list T * list nat).
Variable negative_distances :
  string -> matrix T -> mask -> mask -> result (list T * list nat).
Variable compute_loss : list T -> list T -> option T -> result L.
Variable distances_get : @distance_arg T W -> result (@Distance T W).

Local Abbreviation pn_loss :=
  (pn_loss build_masks positive_distances negative_distances compute_loss).
Local Abbreviation pn_loss_call :=
  (pn_loss_call build_masks positive_distances negative_distances compute_loss).
Local Abbreviation PNLoss_call :=
  (PNLoss_call build_masks positive_distances negative_distances compute_loss).
Local Abbreviation PNLoss_init := (PNLoss_init distances_get).
Local Abbreviation cosine := (@DistanceName T W "cosine").

Lemma str_in_In (s : string) (l : list string) :
  str_in s l = true <-> In s l.
Proof.
  unfold str_in. rewrite existsb_exists. split.
  - intros (x & Hx & E). apply String.eqb_eq in E. now subst.
  - intros Hs. exists s. split; [assumption | apply String.eqb_refl].
Qed.

Lemma str_in_not_In (s : string) (l : list string) :
  str_in s l = false <-> ~ In s l.
Proof.
  rewrite <- str_in_In. destruct (str_in s l); intuition congruence.
Qed.

(** What the constructor returns, by the validity of the two strategies. *)
Lemma PNLoss_init_cases distance ps ns margin name rd d :
  distances_get (default cosine distance) = ok d ->
  let p := default "hard"%string ps in
  let n := default "semi-hard"%string ns in
  PNLoss_init distance ps ns margin name rd =
    if negb (str_in p ["easy"; "hard"]%string)
    then raise (ValueError "Invalid positive mining strategy.")
    else if negb (str_in n ["easy"; "hard"; "semi-hard"]%string)
    then raise (ValueError "Invalid negative mining strategy.")
    else ok {| self_distance := d;
               self_base :=
                 MetricLoss_init (default "pn_loss"%string name)
                   {| kw_distance := Some d;
                      kw_remove_diagonal := rd;
                      kw_positive_mining_strategy := Some p;
                      kw_negative_mining_strategy := Some n;
                      kw_margin := Some (default None margin) |} |}.
Proof.
  intros Hd p n. unfold PN.PNLoss_init. rewrite Hd. reflexivity.
Qed.

(** C7. The defaults: [remove_diagonal] is true, the positive strategy is
    "hard", the negative strategy is "semi-hard" and the margin is absent,
    for a call of [pn_loss] that passes none of them and for a [PNLoss]
    built without them (the constructor stores "hard", "semi-hard" and no
    margin, does not set [remove_diagonal], and a call of the object
    therefore runs [pn_loss] with [remove_diagonal] true). *)
Theorem pn_loss_defaults :
  (forall ql qe kl ke (distance : Distance W),
     pn_loss_call ql qe kl ke
       {| kw_distance := Some distance;
          kw_remove_diagonal := None;
          kw_positive_mining_strategy := None;
          kw_negative_mining_strategy := None;
          kw_margin := None |}
     = pn_loss ql qe kl ke distance true "hard" "semi-hard" None) /\
  (forall distance name d,
     distances_get (default cosine distance) = ok d ->
     exists self,
       PNLoss_init distance None None None name None = ok self /\
       kw_positive_mining_strategy (ml_fn_kwargs (self_base self)) = Some "hard"%string /\
       kw_negative_mining_strategy (ml_fn_kwargs (self_base self)) = Some "semi-hard"%string /\
       kw_margin (ml_fn_kwargs (self_base self)) = Some None /\
       kw_remove_diagonal (ml_fn_kwargs (self_base self)) = None /\
       forall y_true y_pred,
         PNLoss_call self y_true y_pred
         = pn_loss y_true y_pred y_true y_pred d true "hard" "semi-hard" None).
Proof.
  split.
  - reflexivity.
  - intros distance name d Hd.
    rewrite (PNLoss_init_cases distance None None None name None d Hd).
    cbn. eexists. split; [reflexivity|]. cbn. repeat split; reflexivity.
Qed.

(** C4. With a valid distance, constructing a [PNLoss] raises (a
    [ValueError], at construction, where no batch is involved) if and only
    if the positive strategy is not one of easy, hard or the negative
    strategy is not one of easy, hard, semi-hard.  "bogus" as positive
    strategy raises at construction; an object that exists carries valid
    strategies, and calling it hands them to [pn_loss] as they are. *)
Theorem PNLoss_init_validation distance ps ns margin name rd d :
  distances_get (default cosine distance) = ok d ->
  let p := default "hard"%string ps in
  let n := default "semi-hard"%string ns in
  ((exists e, PNLoss_init distance ps ns margin name rd = raise e) <->
   (~ valid_positive_strategy p \/ ~ valid_negative_strategy n)) /\
  (forall e, PNLoss_init distance ps ns margin name rd = raise e ->
     e = ValueError "Invalid positive mining strategy." \/
     e = ValueError "Invalid negative mining strategy.") /\
  PNLoss_init distance (Some "bogus"%string) ns margin name rd
    = raise (ValueError "Invalid positive mining strategy.") /\
  (forall self, PNLoss_init distance ps ns margin name rd = ok self ->
     valid_positive_strategy p /\ valid_negative_strategy n /\
     forall y_true y_pred,
       PNLoss_call self y_true y_pred
       = pn_loss y_true y_pred y_true y_pred d (default true rd) p n
                 (default None margin)).
Proof.
  intros Hd p n.
  pose proof (PNLoss_init_cases distance ps ns margin name rd d Hd) as E.
  cbv zeta in E. fold p n in E.
  pose proof (str_in_In p ["easy"; "hard"]%string) as Hp.
  pose proof (str_in_In n ["easy"; "hard"; "semi-hard"]%string) as Hn.
  unfold valid_positive_strategy, valid_negative_strategy.
  destruct (str_in p ["easy"; "hard"]%string) eqn:Ep;
    [destruct (str_in n ["easy"; "hard"; "semi-hard"]%string) eqn:En|];
    cbn in E; rewrite E; repeat split.
  - intros [e He]. discriminate.
  - intros [Hc|Hc]; exfalso; apply Hc; [apply Hp | apply Hn]; reflexivity.
  - intros e He. discriminate.
  - rewrite (PNLoss_init_cases distance (Some "bogus"%string) ns margin name rd d Hd).
    reflexivity.
  - apply Hp; reflexivity.
  - apply Hn; reflexivity.
  - intros y_true y_pred. inversion H0; subst self. reflexivity.
  - intros _. right. intros Hc. apply Hn in Hc. discriminate.
  - intros _. eexists; reflexivity.
  - intros e He. right. inversion He. reflexivity.
  - rewrite (PNLoss_init_cases distance (Some "bogus"%string) ns margin name rd d Hd).
    reflexivity.
  - discriminate.
  - discriminate.
  - discriminate.
  - intros _. left. intros Hc. apply Hp in Hc. discriminate.
  - intros _. eexists; reflexivity.
  - intros e He. left. inversion He. reflexivity.
  - rewrite (PNLoss_init_cases distance (Some "bogus"%string) ns margin name rd d Hd).
    reflexivity.
  - discriminate.
  - discriminate.
  - discriminate.
Qed.

End PNLossInterface.

Section PNLossEntry.
Context {T : Type} `{Scalar T}.
Variables W L : Type.
Variable build_masks : list Z -> list Z -> nat -> bool -> result (mask * mask).
Variable positive_distances :
  string -> matrix T -> mask -> result (list T * list nat).
Variable negative_distances :
  string -> matrix T -> mask -> mask -> result (list T * list nat).
Variable compute_loss : list T -> list T -> option T -> result L.
Variable distances_get : @distance_arg T W -> result (@Distance T W).

Local Abbreviation pn_loss :=
  (pn_loss build_masks positive_distances negative_distances compute_loss).
Local Abbreviation PNLoss_init := (PNLoss_init distances_get).
Local Abbreviation cosine := (@DistanceName T W "cosine").

(** C8. [pn_loss] does not validate the two strategy names: it treats them
    as opaque values for the miners (renaming them before the call is
    renaming them inside the miners), and for every name the miners
    accept it goes on to the cross term; the names are checked in the
    constructor of [PNLoss], which rejects what is outside the
    enumerations. *)
Theorem pn_loss_no_strategy_validation :
  (forall (f g : string -> string) ql qe kl ke (distance : Distance W)
          rd ps ns margin,
     PN.pn_loss build_masks
                (fun s => positive_distances (f s))
                (fun s => negative_distances (g s))
                compute_loss ql qe kl ke distance rd ps ns margin
     = pn_loss ql qe kl ke distance rd (f ps) (g ns) margin) /\
  (forall ql qe kl ke (distance : Distance W) rd ps ns margin
          w w' D pm nm pd pi nd ni,
     distance qe ke w = (ok D, w') ->
     build_masks ql kl (size ql) rd = ok (pm, nm) ->
     positive_distances ps D pm = ok (pd, pi) ->
     negative_distances ns D nm pm = ok (nd, ni) ->
     pn_loss ql qe kl ke distance rd ps ns margin w
     = (rbind (cross_term D pi ni nd) (fun eff => compute_loss pd eff margin), w')) /\
  (forall distance ps ns margin name rd d,
     distances_get (default cosine distance) = ok d ->
     ~ (valid_positive_strategy ps /\ valid_negative_strategy ns) ->
     exists msg,
       PNLoss_init distance (Some ps) (Some ns) margin name rd
       = raise (ValueError msg)).
Proof.
  split; [|split].
  - reflexivity.
  - intros. eapply pn_loss_unfold; eassumption.
  - intros distance ps ns margin name rd d Hd Hbad.
    rewrite (PNLoss_init_cases W distances_get distance (Some ps) (Some ns)
                               margin name rd d Hd).
    cbv beta iota zeta delta [default].
    unfold valid_positive_strategy, valid_negative_strategy in Hbad.
    destruct (str_in ps ["easy"; "hard"]) eqn:Ep; cbv beta iota delta [negb];
      [|eexists; reflexivity].
    destruct (str_in ns ["easy"; "hard"; "semi-hard"]) eqn:En;
      cbv beta iota delta [negb]; [|eexists; reflexivity].
    exfalso. apply Hbad. split; now apply str_in_In.
Qed.

End PNLossEntry.

(** ** The statements above on the concrete batch *)

Module Witness.
Import Example.

Local Abbreviation pn_loss_ex :=
  (pn_loss (@Helpers.build_masks) Helpers.positive_distances
           Helpers.negative_distances show_loss).

Local Abbreviation pn_loss_uphill :=
  (pn_loss (@Helpers.build_masks) Helpers.positive_distances
           Helpers.negative_distances show_loss
           Example4.labels Example4.embeddings Example4.labels Example4.embeddings
           Example4.uphill_distance true "hard" "semi-hard" None).

Lemma uphill_pairs_in_bounds :
  forall i, i < 4 ->
    exists row,
      nth_error Example4.pairwise (nth i [1; 0; 3; 2] 0) = Some row /\
      nth i [3; 2; 1; 0] 0 < length row.
Proof.
  intros i Hi.
  do 4 (destruct i as [|i]; [eexists; split; [reflexivity | cbn; lia]|]). lia.
Qed.

(** On the batch with the asymmetric distance the cells read are
    [D[1][3] = 3], [D[0][2] = 1], [D[3][1] = 9] and [D[2][0] = 3] (their
    mirror images are 9, 3, 3 and 1), and the minimum with the mined
    [5; 3; 1; 15] is the cell for anchors 0, 1 and 3 and the mined
    distance for anchor 2. *)
Lemma pn_loss_cross_distance_witness :
  pn_loss_uphill tt = (show_loss [2; 6; 4; 12]%Z [3; 1; 1; 3]%Z None, tt) /\
  length [3; 1; 1; 3]%Z = 4 /\
  forall i, i < 4 ->
    exists row cross,
      nth_error Example4.pairwise (nth i [1; 0; 3; 2] 0) = Some row /\
      nth_error row (nth i [3; 2; 1; 0] 0) = Some cross /\
      leb (nth i [3; 1; 1; 3]%Z 0%Z) cross = true /\
      leb (nth i [3; 1; 1; 3]%Z 0%Z) (nth i [5; 3; 1; 15]%Z 0%Z) = true /\
      (nth i [3; 1; 1; 3]%Z 0%Z = cross \/
       nth i [3; 1; 1; 3]%Z 0%Z = nth i [5; 3; 1; 15]%Z 0%Z).
Proof.
  pose proof (@pn_loss_cross_distance Z Scalar_Z unit _ (@Helpers.build_masks)
              Helpers.positive_distances Helpers.negative_distances show_loss
              ScalarOrder_Z
              Example4.labels Example4.embeddings Example4.labels
              Example4.embeddings Example4.uphill_distance
              true "hard" "semi-hard" None tt tt Example4.pairwise
              Example4.positive_mask Example4.negative_mask
              [2; 6; 4; 12]%Z [1; 0; 3; 2] [5; 3; 1; 15]%Z [3; 2; 1; 0]
              eq_refl eq_refl eq_refl eq_refl eq_refl eq_refl
              uphill_pairs_in_bounds)
    as (eff & Hrun & Hlen & Hcells).
  assert (E : eff = [3; 1; 1; 3]%Z).
  { vm_compute in Hrun. now inversion Hrun. }
  rewrite E in Hrun, Hlen, Hcells.
  exact (conj Hrun (conj Hlen Hcells)).
Defined.

Lemma pn_loss_effective_negative_le_witness :
  pn_loss_ex labels embeddings labels embeddings l1_distance
             true "hard" "semi-hard" None tt
  = (show_loss [5; 4; 5; 4; 4]%Z [2; 2; 2; 2; 2]%Z None, tt) /\
  length [2; 2; 2; 2; 2]%Z = 5 /\
  forall i, i < 5 ->
    leb (nth i [2; 2; 2; 2; 2]%Z 0%Z) (nth i [7; 6; 2; 2; 6]%Z 0%Z) = true.
Proof.
  exact (pn_loss_effective_negative_le unit _ (@Helpers.build_masks)
           Helpers.positive_distances Helpers.negative_distances show_loss
           labels embeddings labels embeddings l1_distance
           true "hard" "semi-hard" None tt tt pairwise
           positive_mask negative_mask
           [5; 4; 5; 4; 4]%Z [2; 2; 0; 4; 3] [7; 6; 2; 2; 6]%Z [4; 4; 3; 1; 1]
           [2; 2; 2; 2; 2]%Z
           eq_refl eq_refl eq_refl eq_refl eq_refl eq_refl).
Defined.

Local Abbreviation pn_loss_in_world :=
  (PNState.pn_loss
     (fun labels => eret (size labels))
     (fun q k n r => lift (Helpers.build_masks q k n r))
     (fun s D m => lift (Helpers.positive_distances s D m))
     (fun s D n p => lift (Helpers.negative_distances s D n p))
     (fun a b => lift (stack_axis1 a b))
     (fun P idx => lift (gather_nd P idx))
     (fun v => eret (reshape_column v))
     (fun a b => lift (minimum a b))
     (fun p n m => lift (show_loss p n m))
     labels embeddings labels embeddings Example4.scaled_l1_distance
     true "hard" "semi-hard" None).


(** The distance of that call reads the world, so the output is the
    world's business too; only a change of the world between two calls
    could make them differ. *)
Example pn_loss_in_two_units :
  fst (pn_loss_in_world 1%Z) = show_loss [5; 4; 5; 4; 4]%Z [2; 2; 2; 2; 2]%Z None /\
  pn_loss_in_world 2%Z
  = (show_loss [10; 8; 10; 8; 8]%Z [4; 4; 4; 4; 4]%Z None, 2%Z).
Proof. split; reflexivity. Qed.

Lemma pn_loss_defaults_witness :
  exists self,
    PNLoss_init (@registry unit) (Some (DistanceName "l1")) None None None None None
    = ok self /\
    kw_positive_mining_strategy (ml_fn_kwargs (self_base self)) = Some "hard" /\
    kw_negative_mining_strategy (ml_fn_kwargs (self_base self)) = Some "semi-hard" /\
    kw_margin (ml_fn_kwargs (self_base self)) = Some None /\
    kw_remove_diagonal (ml_fn_kwargs (self_base self)) = None /\
    forall y_true y_pred,
      PNLoss_call (@Helpers.build_masks) Helpers.positive_distances
                  Helpers.negative_distances show_loss self y_true y_pred
      = pn_loss_ex y_true y_pred y_true y_pred l1_distance
                   true "hard" "semi-hard" None.
Proof.
  exact (proj2 (pn_loss_defaults unit _ (@Helpers.build_masks)
                  Helpers.positive_distances Helpers.negative_distances
                  show_loss registry)
               (Some (DistanceName "l1")) None l1_distance eq_refl).
Defined.

Lemma PNLoss_init_validation_witness :
  ((exists e,
      PNLoss_init (@registry unit) (Some (DistanceName "l1"))
                  (Some "easy") None (Some (Some 1%Z)) None None = raise e) <->
   (~ valid_positive_strategy "easy" \/ ~ valid_negative_strategy "semi-hard")) /\
  (forall e,
      PNLoss_init (@registry unit) (Some (DistanceName "l1"))
                  (Some "easy") None (Some (Some 1%Z)) None None = raise e ->
      e = ValueError "Invalid positive mining strategy." \/
      e = ValueError "Invalid negative mining strategy.") /\
  PNLoss_init (@registry unit) (Some (DistanceName "l1"))
              (Some "bogus") None (Some (Some 1%Z)) None None
    = raise (ValueError "Invalid positive mining strategy.") /\
  (forall self,
      PNLoss_init (@registry unit) (Some (DistanceName "l1"))
                  (Some "easy") None (Some (Some 1%Z)) None None = ok self ->
      valid_positive_strategy "easy" /\ valid_negative_strategy "semi-hard" /\
      forall y_true y_pred,
        PNLoss_call (@Helpers.build_masks) Helpers.positive_distances
                    Helpers.negative_distances show_loss self y_true y_pred
        = pn_loss_ex y_true y_pred y_true y_pred l1_distance
                     true "easy" "semi-hard" (Some 1%Z)).
Proof.
  exact (PNLoss_init_validation unit _ (@Helpers.build_masks)
           Helpers.positive_distances Helpers.negative_distances show_loss
           registry (Some (DistanceName "l1")) (Some "easy") None
           (Some (Some 1%Z)) None None l1_distance eq_refl).
Defined.

Lemma pn_loss_no_strategy_validation_witness :
  pn_loss (@Helpers.build_masks) lenient_positive lenient_negative show_loss
          labels embeddings labels embeddings l1_distance
          true "bogus" "other" None tt
  = (rbind (cross_term pairwise [2; 2; 0; 4; 3] [4; 4; 3; 1; 1] [7; 6; 2; 2; 6]%Z)
           (fun eff => show_loss [5; 4; 5; 4; 4]%Z eff None), tt) /\
  exists msg,
    PNLoss_init (@registry unit) (Some (DistanceName "l1"))
                (Some "bogus") (Some "other") None None None
    = raise (ValueError msg).
Proof.
  pose proof (pn_loss_no_strategy_validation unit _ (@Helpers.build_masks)
                lenient_positive lenient_negative show_loss registry)
    as (_ & Hcall & Hinit).
  split.
  - exact (Hcall labels embeddings labels embeddings l1_distance
                 true "bogus" "other" None tt tt pairwise
                 positive_mask negative_mask
                 [5; 4; 5; 4; 4]%Z [2; 2; 0; 4; 3] [7; 6; 2; 2; 6]%Z [4; 4; 3; 1; 1]
                 eq_refl eq_refl eq_refl eq_refl).
  - apply (Hinit (Some (DistanceName "l1")) "bogus" "other" None None None
                 l1_distance eq_refl).
    unfold valid_positive_strategy. cbn. intros [[E|[E|[]]] _]; discriminate.
Defined.

End Witness.

(** ** The miners *)

Section OrderFacts.
Context {T : Type} `{ScalarOrder T}.

Lemma ltb_asym (x y : T) : ltb x y = true -> ltb y x = false.
Proof.
  intros Hxy. destruct (ltb y x) eqn:Hyx; [|reflexivity].
  pose proof (ltb_trans x y x Hxy Hyx) as Hxx.
  rewrite ltb_irrefl in Hxx. discriminate.
Qed.

Lemma ltb_negtrans (x y z : T) :
  ltb x y = false -> ltb y z = false -> ltb x z = false.
Proof.
  intros Hxy Hyz. destruct (ltb x z) eqn:Hxz; [|reflexivity].
  destruct (ltb y x) eqn:Hyx.
  - rewrite (ltb_trans y x z Hyx Hxz) in Hyz. discriminate.
  - pose proof (ltb_connex x y Hxy Hyx). subst y. congruence.
Qed.

End OrderFacts.

Section MaskedSelect.
Context {T : Type} `{Scalar T}.
Variable worse : T -> T -> bool.
Hypothesis worse_asym : forall x y, worse x y = true -> worse y x = false.
Hypothesis worse_negtrans :
  forall x y z, worse x y = false -> worse y z = false -> worse x z = false.

Lemma worse_irrefl x : worse x x = false.
Proof.
  destruct (worse x x) eqn:E; [|reflexivity].
  rewrite (worse_asym x x E) in E. discriminate.
Qed.

Lemma candidate_cons_S (x : T) row b m j v :
  candidate (x :: row) (b :: m) (S j) v <-> candidate row m j v.
Proof. unfold candidate. cbn. tauto. Qed.

Lemma candidate_cons_0 (x : T) row b m v :
  candidate (x :: row) (b :: m) 0 v <-> (v = x /\ b = true).
Proof.
  unfold candidate. cbn. split.
  - intros [E1 E2]. inversion E1; inversion E2; auto.
  - intros [-> ->]. auto.
Qed.

(** No selection exactly when the mask keeps no column of the row. *)
Lemma masked_select_none row m :
  Helpers.masked_select worse row m = None <->
  forall j v, ~ candidate row m j v.
Proof.
  revert m. induction row as [|x row IH]; intros m.
  - cbn. split; [|reflexivity]. intros _ j v [E _].
    destruct j; discriminate.
  - destruct m as [|b m].
    + cbn. split; [|reflexivity]. intros _ j v [_ E].
      destruct j; discriminate.
    + cbn. specialize (IH m).
      destruct (Helpers.masked_select worse row m) as [[y k]|].
      * split.
        -- destruct (b && negb (worse x y)); discriminate.
        -- intros Hno. exfalso.
           destruct IH as [_ IH]. discriminate IH.
           intros j v Hc. apply (Hno (S j) v). now apply candidate_cons_S.
      * destruct IH as [IH _]. specialize (IH eq_refl).
        destruct b.
        -- split; [discriminate|]. intros Hno. exfalso.
           apply (Hno 0 x). now apply candidate_cons_0.
        -- split; [|reflexivity]. intros _ [|j] v Hc.
           ++ apply candidate_cons_0 in Hc. destruct Hc; discriminate.
           ++ apply candidate_cons_S in Hc. now apply (IH j v).
Qed.

(** The selection is a kept column, no kept column is better, and every
    kept column to its left is strictly worse. *)
Lemma masked_select_some row m v j :
  Helpers.masked_select worse row m = Some (v, j) ->
  candidate row m j v /\
  forall k x, candidate row m k x ->
    worse v x = false /\ (k < j -> worse x v = true).
Proof.
  revert m v j. induction row as [|x row IH]; intros m v j; [discriminate|].
  destruct m as [|b m]; [discriminate|]. cbn.
  pose proof (masked_select_none row m) as Hnone.
  destruct (Helpers.masked_select worse row m) as [[y k]|] eqn:E.
  - destruct (IH m y k E) as [Hc Hbest].
    destruct b; cbn.
    + destruct (worse x y) eqn:Ew; cbn; intros Er; inversion Er; subst.
      * split; [now apply candidate_cons_S|].
        intros [|k'] x' Hc'.
        -- apply candidate_cons_0 in Hc'. destruct Hc' as [-> _].
           split; [now apply worse_asym | intros _; assumption].
        -- apply candidate_cons_S in Hc'.
           destruct (Hbest k' x' Hc') as [H1 H2].
           split; [assumption | intros; apply H2; lia].
      * split; [now apply candidate_cons_0|].
        intros [|k'] x' Hc'.
        -- apply candidate_cons_0 in Hc'. destruct Hc' as [-> _].
           split; [apply worse_irrefl | lia].
        -- apply candidate_cons_S in Hc'.
           destruct (Hbest k' x' Hc') as [H1 _].
           split; [now apply (worse_negtrans v y x') | lia].
    + intros Er; inversion Er; subst.
      split; [now apply candidate_cons_S|].
      intros [|k'] x' Hc'.
      * apply candidate_cons_0 in Hc'. destruct Hc'; discriminate.
      * apply candidate_cons_S in Hc'.
        destruct (Hbest k' x' Hc') as [H1 H2].
        split; [assumption | intros; apply H2; lia].
  - destruct Hnone as [Hnone _]. specialize (Hnone eq_refl).
    destruct b; [|discriminate].
    intros Er; inversion Er; subst.
    split; [now apply candidate_cons_0|].
    intros [|k'] x' Hc'.
    + apply candidate_cons_0 in Hc'. destruct Hc' as [-> _].
      split; [apply worse_irrefl | lia].
    + apply candidate_cons_S in Hc'. exfalso. now apply (Hnone k' x').
Qed.

End MaskedSelect.

Section Miners.
Context {T : Type} `{ScalarOrder T}.

Lemma row_min_some row m v j :
  Helpers.row_min row m = Some (v, j) -> minimum_among (candidate row m) j v.
Proof.
  intros E. apply masked_select_some in E.
  - destruct E as [Hc Hbest]. split; [assumption|].
    intros k x Hx. unfold leb. now rewrite (proj1 (Hbest k x Hx)).
  - intros x y. apply ltb_asym.
  - intros x y z Hxy Hyz. exact (ltb_negtrans z y x Hyz Hxy).
Qed.

Lemma row_max_some row m v j :
  Helpers.row_max row m = Some (v, j) -> maximum_among (candidate row m) j v.
Proof.
  intros E. apply masked_select_some in E.
  - destruct E as [Hc Hbest]. split; [assumption|].
    intros k x Hx. unfold leb. now rewrite (proj1 (Hbest k x Hx)).
  - intros x y. apply ltb_asym.
  - intros x y z. apply ltb_negtrans.
Qed.

Lemma row_min_none row m :
  Helpers.row_min row m = None <-> forall j v, ~ candidate row m j v.
Proof. apply masked_select_none. Qed.

(** The semi-hard mask keeps exactly the negatives strictly farther than
    the threshold. *)
Lemma semi_hard_mask_candidate thr row nrow j v :
  candidate row (map2 (fun d b => b && greater d thr) row nrow) j v <->
  semi_hard_candidate thr row nrow j v.
Proof.
  unfold semi_hard_candidate, candidate, greater.
  revert nrow j. induction row as [|x row IH]; intros nrow j.
  - destruct j; cbn; split; intros [E _]; try discriminate;
      destruct E; discriminate.
  - destruct nrow as [|b nrow].
    + destruct j; cbn; split; intros [E1 E2]; try discriminate;
        destruct E1; discriminate.
    + destruct j as [|j]; cbn.
      * split.
        -- intros [E1 E2]. inversion E1; subst. inversion E2.
           apply andb_prop in H2. destruct H2 as [-> Hlt].
           rewrite Hlt. auto.
        -- intros [[E1 E2] Hlt]. inversion E1; subst. inversion E2; subst.
           rewrite Hlt. auto.
      * apply IH.
Qed.

Lemma semi_hard_mask_exists thr row nrow :
  existsb (fun b => b) (map2 (fun d b => b && greater d thr) row nrow) = true <->
  exists k x, semi_hard_candidate thr row nrow k x.
Proof.
  split.
  - revert nrow. induction row as [|x row IH]; intros [|b nrow]; cbn;
      try discriminate.
    destruct (b && greater x thr) eqn:E; cbn.
    + intros _. exists 0, x. apply semi_hard_mask_candidate.
      split; cbn; [reflexivity | now rewrite E].
    + intros Hex. destruct (IH nrow Hex) as (k & y & Hc).
      exists (S k), y. destruct Hc as [[E1 E2] Hlt].
      repeat split; assumption.
  - intros (k & x & Hc). apply semi_hard_mask_candidate in Hc.
    destruct Hc as [_ Hm]. apply existsb_exists.
    exists true. split; [|reflexivity]. eapply nth_error_In; eassumption.
Qed.

(** In a row with at least one negative, the semi-hard selection is
    defined and is the semi-hard selection relative to the threshold. *)
Lemma semi_hard_row_spec thr row nrow :
  (exists k x, candidate row nrow k x) ->
  exists v j,
    Helpers.semi_hard_row thr row nrow = Some (v, j) /\
    semi_hard_selection thr row nrow j v.
Proof.
  intros (k0 & x0 & Hneg). unfold Helpers.semi_hard_row.
  pose proof (semi_hard_mask_exists thr row nrow) as Hex.
  destruct (existsb (fun b => b)
                    (map2 (fun d b => b && greater d thr) row nrow)) eqn:E.
  - destruct Hex as [Hex _]. specialize (Hex eq_refl).
    destruct (Helpers.row_min row
                (map2 (fun d b => b && greater d thr) row nrow))
      as [[v j]|] eqn:Er.
    + exists v, j. split; [reflexivity|].
      apply row_min_some in Er. destruct Er as [Hc Hbest].
      split; [|intros Hno; contradiction].
      intros _. split.
      * now apply semi_hard_mask_candidate.
      * intros k x Hx. apply (Hbest k x).
        now apply semi_hard_mask_candidate.
    + exfalso. destruct Hex as (k & x & Hc).
      apply (proj1 (row_min_none _ _) Er k x).
      now apply semi_hard_mask_candidate.
  - destruct (Helpers.row_min row nrow) as [[v j]|] eqn:Er.
    + exists v, j. split; [reflexivity|].
      apply row_min_some in Er.
      split; [|intros _; assumption].
      intros Hsome. apply Hex in Hsome. discriminate.
    + exfalso. exact (proj1 (row_min_none _ _) Er k0 x0 Hneg).
Qed.

End Miners.

Section MinerRows.
Context {T : Type} `{ScalarOrder T}.

Lemma map2_nth_error {A B C} (f : A -> B -> C) (a : list A) (b : list B) i :
  nth_error (map2 f a b) i =
  match nth_error a i, nth_error b i with
  | Some x, Some y => Some (f x y)
  | _, _ => None
  end.
Proof.
  revert b i. induction a as [|x a IH]; intros [|y b] [|i]; cbn; auto.
  - destruct (nth_error a i); reflexivity.
Qed.

Lemma combine_nth_error {A B} (a : list A) (b : list B) i :
  nth_error (combine a b) i =
  match nth_error a i, nth_error b i with
  | Some x, Some y => Some (x, y)
  | _, _ => None
  end.
Proof.
  revert b i. induction a as [|x a IH]; intros [|y b] [|i]; cbn; auto.
  - destruct (nth_error a i); reflexivity.
Qed.

Lemma split_nth_error {A B} (l : list (A * B)) i :
  nth_error (fst (List.split l)) i = option_map fst (nth_error l i) /\
  nth_error (snd (List.split l)) i = option_map snd (nth_error l i).
Proof.
  revert i. induction l as [|[a b] l IH]; intros [|i]; cbn; auto.
  - destruct (List.split l); cbn; auto.
  - specialize (IH i). destruct (List.split l); cbn in *; auto.
Qed.

(** Row [i] of the masked maximum. *)
Lemma masked_max_row (D : matrix T) (m : mask) i row mrow :
  nth_error D i = Some row -> nth_error m i = Some mrow ->
  nth_error (fst (Helpers.masked_max D m)) i
  = Some (fst (Helpers.or_degenerate (Helpers.row_max row mrow))).
Proof.
  intros HD Hm. unfold Helpers.masked_max.
  rewrite (proj1 (split_nth_error _ i)), map2_nth_error, HD, Hm.
  reflexivity.
Qed.

Lemma negative_distances_semi_hard (D : matrix T) (nm pm : mask) :
  Helpers.negative_distances "semi-hard" D nm pm
  = ok (List.split
          (map2 (fun thr rn =>
                   Helpers.or_degenerate
                     (Helpers.semi_hard_row thr (fst rn) (snd rn)))
                (fst (Helpers.masked_max D pm)) (combine D nm))).
Proof. reflexivity. Qed.

Lemma positive_distances_hard (D : matrix T) (pm : mask) :
  Helpers.positive_distances "hard" D pm = ok (Helpers.masked_max D pm).
Proof. reflexivity. Qed.

(** C2 (as amended). For every anchor [i] with at least one valid
    negative, semi-hard negative mining is defined and selects, relative
    to the anchor's hardest positive distance [thr] (the maximum over its
    positives, which is the selected positive distance when the positive
    strategy is "hard"), the minimum distance among the negatives strictly
    farther than [thr]; when no negative is strictly farther than [thr],
    the minimum distance among all valid negatives.  In both cases the
    selected value is the entry of a valid negative column. *)
Theorem semi_hard_negative_mining (D : matrix T) (nm pm : mask) i row nrow prow :
  nth_error D i = Some row ->
  nth_error nm i = Some nrow ->
  nth_error pm i = Some prow ->
  (exists k x, candidate row nrow k x) ->
  exists nd ni thr v j,
    Helpers.negative_distances "semi-hard" D nm pm = ok (nd, ni) /\
    nth_error nd i = Some v /\ nth_error ni i = Some j /\
    (exists pd pi,
        Helpers.positive_distances "hard" D pm = ok (pd, pi) /\
        nth_error pd i = Some thr) /\
    ((exists k x, candidate row prow k x) ->
     exists jp, maximum_among (candidate row prow) jp thr) /\
    candidate row nrow j v /\
    semi_hard_selection thr row nrow j v.
Proof.
  intros HD Hn Hp Hneg.
  set (thr := fst (Helpers.or_degenerate (Helpers.row_max row prow))).
  destruct (semi_hard_row_spec thr row nrow Hneg) as (v & j & Hsel & Hspec).
  pose proof (masked_max_row D pm i row prow HD Hp) as Hthr. fold thr in Hthr.
  rewrite negative_distances_semi_hard, positive_distances_hard.
  eexists _, _, thr, v, j. split; [now rewrite <- surjective_pairing|].
  assert (Hrow :
    nth_error
      (map2 (fun thr rn =>
               Helpers.or_degenerate (Helpers.semi_hard_row thr (fst rn) (snd rn)))
            (fst (Helpers.masked_max D pm)) (combine D nm)) i = Some (v, j)).
  { rewrite map2_nth_error, Hthr, combine_nth_error, HD, Hn. cbn.
    now rewrite Hsel. }
  split; [rewrite (proj1 (split_nth_error _ i)), Hrow; reflexivity|].
  split; [rewrite (proj2 (split_nth_error _ i)), Hrow; reflexivity|].
  split.
  { eexists _, _. split; [now rewrite <- surjective_pairing | exact Hthr]. }
  split.
  { intros (k & x & Hpos). unfold thr.
    destruct (Helpers.row_max row prow) as [[p jp]|] eqn:Er.
    - exists jp. cbn. now apply row_max_some.
    - exfalso. exact (proj1 (masked_select_none _ _ _) Er k x Hpos). }
  split; [|exact Hspec].
  destruct Hspec as [Hs Hf].
  destruct (semi_hard_mask_exists thr row nrow) as [Hdec1 Hdec2].
  destruct (existsb (fun b => b)
              (map2 (fun d b => b && greater d thr) row nrow)) eqn:E.
  - exact (proj1 (proj1 (Hs (Hdec1 eq_refl)))).
  - apply Hf. intros Hex. apply Hdec2 in Hex. discriminate.
Qed.

End MinerRows.

Module MiningExamples.
Import Example.

Lemma semi_hard_negative_mining_witness :
  exists nd ni thr v j,
    Helpers.negative_distances "semi-hard" pairwise negative_mask positive_mask
    = ok (nd, ni) /\
    nth_error nd 0 = Some v /\ nth_error ni 0 = Some j /\
    (exists pd pi,
        Helpers.positive_distances "hard" pairwise positive_mask = ok (pd, pi) /\
        nth_error pd 0 = Some thr) /\
    ((exists k x, candidate [0; 1; 5; 3; 7]%Z [false; true; true; false; false] k x) ->
     exists jp,
       maximum_among (candidate [0; 1; 5; 3; 7]%Z [false; true; true; false; false])
                     jp thr) /\
    candidate [0; 1; 5; 3; 7]%Z [false; false; false; true; true] j v /\
    semi_hard_selection thr [0; 1; 5; 3; 7]%Z [false; false; false; true; true] j v.
Proof.
  apply (semi_hard_negative_mining pairwise negative_mask positive_mask 0
           [0; 1; 5; 3; 7]%Z [false; false; false; true; true]
           [false; true; true; false; false]);
    try reflexivity.
  exists 3, 3%Z. split; reflexivity.
Defined.

(** Both branches on the batch: anchor 0 has negatives beyond its hardest
    positive (5) and gets the closest of them (7, column 4); anchor 2 has
    none beyond its hardest positive (5) and gets its closest negative
    (2, column 3). *)
Example semi_hard_both_branches :
  Helpers.negative_distances "semi-hard" pairwise negative_mask positive_mask
  = ok ([7; 6; 2; 2; 6]%Z, [4; 4; 3; 1; 1]) /\
  Helpers.positive_distances "hard" pairwise positive_mask
  = ok ([5; 4; 5; 4; 4]%Z, [2; 2; 0; 4; 3]) /\
  Helpers.negative_distances "hard" pairwise negative_mask positive_mask
  = ok ([3; 2; 2; 2; 2]%Z, [3; 3; 3; 1; 2]).
Proof. repeat split. Qed.

(** With the positive strategy "easy", anchor 0 has the selected positive
    distance 1 and the negatives 3 and 7, both strictly farther; semi-hard
    mining returns 7, which is the closest negative beyond the hardest
    positive (5), not beyond the selected one. *)
Lemma semi_hard_on_easy_positive :
  Helpers.positive_distances "easy" pairwise positive_mask
  = ok ([1; 1; 4; 4; 4]%Z, [1; 0; 1; 4; 3]) /\
  Helpers.negative_distances "semi-hard" pairwise negative_mask positive_mask
  = ok ([7; 6; 2; 2; 6]%Z, [4; 4; 3; 1; 1]) /\
  (exists k x, candidate (nth 0 pairwise []) (nth 0 negative_mask []) k x) /\
  ~ semi_hard_selection 1%Z (nth 0 pairwise []) (nth 0 negative_mask []) 4 7%Z.
Proof.
  repeat split.
  - exists 3, 3%Z. split; reflexivity.
  - cbn. intros [Hsome _].
    assert (Hc : semi_hard_candidate 1%Z [0; 1; 5; 3; 7]%Z
                   [false; false; false; true; true] 3 3%Z)
      by (repeat split).
    destruct (Hsome (ex_intro _ 3 (ex_intro _ 3%Z Hc))) as [_ Hmin].
    specialize (Hmin 3 3%Z Hc). discriminate.
Qed.

(** The reason does not lie in how the negative miner is written:
    [pn_loss] gives it the masks and not the positive selection, so no
    function in its place can follow the selected positive distance for
    both positive strategies. *)
Lemma no_miner_follows_selected_positive
    (negative_distances :
       string -> matrix Z -> mask -> mask -> result (list Z * list nat)) :
  ~ (forall ps, valid_positive_strategy ps ->
       exists pd pi nd ni,
         Helpers.positive_distances ps pairwise positive_mask = ok (pd, pi) /\
         negative_distances "semi-hard" pairwise negative_mask positive_mask
         = ok (nd, ni) /\
         semi_hard_selection (nth 0 pd 0%Z)
                             (nth 0 pairwise []) (nth 0 negative_mask [])
                             (nth 0 ni 0) (nth 0 nd 0%Z)).
Proof.
  intros Hall.
  destruct (Hall "hard" (or_intror (or_introl eq_refl)))
    as (pd1 & pi1 & nd & ni & Hp1 & Hn1 & [Hs1 _]).
  destruct (Hall "easy" (or_introl eq_refl))
    as (pd2 & pi2 & nd' & ni' & Hp2 & Hn2 & [Hs2 _]).
  rewrite Hn1 in Hn2. inversion Hn2; subst nd' ni'. clear Hn2.
  inversion Hp1; subst pd1 pi1. inversion Hp2; subst pd2 pi2.
  cbn in Hs1, Hs2.
  assert (Hc1 : semi_hard_candidate 5%Z [0; 1; 5; 3; 7]%Z
                  [false; false; false; true; true] 4 7%Z) by (repeat split).
  assert (Hc2 : semi_hard_candidate 1%Z [0; 1; 5; 3; 7]%Z
                  [false; false; false; true; true] 3 3%Z) by (repeat split).
  destruct (Hs1 (ex_intro _ 4 (ex_intro _ 7%Z Hc1))) as [[[Hv1 Hm1] Hlt1] _].
  destruct (Hs2 (ex_intro _ 3 (ex_intro _ 3%Z Hc2))) as [_ Hmin2].
  specialize (Hmin2 3 3%Z Hc2).
  unfold leb in Hmin2. cbn in Hlt1, Hmin2.
  apply Z.ltb_lt in Hlt1. apply negb_true_iff, Z.ltb_ge in Hmin2. lia.
Qed.

(** C2 as stated does not hold.  On the batch, semi-hard mining relative to
    the selected positive distance of anchor 0 would have to return 7 under
    the positive strategy "hard" (selected positive 5) and 3 under "easy"
    (selected positive 1); the miner is called with the same arguments in
    both cases.  It returns 7, and no miner could be right in both. *)
Lemma semi_hard_ignores_selected_positive :
  (exists pd pi nd ni,
      Helpers.positive_distances "easy" pairwise positive_mask = ok (pd, pi) /\
      Helpers.negative_distances "semi-hard" pairwise negative_mask positive_mask
      = ok (nd, ni) /\
      nth 0 pd 0%Z = 1%Z /\ nth 0 nd 0%Z = 7%Z /\ nth 0 ni 0 = 4 /\
      (exists k x, candidate (nth 0 pairwise []) (nth 0 negative_mask []) k x) /\
      ~ semi_hard_selection (nth 0 pd 0%Z)
                            (nth 0 pairwise []) (nth 0 negative_mask [])
                            (nth 0 ni 0) (nth 0 nd 0%Z)) /\
  ~ (exists negative_distances :
       string -> matrix Z -> mask -> mask -> result (list Z * list nat),
       forall ps, valid_positive_strategy ps ->
         exists pd pi nd ni,
           Helpers.positive_distances ps pairwise positive_mask = ok (pd, pi) /\
           negative_distances "semi-hard" pairwise negative_mask positive_mask
           = ok (nd, ni) /\
           semi_hard_selection (nth 0 pd 0%Z)
                               (nth 0 pairwise []) (nth 0 negative_mask [])
                               (nth 0 ni 0) (nth 0 nd 0%Z)).
Proof.
  split.
  - destruct semi_hard_on_easy_positive as (Hp & Hn & Hneg & Hnot).
    exists [1; 1; 4; 4; 4]%Z, [1; 0; 1; 4; 3], [7; 6; 2; 2; 6]%Z, [4; 4; 3; 1; 1].
    repeat split; assumption.
  - intros [negative_distances Hall].
    exact (no_miner_follows_selected_positive negative_distances Hall).
Qed.

End MiningExamples.

(** ** The loss value *)

Section LossValue.
Variable W : Type.
Variable build_masks : list Z -> list Z -> nat -> bool -> result (mask * mask).
Variable positive_distances :
  string -> matrix R -> mask -> result (list R * list nat).
Variable negative_distances :
  string -> matrix R -> mask -> mask -> result (list R * list nat).

Local Open Scope R_scope.

Lemma compute_loss_ok (p n : list R) (margin : option R) :
  length p = length n ->
  Helpers.compute_loss p n margin
  = ok (fold_right Rplus 0 (map2 (Helpers.anchor_loss margin) p n)
        / INR (length p)).
Proof.
  intros E. unfold Helpers.compute_loss, Helpers.reduce_mean.
  rewrite E, Nat.eqb_refl, map2_length by assumption. reflexivity.
Qed.

(** The sum of a non-empty list, entry by entry. *)
Lemma fold_right_Rplus_sum (x : R) (l : list R) :
  fold_right Rplus 0 (x :: l)
  = sum_f_R0 (fun i => nth i (x :: l) 0) (length l).
Proof.
  revert x. induction l as [|y l IH]; intros x.
  - cbn. lra.
  - cbn [length]. rewrite decomp_sum by lia.
    cbn [Nat.pred nth]. cbn [fold_right] in *. rewrite (IH y). reflexivity.
Qed.

(** C3. For the selected positive distances [pd] and the effective
    negative distances [eff] of a (non-empty) batch of [n] anchors, the
    loss of anchor [i] is [max(0, pd[i] - eff[i] + m)] when a margin [m]
    is given and [log(1 + exp(pd[i] - eff[i]))] when it is absent, and
    [pn_loss] returns the sum of these over the [n] anchors divided by
    [n]. *)
Theorem pn_loss_value
    ql qe kl ke (distance : @Distance R W) rd ps ns (margin : option R)
    w w' D pm nm pd pi nd ni eff :
  distance qe ke w = (ok D, w') ->
  build_masks ql kl (size ql) rd = ok (pm, nm) ->
  positive_distances ps D pm = ok (pd, pi) ->
  negative_distances ns D nm pm = ok (nd, ni) ->
  cross_term D pi ni nd = ok eff ->
  length pd = length eff ->
  (0 < length pd)%nat ->
  pn_loss build_masks positive_distances negative_distances
          Helpers.compute_loss
          ql qe kl ke distance rd ps ns margin w
  = (ok (sum_f_R0
           (fun i =>
              match margin with
              | Some m => Rmax 0 (nth i pd 0 - nth i eff 0 + m)
              | None => ln (1 + exp (nth i pd 0 - nth i eff 0))
              end)
           (length pd - 1)
         / INR (length pd)),
     w').
Proof.
  intros Hd Hm Hp Hn Hc Hl Hpos.
  rewrite (pn_loss_unfold W R build_masks positive_distances
             negative_distances Helpers.compute_loss
             ql qe kl ke distance rd ps ns margin
             w w' D pm nm pd pi nd ni Hd Hm Hp Hn).
  rewrite Hc. cbn. rewrite compute_loss_ok by assumption.
  do 3 f_equal.
  assert (Hlen : length (map2 (Helpers.anchor_loss margin) pd eff) = length pd)
    by (rewrite map2_length; auto).
  destruct (map2 (Helpers.anchor_loss margin) pd eff) as [|x l] eqn:El.
  { cbn in Hlen. lia. }
  rewrite fold_right_Rplus_sum. cbn [length] in Hlen.
  replace (length pd - 1)%nat with (length l) by lia.
  apply sum_eq. intros i Hi. rewrite <- El.
  rewrite (map2_nth (Helpers.anchor_loss margin) pd eff 0 0 0) by lia.
  destruct margin; reflexivity.
Qed.

End LossValue.

Module LossExamples.
Import Example4.

Local Open Scope R_scope.

Local Ltac decide_Rlt :=
  repeat match goal with
  | |- context [Rlt_dec ?a ?b] =>
      destruct (Rlt_dec a b); [try (exfalso; lra) | try (exfalso; lra)]
  end.

Lemma squares_distance :
  @squared_l2_distance unit points points tt = (ok squares, tt).
Proof.
  unfold squared_l2_distance, points, squares, squared_l2.
  cbn [map map2 fold_right].
  apply (f_equal (fun m => (@inr exn (matrix R) m, tt))).
  repeat (first [reflexivity | ring | apply (f_equal2 (@cons _))]).
Qed.

Lemma squares_positive :
  Helpers.positive_distances "hard" squares positive_mask
  = ok ([1; 1; 16; 16], [1; 0; 3; 2]%nat).
Proof. cbv -[Rlt_dec IZR]. decide_Rlt. reflexivity. Qed.

Lemma squares_negative :
  Helpers.negative_distances "semi-hard" squares negative_mask positive_mask
  = ok ([9; 4; 4; 36], [2; 2; 1; 1]%nat).
Proof.
  cbv -[Rlt_dec IZR]. decide_Rlt. cbv -[Rlt_dec IZR]. decide_Rlt. reflexivity.
Qed.

Lemma squares_cross_term :
  cross_term squares [1; 0; 3; 2]%nat [2; 2; 1; 1]%nat [9; 4; 4; 36]
  = ok [4; 4; 4; 4].
Proof. cbv -[Rlt_dec IZR]. decide_Rlt. reflexivity. Qed.

Local Abbreviation pn_loss_squares :=
  (pn_loss (@Helpers.build_masks) Helpers.positive_distances
           Helpers.negative_distances Helpers.compute_loss
           labels points labels points squared_l2_distance
           true "hard" "semi-hard").

(** Four anchors with positive distances [1; 1; 16; 16] and effective
    negative distances [4; 4; 4; 4].  With the margin 1 the hinge is 0 for
    the first two anchors and 13 for the other two, and the loss is their
    mean 26 / 4; without a margin it is the mean of the four softplus
    values. *)
Lemma pn_loss_value_witness :
  pn_loss_squares (Some 1) tt = (ok (13 / 2), tt) /\
  pn_loss_squares None tt
  = (ok ((ln (1 + exp (1 - 4)) + ln (1 + exp (1 - 4))
          + ln (1 + exp (16 - 4)) + ln (1 + exp (16 - 4))) / 4), tt).
Proof.
  split.
  - rewrite (pn_loss_value unit (@Helpers.build_masks)
               Helpers.positive_distances Helpers.negative_distances
               labels points labels points squared_l2_distance
               true "hard" "semi-hard" (Some 1) tt tt squares
               positive_mask negative_mask
               [1; 1; 16; 16] [1; 0; 3; 2]%nat [9; 4; 4; 36] [2; 2; 1; 1]%nat
               [4; 4; 4; 4]
               squares_distance eq_refl squares_positive squares_negative
               squares_cross_term eq_refl (Nat.lt_0_succ 3)).
    do 2 f_equal. cbn [length Nat.sub sum_f_R0 nth].
    replace (INR 4) with 4 by (cbn; lra).
    unfold Rmax. repeat destruct (Rle_dec _ _); lra.
  - rewrite (pn_loss_value unit (@Helpers.build_masks)
               Helpers.positive_distances Helpers.negative_distances
               labels points labels points squared_l2_distance
               true "hard" "semi-hard" None tt tt squares
               positive_mask negative_mask
               [1; 1; 16; 16] [1; 0; 3; 2]%nat [9; 4; 4; 36] [2; 2; 1; 1]%nat
               [4; 4; 4; 4]
               squares_distance eq_refl squares_positive squares_negative
               squares_cross_term eq_refl (Nat.lt_0_succ 3)).
    do 2 f_equal. cbn [length Nat.sub sum_f_R0 nth].
    replace (INR 4) with 4 by (cbn; lra). reflexivity.
Defined.

End LossExamples.

(** ** The similarity model *)

Section ModelFacts.
Variables Distance Search Store Evaluator : Type.
Variable distance_str : Distance -> string.
Variable distances_get : SM.distance_arg Distance -> result Distance.
Variable Indexer_init : SM.Indexer Distance Search Store Evaluator -> result unit.
Variable KerasArgs : Type.
Variable keras_compile :
  KerasArgs -> SM.loss_arg Distance -> option Z ->
  Eff (SM.SimilarityModel Distance Search Store Evaluator) unit.
Variable executing_eagerly : bool.

Local Abbreviation Model := (SM.SimilarityModel Distance Search Store Evaluator).
Local Abbreviation create_index := (SM.create_index Indexer_init).
Local Abbreviation compile :=
  (SM.compile distance_str distances_get Indexer_init keras_compile
              executing_eagerly).

Lemma py_getitem_error {A} (l : list A) i e :
  SM.py_getitem l i = raise e -> e = IndexError "list index out of range".
Proof.
  unfold SM.py_getitem.
  destruct ((_ <? 0) || (_ <=? _))%Z; [intros E; now inversion E|].
  destruct (nth_error l _); intros E; now inversion E.
Qed.

Lemma py_getitem_length {A} (l : list A) :
  SM.py_getitem l (Z.of_nat (length l))
  = raise (IndexError "list index out of range").
Proof.
  unfold SM.py_getitem.
  replace (Z.of_nat (length l) <? 0)%Z with false
    by (symmetry; apply Z.ltb_ge; lia).
  replace (Z.of_nat (length l) <=? Z.of_nat (length l))%Z with true
    by (symmetry; apply Z.leb_le; lia).
  rewrite orb_true_r. reflexivity.
Qed.

Lemma shape1_error (t : SM.KerasTensor) e :
  SM.shape1 t = raise e -> e = IndexError "tuple index out of range".
Proof.
  unfold SM.shape1. destruct (nth_error t 1); intros E; now inversion E.
Qed.

(** The guard of [create_index] fires before anything else happens. *)
Lemma create_index_guard_fires distance search kv_store evaluator e sbs (self : Model) :
  (e > Z.of_nat (length (SM.output_names self)))%Z ->
  create_index distance search kv_store evaluator (Some e) sbs self
  = (raise (ValueError SM.guard_message), self).
Proof.
  intros He. unfold SM.create_index, ebind, SM.get, lift. cbn.
  replace (e >? Z.of_nat (length (SM.output_names self)))%Z with true
    by (symmetry; apply Z.gtb_lt; lia).
  reflexivity.
Qed.

(** The outcomes of the output lookup and of the index constructor. *)
Local Ltac lookup_cases :=
  cbn;
  match goal with
  | |- context [SM.py_getitem ?l ?i] =>
      let Eg := fresh "Eg" in
      destruct (SM.py_getitem l i) as [?|?t] eqn:Eg; cbn;
      [ intros E; inversion E; subst; left;
        eapply py_getitem_error; eassumption |]
  end;
  match goal with
  | |- context [SM.shape1 ?t] =>
      let Es := fresh "Es" in
      destruct (SM.shape1 t) as [?|?size] eqn:Es; cbn;
      [ intros E; inversion E; subst; right; left;
        eapply shape1_error; eassumption |]
  end;
  match goal with
  | |- context [Indexer_init ?ix] =>
      let Ei := fresh "Ei" in
      destruct (Indexer_init ix) as [?|[]] eqn:Ei; cbn;
      [ intros E; inversion E; subst; right; right;
        eexists; eassumption
      | discriminate ]
  end.

(** Past the guard, an exception is an [IndexError] of the output lookup
    or whatever the constructor of the index raised. *)
Lemma create_index_past_guard distance search kv_store evaluator eo sbs
      (self : Model) ex :
  (forall e, eo = Some e -> (e <= Z.of_nat (length (SM.output_names self)))%Z) ->
  fst (create_index distance search kv_store evaluator eo sbs self) = raise ex ->
  ex = IndexError "list index out of range" \/
  ex = IndexError "tuple index out of range" \/
  exists ix, Indexer_init ix = raise ex.
Proof.
  intros Hle. unfold SM.create_index, ebind, SM.get, lift, eret,
                SM.print, SM.set_embedding_size, SM.set_index.
  cbn.
  set (n := Z.of_nat (length (SM.output_names self))) in *.
  destruct eo as [e|].
  - assert (Hg : (e >? n)%Z = false).
    { rewrite Z.gtb_ltb. apply Z.ltb_ge. exact (Hle e eq_refl). }
    rewrite Hg. cbn.
    destruct (n >? 1)%Z; lookup_cases.
  - cbn. destruct (n >? 1)%Z; lookup_cases.
Qed.

(** When [create_index] returns, the model holds an index built with the
    distance it was given. *)
Lemma create_index_sets_distance distance search kv_store evaluator eo sbs
      (self self' : Model) :
  create_index distance search kv_store evaluator eo sbs self = (ok tt, self') ->
  exists ix, SM._ix self' = Some ix /\ SM.ix_distance ix = distance.
Proof.
  unfold SM.create_index, ebind, SM.get, lift, eret,
    SM.print, SM.set_embedding_size, SM.set_index.
  cbn.
  set (n := Z.of_nat (length (SM.output_names self))) in *.
  destruct eo as [e|]; [destruct (e >? n)%Z; cbn; [discriminate|]|];
    destruct (n >? 1)%Z; cbn;
    match goal with
    | |- context [SM.py_getitem ?l ?i] =>
        destruct (SM.py_getitem l i) as [?|t]; cbn; [discriminate|]
    end;
    destruct (SM.shape1 t) as [?|size]; cbn; try discriminate;
    match goal with
    | |- context [Indexer_init ?ix] =>
        destruct (Indexer_init ix) as [?|[]]; cbn; [discriminate|]
    end;
    intros E; inversion E; subst; cbn; eexists; split; reflexivity.
Qed.

(** What [create_index] does when nothing fails: the head it looks up, what
    it announces, and the model it leaves. *)
Lemma create_index_run distance search kv_store evaluator eo sbs (self : Model)
      t size :
  let n := Z.of_nat (length (SM.output_names self)) in
  (forall e, eo = Some e -> (e <= n)%Z) ->
  SM.py_getitem (SM.outputs self) (if (n >? 1)%Z then default 0%Z eo else 0%Z)
  = ok t ->
  SM.shape1 t = ok size ->
  Indexer_init
    {| SM.ix_embedding_size := size;
       SM.ix_distance := distance;
       SM.ix_search := search;
       SM.ix_kv_store := kv_store;
       SM.ix_evaluator := evaluator;
       SM.ix_embedding_output :=
         match eo with
         | None => if (n >? 1)%Z then Some 0%Z else None
         | Some e => Some e
         end;
       SM.ix_stat_buffer_size := sbs |} = ok tt ->
  create_index distance search kv_store evaluator eo sbs self
  = (ok tt,
     {| SM.output_names := SM.output_names self;
        SM.outputs := SM.outputs self;
        SM.embedding_size := Some size;
        SM._ix :=
          Some {| SM.ix_embedding_size := size;
                  SM.ix_distance := distance;
                  SM.ix_search := search;
                  SM.ix_kv_store := kv_store;
                  SM.ix_evaluator := evaluator;
                  SM.ix_embedding_output :=
                    match eo with
                    | None => if (n >? 1)%Z then Some 0%Z else None
                    | Some e => Some e
                    end;
                  SM.ix_stat_buffer_size := sbs |};
        SM.stdout :=
          (SM.stdout self ++
           match eo with
           | None =>
               if (n >? 1)%Z
               then ["Embedding output set to be model output 0.  Use the embedding_output arg to override this."]
               else []
           | Some _ => []
           end)%list |}).
Proof.
  intros n Hle Hget Hshape Hinit.
  unfold SM.create_index, ebind, SM.get, lift, eret,
    SM.print, SM.set_embedding_size, SM.set_index.
  cbn. fold n.
  destruct eo as [e|].
  - assert (Hg : (e >? n)%Z = false).
    { rewrite Z.gtb_ltb. apply Z.ltb_ge. exact (Hle e eq_refl). }
    rewrite Hg. cbn.
    destruct (n >? 1)%Z; cbn in *; rewrite Hget; cbn; rewrite Hshape; cbn;
      rewrite Hinit; cbn; now rewrite app_nil_r.
  - cbn. destruct (n >? 1)%Z; cbn in *; rewrite Hget; cbn; rewrite Hshape; cbn;
      rewrite Hinit; cbn; [reflexivity | now rewrite app_nil_r].
Qed.

(** C9 (as amended). If [embedding_output] is not [None] and strictly
    greater than the number of model outputs, [create_index] raises the
    [ValueError] of its guard, before anything else and with the model
    untouched.  In every other case a [ValueError] it raises is one the
    constructor of the index raised.  An [embedding_output] equal to the
    number of outputs passes the guard, although with several outputs it
    is not a valid position: the lookup of that output fails with
    [IndexError]. *)
Theorem create_index_guard distance search kv_store evaluator eo sbs (self : Model) :
  let n := Z.of_nat (length (SM.output_names self)) in
  let run := create_index distance search kv_store evaluator eo sbs self in
  ((exists e, eo = Some e /\ (e > n)%Z) ->
   run = (raise (ValueError SM.guard_message), self)) /\
  (~ (exists e, eo = Some e /\ (e > n)%Z) ->
   forall msg,
     fst run = raise (ValueError msg) ->
     exists ix, Indexer_init ix = raise (ValueError msg)) /\
  (eo = Some n -> (1 < n)%Z ->
   length (SM.outputs self) = length (SM.output_names self) ->
   run = (raise (IndexError "list index out of range"), self)).
Proof.
  intros n run. split; [|split].
  - intros (e & -> & Hgt). now apply create_index_guard_fires.
  - intros Hno msg Hout.
    assert (Hle : forall e, eo = Some e -> (e <= n)%Z).
    { intros e ->. destruct (Z_gt_le_dec e n) as [Hgt|Hle]; [|exact Hle].
      exfalso. apply Hno. eauto. }
    destruct (create_index_past_guard distance search kv_store evaluator eo sbs
                self (ValueError msg) Hle Hout) as [E|[E|Hix]];
      try discriminate.
    exact Hix.
  - intros -> Hn Hlen. unfold run, SM.create_index, ebind, SM.get, lift, eret.
    cbn. fold n.
    replace (n >? n)%Z with false by (symmetry; rewrite Z.gtb_ltb; apply Z.ltb_irrefl).
    cbn.
    replace (n >? 1)%Z with true by (symmetry; apply Z.gtb_lt; lia).
    cbn. unfold n. rewrite <- Hlen, py_getitem_length. reflexivity.
Qed.

(** C10. [compile] with [distance="auto"], on a model for which
    [create_index] goes through: if [loss] is [None] the index is built
    with the distance [distances.get("cosine")]; otherwise it is built
    with the [distance] attribute of the first loss ([loss[0]] of a list,
    [loss] itself otherwise).  In both cases the distance is announced,
    and Keras' [compile] then runs on the model that holds the new index.
    When the first loss has no [distance] attribute, a [ValueError] is
    raised, and an empty list of losses ends in an [IndexError]; the model
    is untouched in both cases. *)
Theorem compile_auto_distance
    keras_args loss spe eo kv_store search evaluator sbs (self : Model) t size :
  let n := Z.of_nat (length (SM.output_names self)) in
  let index d :=
    {| SM.ix_embedding_size := size;
       SM.ix_distance := d;
       SM.ix_search := search;
       SM.ix_kv_store := kv_store;
       SM.ix_evaluator := evaluator;
       SM.ix_embedding_output :=
         match eo with
         | None => if (n >? 1)%Z then Some 0%Z else None
         | Some e => Some e
         end;
       SM.ix_stat_buffer_size := sbs |} in
  let indexed d :=
    {| SM.output_names := SM.output_names self;
       SM.outputs := SM.outputs self;
       SM.embedding_size := Some size;
       SM._ix := Some (index d);
       SM.stdout :=
         (SM.stdout self ++
          SM.auto_message distance_str d ::
          match eo with
          | None =>
              if (n >? 1)%Z
              then ["Embedding output set to be model output 0.  Use the embedding_output arg to override this."]
              else []
          | Some _ => []
          end)%list |} in
  let keras :=
    if executing_eagerly
    then keras_compile keras_args loss (Some spe)
    else keras_compile keras_args loss None in
  let run :=
    compile keras_args loss spe (SM.DistanceName "auto") eo kv_store search
            evaluator sbs self in
  (forall e, eo = Some e -> (e <= n)%Z) ->
  SM.py_getitem (SM.outputs self) (if (n >? 1)%Z then default 0%Z eo else 0%Z)
  = ok t ->
  SM.shape1 t = ok size ->
  (forall d, Indexer_init (index d) = ok tt) ->
  (forall cosine,
     loss = SM.LossNone ->
     distances_get (SM.DistanceName "cosine") = ok cosine ->
     run = keras (indexed cosine)) /\
  (forall l d,
     SM.first_loss loss = Some l -> SM.loss_distance l = Some d ->
     run = keras (indexed d)) /\
  (forall l,
     SM.first_loss loss = Some l -> SM.loss_distance l = None ->
     run = (raise (ValueError SM.not_metric_loss_message), self)) /\
  (loss = SM.LossList [] ->
   run = (raise (IndexError "list index out of range"), self)).
Proof.
  intros n index indexed keras run Hle Hget Hshape Hinit.
  assert (Hgo : forall d,
    (_ <- SM.print (SM.auto_message distance_str d) ;;
     _ <- create_index d search kv_store evaluator eo sbs ;;
     keras)%eff self = keras (indexed d)).
  { intros d.
    pose (self1 := snd (SM.print (SM.auto_message distance_str d) self)).
    unfold ebind at 1.
    change (SM.print (SM.auto_message distance_str d) self) with (ok tt, self1).
    cbv beta iota. unfold ebind at 1.
    rewrite (create_index_run d search kv_store evaluator eo sbs self1 t size
               Hle Hget Hshape (Hinit d)).
    unfold ok. cbv beta iota.
    unfold self1, indexed, index.
    cbn [SM.print snd SM.output_names SM.outputs SM.stdout].
    rewrite <- app_assoc. reflexivity. }
  unfold run, SM.compile. cbn [SM.is_auto].
  change ("auto" =? "auto") with true. cbv iota.
  split; [|split; [|split]].
  - intros cosine -> Hc. rewrite Hc. unfold ebind at 1 2 3, lift, eret.
    rewrite <- (Hgo cosine). unfold ebind. reflexivity.
  - intros l d Hl Hd.
    destruct loss as [|[|l' ls]|l']; cbn in Hl; try discriminate;
      inversion Hl; subst l'; cbn; unfold SM.metric_loss_distance; rewrite Hd;
      unfold ebind at 1 2 3, lift, eret; rewrite <- (Hgo d); unfold ebind;
      reflexivity.
  - intros l Hl Hd.
    destruct loss as [|[|l' ls]|l']; cbn in Hl; try discriminate;
      inversion Hl; subst l'; unfold ebind at 1 2 3, lift;
      cbn; unfold SM.metric_loss_distance; rewrite Hd; reflexivity.
  - intros ->. reflexivity.
Qed.

End ModelFacts.

Module ModelExamples.
Import Example.

Local Abbreviation create_index_ex := (SM.create_index accept_index).
Local Abbreviation compile_ex :=
  (SM.compile (fun d : string => d) names_get accept_index keras_ok true).
Local Abbreviation create_index_linear := (SM.create_index Example2.linear_only).

(** C9 as stated does not hold.  On the model with two outputs and an index
    that knows the linear search only, asking for another search raises
    [ValueError] although [embedding_output] is [None], and also when it
    is the valid position 1. *)
Lemma create_index_value_error_past_guard :
  fst (create_index_linear "cosine" "nmslib" tt tt None 1000%Z Example2.two_heads)
  = raise Example2.unknown_search /\
  fst (create_index_linear "cosine" "nmslib" tt tt (Some 1%Z) 1000%Z
                           Example2.two_heads)
  = raise Example2.unknown_search /\
  (exists msg, Example2.unknown_search = ValueError msg) /\
  ~ (exists e,
       (@None Z = Some e \/ Some 1%Z = Some e) /\
       (e > Z.of_nat (length (SM.output_names Example2.two_heads)))%Z).
Proof.
  split; [reflexivity|]. split; [reflexivity|]. split; [eexists; reflexivity|].
  intros (e & [E|E] & He); inversion E; subst. cbn in He. lia.
Qed.

(** On that model: 3 is stopped by the guard, the model untouched; without
    an [embedding_output] a [ValueError] is the constructor's; 2 passes
    the guard and fails in the lookup. *)
Lemma create_index_guard_witness :
  create_index_linear "cosine" "linear" tt tt (Some 3%Z) 1000%Z Example2.two_heads
  = (raise (ValueError SM.guard_message), Example2.two_heads) /\
  (forall msg,
     fst (create_index_linear "cosine" "nmslib" tt tt None 1000%Z Example2.two_heads)
     = raise (ValueError msg) ->
     exists ix, Example2.linear_only ix = raise (ValueError msg)) /\
  create_index_linear "cosine" "linear" tt tt (Some 2%Z) 1000%Z Example2.two_heads
  = (raise (IndexError "list index out of range"), Example2.two_heads).
Proof.
  split; [|split].
  - apply (proj1 (create_index_guard string string unit unit Example2.linear_only
                    "cosine" "linear" tt tt (Some 3%Z) 1000%Z Example2.two_heads)).
    exists 3%Z. split; [reflexivity | cbn; lia].
  - apply (proj1 (proj2 (create_index_guard string string unit unit
                           Example2.linear_only
                           "cosine" "nmslib" tt tt None 1000%Z Example2.two_heads))).
    intros (e & E & _). discriminate E.
  - apply (proj2 (proj2 (create_index_guard string string unit unit
                           Example2.linear_only
                           "cosine" "linear" tt tt (Some 2%Z) 1000%Z
                           Example2.two_heads)));
      [reflexivity | cbn; lia | reflexivity].
Defined.

(** On the two-output model: 3 is rejected by the guard, 2 passes it and
    fails in the lookup, 1 selects the second head. *)
Example create_index_on_model :
  create_index_ex "cosine" tt tt tt (Some 3%Z) 1000%Z model
  = (raise (ValueError SM.guard_message), model) /\
  fst (create_index_ex "cosine" tt tt tt (Some 2%Z) 1000%Z model)
  = raise (IndexError "list index out of range") /\
  option_map (fun ix => (SM.ix_embedding_size ix, SM.ix_embedding_output ix))
             (SM._ix (snd (create_index_ex "cosine" tt tt tt (Some 1%Z) 1000%Z model)))
  = Some (Some 8, Some 1%Z).
Proof. repeat split. Qed.

(** The model after [compile] found the distance [d] by itself and indexed
    the second head. *)
Local Abbreviation compiled d :=
  {| SM.output_names := ["embedding"; "aux"];
     SM.outputs := [[None; Some 16]; [None; Some 8]];
     SM.embedding_size := Some (Some 8);
     SM._ix :=
       Some {| SM.ix_embedding_size := Some 8;
               SM.ix_distance := d%string;
               SM.ix_search := tt;
               SM.ix_kv_store := tt;
               SM.ix_evaluator := tt;
               SM.ix_embedding_output := Some 1%Z;
               SM.ix_stat_buffer_size := 1000%Z |};
     SM.stdout :=
       [("Distance metric automatically set to " ++ d
           ++ " use the distance arg to override.")%string] |}.

Lemma compile_auto_distance_witness :
  compile_ex tt SM.LossNone 1%Z (SM.DistanceName "auto") (Some 1%Z) tt tt tt
             1000%Z model
  = (ok tt, compiled "cosine") /\
  compile_ex tt (SM.LossList [ {| SM.loss_distance := Some "l2" |};
                               {| SM.loss_distance := Some "l1" |} ])
             1%Z (SM.DistanceName "auto") (Some 1%Z) tt tt tt 1000%Z model
  = (ok tt, compiled "l2") /\
  compile_ex tt (SM.LossObject {| SM.loss_distance := Some "l1" |})
             1%Z (SM.DistanceName "auto") (Some 1%Z) tt tt tt 1000%Z model
  = (ok tt, compiled "l1") /\
  compile_ex tt (SM.LossList [ {| SM.loss_distance := None |};
                               {| SM.loss_distance := Some "l2" |} ])
             1%Z (SM.DistanceName "auto") (Some 1%Z) tt tt tt 1000%Z model
  = (raise (ValueError SM.not_metric_loss_message), model) /\
  compile_ex tt (SM.LossList []) 1%Z (SM.DistanceName "auto") (Some 1%Z) tt tt tt
             1000%Z model
  = (raise (IndexError "list index out of range"), model).
Proof.
  pose (on_loss loss :=
    compile_auto_distance string unit unit unit (fun d : string => d)
      names_get accept_index unit keras_ok true
      tt loss 1%Z (Some 1%Z) tt tt tt 1000%Z model [None; Some 8] (Some 8)
      ltac:(intros e E; inversion E; subst; cbn; lia) eq_refl eq_refl
      (fun d => eq_refl)).
  split; [|split; [|split; [|split]]].
  - exact (proj1 (on_loss SM.LossNone) "cosine" eq_refl eq_refl).
  - exact (proj1 (proj2 (on_loss (SM.LossList [ {| SM.loss_distance := Some "l2" |};
                                                {| SM.loss_distance := Some "l1" |} ])))
                 {| SM.loss_distance := Some "l2" |} "l2" eq_refl eq_refl).
  - exact (proj1 (proj2 (on_loss (SM.LossObject {| SM.loss_distance := Some "l1" |})))
                 {| SM.loss_distance := Some "l1" |} "l1" eq_refl eq_refl).
  - exact (proj1 (proj2 (proj2 (on_loss
                   (SM.LossList [ {| SM.loss_distance := None |};
                                  {| SM.loss_distance := Some "l2" |} ]))))
                 {| SM.loss_distance := None |} eq_refl eq_refl).
  - exact (proj2 (proj2 (proj2 (on_loss (SM.LossList [])))) eq_refl).
Defined.

(** The three cases of [distance="auto"] on the model. *)
Example compile_auto_on_model :
  option_map (@SM.ix_distance _ _ _ _)
    (SM._ix (snd (compile_ex tt SM.LossNone 1%Z (SM.DistanceName "auto")
                             None tt tt tt 1000%Z model)))
  = Some "cosine" /\
  option_map (@SM.ix_distance _ _ _ _)
    (SM._ix (snd (compile_ex tt (SM.LossObject {| SM.loss_distance := Some "l2" |})
                             1%Z (SM.DistanceName "auto")
                             None tt tt tt 1000%Z model)))
  = Some "l2" /\
  compile_ex tt (SM.LossList [ {| SM.loss_distance := None |};
                               {| SM.loss_distance := Some "l2" |} ])
             1%Z (SM.DistanceName "auto") None tt tt tt 1000%Z model
  = (raise (ValueError SM.not_metric_loss_message), model).
Proof. repeat split. Qed.

End ModelExamples.

(* ================================================================== *)
(** * Further properties of the two files *)

(** ** The cross term of [pn_loss] *)

Section CrossTermFacts.
Context {T : Type} `{Scalar T}.

Lemma gather_nd_error (P : matrix T) (idx : list (nat * nat)) e :
  gather_nd P idx = raise e -> e = InvalidArgumentError "indices out of bounds".
Proof.
  induction idx as [|[r c] idx IH]; cbn; [discriminate|].
  destruct (entry P r c); [|intros E; now inversion E].
  destruct (gather_nd P idx) as [e'|vs]; [|discriminate].
  intros E. inversion E; subst. now apply IH.
Qed.

Lemma gather_nd_defined_iff (P : matrix T) (idx : list (nat * nat)) :
  (exists vs, gather_nd P idx = ok vs) <->
  (forall i, i < length idx ->
     entry P (fst (nth i idx (0, 0))) (snd (nth i idx (0, 0))) <> None).
Proof.
  split.
  - intros [vs Hg] i Hi. destruct (gather_nd_inv P idx vs Hg) as [_ Hv].
    rewrite (Hv i Hi). discriminate.
  - intros Hin. destruct (gather_nd_ok P idx Hin) as (vs & Hg & _). eauto.
Qed.

Lemma minimum_defined_iff (a b : list T) :
  (exists r, minimum a b = ok r) <->
  (length a = length b \/ length a = 1 \/ length b = 1).
Proof.
  unfold minimum. destruct (Nat.eqb (length a) (length b)) eqn:E.
  - apply Nat.eqb_eq in E. split; eauto.
  - apply Nat.eqb_neq in E. split.
    + intros [r Hr].
      destruct a as [|x [|x' a]]; destruct b as [|y [|y' b]]; cbn in *;
        try discriminate; auto.
    + intros [Hl|[Hl|Hl]]; [contradiction| |].
      * destruct a as [|x [|x' a]]; try discriminate. eauto.
      * destruct b as [|y [|y' b]]; try discriminate.
        destruct a as [|x [|x' a]]; eauto.
Qed.

Lemma minimum_error (a b : list T) e :
  minimum a b = raise e -> e = InvalidArgumentError "Incompatible shapes".
Proof.
  unfold minimum. destruct (Nat.eqb (length a) (length b)); [discriminate|].
  destruct a as [|x [|x' a]]; destruct b as [|y [|y' b]]; cbn;
    try discriminate; intros E; now inversion E.
Qed.

Lemma entry_bounds (P : matrix T) r c :
  entry P r c <> None <-> r < length P /\ c < length (nth r P []).
Proof.
  unfold entry. destruct (nth_error P r) as [row|] eqn:E.
  - rewrite (nth_error_nth P r [] E).
    assert (Hr : r < length P) by (apply nth_error_Some; congruence).
    rewrite nth_error_Some. tauto.
  - apply nth_error_None in E. split; [congruence | lia].
Qed.

Lemma cross_term_defined_entry (D : matrix T) (pi ni : list nat) (nd : list T) :
  ((exists eff, cross_term D pi ni nd = ok eff) <->
   (length pi = length ni /\
    (forall i, i < length pi -> entry D (nth i pi 0) (nth i ni 0) <> None) /\
    (length pi = length nd \/ length pi = 1 \/ length nd = 1))) /\
  (forall e, cross_term D pi ni nd = raise e ->
             exists msg, e = InvalidArgumentError msg).
Proof.
  unfold cross_term, stack_axis1.
  destruct (Nat.eqb (length pi) (length ni)) eqn:El; cbn.
  - apply Nat.eqb_eq in El.
    assert (Hnth : forall i, nth i (combine pi ni) (0, 0) = (nth i pi 0, nth i ni 0))
      by (intros i; now apply combine_nth).
    assert (Hlen : length (combine pi ni) = length pi)
      by (rewrite length_combine; lia).
    destruct (gather_nd D (combine pi ni)) as [e|vs] eqn:Eg; cbn.
    + split.
      * split; [intros [eff E]; discriminate|].
        intros (_ & Hin & _). exfalso.
        destruct (proj2 (gather_nd_defined_iff D (combine pi ni))) as [vs Hvs].
        { intros i Hi. rewrite Hnth. cbn. apply Hin. lia. }
        rewrite Eg in Hvs. discriminate.
      * intros e' E. inversion E; subst. eexists.
        eapply gather_nd_error; eassumption.
    + destruct (gather_nd_inv D (combine pi ni) vs Eg) as [Hl Hv].
      unfold reshape_column. split.
      * rewrite minimum_defined_iff, Hl, Hlen. split.
        -- intros Hs. repeat split; try assumption.
           intros i Hi. specialize (Hv i ltac:(lia)). rewrite Hnth in Hv.
           cbn in Hv. rewrite Hv. discriminate.
        -- intros (_ & _ & Hs). exact Hs.
      * intros e E. eexists. eapply minimum_error; eassumption.
  - apply Nat.eqb_neq in El. split.
    + split; [intros [eff E]; discriminate|]. intros (Hl & _). contradiction.
    + intros e E. inversion E. eauto.
Qed.

(** X1. Where [tf.gather_nd] treats an index out of bounds as an error (on
    CPU, in eager execution; [gather_nd] above is that operation), the
    cross term of [pn_loss] is defined exactly when the two index vectors
    have the same length, every [pos_idxs[i]] is a row of the distance
    matrix and [neg_idxs[i]] a column of that row, and the mined negative
    distances have as many rows as there are pairs (or one of the two
    columns has a single row, which is broadcast); a failure is then an
    [InvalidArgumentError]. *)
Theorem cross_term_defined_iff (D : matrix T) (pi ni : list nat) (nd : list T) :
  ((exists eff, cross_term D pi ni nd = ok eff) <->
   (length pi = length ni /\
    (forall i, i < length pi ->
       nth i pi 0 < length D /\ nth i ni 0 < length (nth (nth i pi 0) D [])) /\
    (length pi = length nd \/ length pi = 1 \/ length nd = 1))) /\
  (forall e, cross_term D pi ni nd = raise e ->
             exists msg, e = InvalidArgumentError msg).
Proof.
  destruct (cross_term_defined_entry D pi ni nd) as [Hiff Herr].
  split; [|exact Herr]. rewrite Hiff. split.
  - intros (Hl & Hin & Hs). repeat split; try assumption;
      apply (proj1 (entry_bounds D _ _) (Hin i H0)).
  - intros (Hl & Hin & Hs). repeat split; try assumption.
    intros i Hi. apply entry_bounds. exact (Hin i Hi).
Qed.

(** X2. The positive indices are positions among the keys, but the cross
    term uses them as row numbers of the query-by-key distance matrix: as
    soon as one of them is not smaller than the number of queries, the
    gather fails and [pn_loss] ends in an [InvalidArgumentError]. *)
Theorem cross_term_positive_index_beyond_rows
    (D : matrix T) (pi ni : list nat) (nd : list T) (i : nat) :
  length pi = length ni ->
  i < length pi ->
  length D <= nth i pi 0 ->
  cross_term D pi ni nd = raise (InvalidArgumentError "indices out of bounds").
Proof.
  intros Hl Hi Hrow. unfold cross_term. rewrite stack_axis1_ok by assumption.
  cbn. destruct (gather_nd D (combine pi ni)) as [e|vs] eqn:Eg; cbn.
  - now rewrite (gather_nd_error _ _ _ Eg).
  - exfalso. destruct (gather_nd_inv D (combine pi ni) vs Eg) as [_ Hv].
    specialize (Hv i ltac:(rewrite length_combine; lia)).
    rewrite (combine_nth pi ni i 0 0 Hl) in Hv. cbn in Hv.
    unfold entry in Hv.
    rewrite (proj2 (nth_error_None D (nth i pi 0)) Hrow) in Hv. discriminate.
Qed.

End CrossTermFacts.

Lemma str_in_iff (s : string) (l : list string) :
  (str_in s l = true <-> In s l) /\ (str_in s l = false <-> ~ In s l).
Proof.
  assert (Ht : str_in s l = true <-> In s l).
  { unfold str_in. rewrite existsb_exists. split.
    - intros (x & Hx & E). apply String.eqb_eq in E. now subst.
    - intros Hs. exists s. split; [assumption | apply String.eqb_refl]. }
  split; [exact Ht|].
  rewrite <- Ht. destruct (str_in s l); intuition congruence.
Qed.

Section PNLossStages.
Context {T : Type} `{Scalar T}.
Variables W L : Type.
Variable build_masks : list Z -> list Z -> nat -> bool -> result (mask * mask).
Variable positive_distances :
  string -> matrix T -> mask -> result (list T * list nat).
Variable negative_distances :
  string -> matrix T -> mask -> mask -> result (list T * list nat).
Variable compute_loss : list T -> list T -> option T -> result L.
Variable distances_get : @distance_arg T W -> result (@Distance T W).

Local Abbreviation pn_loss :=
  (pn_loss build_masks positive_distances negative_distances compute_loss).
Local Abbreviation PNLoss_init := (PNLoss_init distances_get).
Local Abbreviation cosine := (@DistanceName T W "cosine").


(** X4. The constructor of [PNLoss] checks in a fixed order: a distance the
    registry rejects is reported first, whatever the strategies are; then an
    invalid positive strategy, whatever the negative strategy is; an invalid
    negative strategy is reported only when the positive one is valid. *)
Theorem PNLoss_init_check_order distance ps ns margin name rd :
  let p := default "hard" ps in
  let n := default "semi-hard" ns in
  (forall e, distances_get (default cosine distance) = raise e ->
     PNLoss_init distance ps ns margin name rd = raise e) /\
  (forall d, distances_get (default cosine distance) = ok d ->
     ~ valid_positive_strategy p ->
     PNLoss_init distance ps ns margin name rd
     = raise (ValueError "Invalid positive mining strategy.")) /\
  (forall d, distances_get (default cosine distance) = ok d ->
     valid_positive_strategy p -> ~ valid_negative_strategy n ->
     PNLoss_init distance ps ns margin name rd
     = raise (ValueError "Invalid negative mining strategy.")).
Proof.
  intros p n. split; [|split].
  - intros e He. unfold PN.PNLoss_init. now rewrite He.
  - intros d Hd Hp.
    rewrite (PNLoss_init_cases W distances_get distance ps ns margin name rd d Hd).
    cbv zeta. fold p n.
    apply (proj2 (str_in_iff _ _)) in Hp. now rewrite Hp.
  - intros d Hd Hp Hn.
    rewrite (PNLoss_init_cases W distances_get distance ps ns margin name rd d Hd).
    cbv zeta. fold p n.
    apply (proj1 (str_in_iff _ _)) in Hp. apply (proj2 (str_in_iff _ _)) in Hn.
    now rewrite Hp, Hn.
Qed.

End PNLossStages.

(** ** [create_index] and [compile], beyond the guard *)

Section ModelIndexFacts.
Variables Distance Search Store Evaluator : Type.
Variable distance_str : Distance -> string.
Variable distances_get : SM.distance_arg Distance -> result Distance.
Variable Indexer_init : SM.Indexer Distance Search Store Evaluator -> result unit.
Variable KerasArgs : Type.
Variable keras_compile :
  KerasArgs -> SM.loss_arg Distance -> option Z ->
  Eff (SM.SimilarityModel Distance Search Store Evaluator) unit.
Variable executing_eagerly : bool.

Local Abbreviation Model := (SM.SimilarityModel Distance Search Store Evaluator).
Local Abbreviation create_index := (SM.create_index Indexer_init).
Local Abbreviation compile :=
  (SM.compile distance_str distances_get Indexer_init keras_compile
              executing_eagerly).

Local Ltac unfold_create_index :=
  unfold SM.create_index, ebind, SM.get, lift, eret,
    SM.print, SM.set_embedding_size, SM.set_index; cbn.

(** X5. When [create_index] returns, it has indexed head 0 if
    [embedding_output] was omitted (announcing it on the output when the
    model has several heads), the given head if the model has several heads,
    and head 0 regardless of [embedding_output] if the model has a single
    head; the model then holds the size of that head and a new index built
    with the arguments, and [embedding_output] is recorded as given, except
    that an omitted one becomes 0 on a model with several heads. *)
Theorem create_index_returns
    distance search kv_store evaluator eo sbs (self : Model) t size :
  let n := Z.of_nat (length (SM.output_names self)) in
  let head := if (n >? 1)%Z then default 0%Z eo else 0%Z in
  let recorded :=
    match eo with
    | None => if (n >? 1)%Z then Some 0%Z else None
    | Some e => Some e
    end in
  let announced :=
    match eo with
    | None =>
        if (n >? 1)%Z
        then ["Embedding output set to be model output 0.  Use the embedding_output arg to override this."]
        else []
    | Some _ => []
    end in
  let index :=
    {| SM.ix_embedding_size := size;
       SM.ix_distance := distance;
       SM.ix_search := search;
       SM.ix_kv_store := kv_store;
       SM.ix_evaluator := evaluator;
       SM.ix_embedding_output := recorded;
       SM.ix_stat_buffer_size := sbs |} in
  (forall e, eo = Some e -> (e <= n)%Z) ->
  SM.py_getitem (SM.outputs self) head = ok t ->
  SM.shape1 t = ok size ->
  Indexer_init index = ok tt ->
  create_index distance search kv_store evaluator eo sbs self
  = (ok tt,
     {| SM.output_names := SM.output_names self;
        SM.outputs := SM.outputs self;
        SM.embedding_size := Some size;
        SM._ix := Some index;
        SM.stdout := (SM.stdout self ++ announced)%list |}).
Proof.
  intros n head recorded announced index Hle Hget Hshape Hinit.
  unfold_create_index. fold n.
  subst head recorded announced index.
  destruct eo as [e|].
  - assert (Hg : (e >? n)%Z = false).
    { rewrite Z.gtb_ltb. apply Z.ltb_ge. exact (Hle e eq_refl). }
    rewrite Hg. cbn.
    destruct (n >? 1)%Z; cbn in *; rewrite Hget; cbn; rewrite Hshape; cbn;
      rewrite Hinit; cbn; now rewrite app_nil_r.
  - cbn. destruct (n >? 1)%Z; cbn in *; rewrite Hget; cbn; rewrite Hshape; cbn;
      rewrite Hinit; cbn; [reflexivity | now rewrite app_nil_r].
Qed.

Lemma py_getitem_negative {A} (l : list A) (e : Z) :
  (e < 0)%Z ->
  SM.py_getitem l e =
  if (e + Z.of_nat (length l) <? 0)%Z
  then raise (IndexError "list index out of range")
  else match nth_error l (Z.to_nat (e + Z.of_nat (length l))) with
       | Some a => ok a
       | None => raise (IndexError "list index out of range")
       end.
Proof.
  intros He. unfold SM.py_getitem.
  replace (e <? 0)%Z with true by (symmetry; apply Z.ltb_lt; lia).
  destruct (e + Z.of_nat (length l) <? 0)%Z eqn:E; [reflexivity|].
  replace (Z.of_nat (length l) <=? e + Z.of_nat (length l))%Z with false
    by (symmetry; apply Z.leb_gt; lia).
  reflexivity.
Qed.

(** X6. A negative [embedding_output] is never stopped by the guard of
    [create_index].  On a model with several heads it counts from the end,
    as Python list positions do: with [n] heads and [-n <= e < 0] the head
    looked up is number [n + e], while [e < -n] ends in an [IndexError];
    the index is built with the negative number as it was given. *)
Theorem create_index_negative_embedding_output
    distance search kv_store evaluator e sbs (self : Model) :
  let n := Z.of_nat (length (SM.output_names self)) in
  (e < 0)%Z -> (1 < n)%Z ->
  length (SM.outputs self) = length (SM.output_names self) ->
  ((e < - n)%Z ->
   create_index distance search kv_store evaluator (Some e) sbs self
   = (raise (IndexError "list index out of range"), self)) /\
  (forall t size,
     (- n <= e)%Z ->
     nth_error (SM.outputs self) (Z.to_nat (n + e)) = Some t ->
     SM.shape1 t = ok size ->
     Indexer_init
       {| SM.ix_embedding_size := size;
          SM.ix_distance := distance;
          SM.ix_search := search;
          SM.ix_kv_store := kv_store;
          SM.ix_evaluator := evaluator;
          SM.ix_embedding_output := Some e;
          SM.ix_stat_buffer_size := sbs |} = ok tt ->
     exists self',
       create_index distance search kv_store evaluator (Some e) sbs self
       = (ok tt, self') /\
       SM.embedding_size self' = Some size /\
       option_map (@SM.ix_embedding_output _ _ _ _) (SM._ix self') = Some (Some e)).
Proof.
  intros n He Hn Hlen.
  assert (Hg : (e >? n)%Z = false) by (rewrite Z.gtb_ltb; apply Z.ltb_ge; lia).
  assert (Hm : (n >? 1)%Z = true) by (apply Z.gtb_lt; lia).
  pose proof (py_getitem_negative (SM.outputs self) e He) as Hget.
  rewrite Hlen in Hget. fold n in Hget.
  split.
  - intros Hlow. unfold_create_index. fold n. rewrite Hg. cbn. rewrite Hm. cbn.
    rewrite Hget.
    replace (e + n <? 0)%Z with true by (symmetry; apply Z.ltb_lt; lia).
    reflexivity.
  - intros t size Hlow Hnth Hshape Hinit.
    unfold_create_index. fold n. rewrite Hg. cbn. rewrite Hm. cbn.
    rewrite Hget.
    replace (e + n <? 0)%Z with false by (symmetry; apply Z.ltb_ge; lia).
    replace (e + n)%Z with (n + e)%Z by lia.
    rewrite Hnth. cbn. rewrite Hshape. cbn. rewrite Hinit. cbn.
    eexists. split; [reflexivity|]. split; reflexivity.
Qed.

(** X7. Whatever [create_index] does, it leaves the output names and the
    outputs of the model alone and only adds to what was printed.  When it
    raises, the model keeps the index it had; the stored embedding size has
    changed at that point only if the exception comes from the constructor
    of the index.  When it returns, the model has an index. *)
Theorem create_index_keeps_model
    distance search kv_store evaluator eo sbs (self self' : Model) r :
  create_index distance search kv_store evaluator eo sbs self = (r, self') ->
  SM.output_names self' = SM.output_names self /\
  SM.outputs self' = SM.outputs self /\
  (exists lines, SM.stdout self' = (SM.stdout self ++ lines)%list) /\
  (forall ex, r = raise ex ->
     SM._ix self' = SM._ix self /\
     (SM.embedding_size self' = SM.embedding_size self \/
      exists ix, Indexer_init ix = raise ex)) /\
  (r = ok tt -> exists ix, SM._ix self' = Some ix).
Proof.
  unfold_create_index.
  set (n := Z.of_nat (length (SM.output_names self))).
  assert (Hnil : forall l : list string, exists lines, l = (l ++ lines)%list)
    by (intros l; exists []; now rewrite app_nil_r).
  destruct eo as [e|];
    [destruct (e >? n)%Z; cbn;
     [intros E; inversion E; subst; repeat split; auto; discriminate|]|];
    destruct (n >? 1)%Z; cbn;
    match goal with
    | |- context [SM.py_getitem ?l ?i] =>
        destruct (SM.py_getitem l i) as [?|t]; cbn
    end;
    try (intros E; inversion E; subst; cbn; repeat split; eauto; discriminate);
    (destruct (SM.shape1 t) as [?|size]; cbn;
     [intros E; inversion E; subst; cbn; repeat split; eauto; discriminate|]);
    match goal with
    | |- context [Indexer_init ?ix] =>
        destruct (Indexer_init ix) as [ex'|[]] eqn:Ei; cbn
    end;
    intros E; inversion E; subst; cbn; repeat split; eauto;
    try discriminate;
    try (right;
         match goal with
         | Hex : inl _ = raise _ |- _ => inversion Hex; subst
         end;
         eexists; eassumption).
Qed.

(** X8. When the distance cannot be resolved, [compile] raises before it
    touches the model: nothing is printed, no index is created and Keras is
    not called.  That covers a distance the registry rejects, with
    [distance="auto"] and no loss a registry without "cosine", and with
    [distance="auto"] an empty list of losses, which ends in an
    [IndexError] rather than in the [ValueError] for a loss that is not a
    metric loss. *)
Theorem compile_unresolved_distance
    keras_args loss spe distance eo kv_store search evaluator sbs (self : Model) :
  (forall e,
     SM.is_auto distance = false -> distances_get distance = raise e ->
     compile keras_args loss spe distance eo kv_store search evaluator sbs self
     = (raise e, self)) /\
  (forall e,
     SM.is_auto distance = true -> loss = SM.LossNone ->
     distances_get (SM.DistanceName "cosine") = raise e ->
     compile keras_args loss spe distance eo kv_store search evaluator sbs self
     = (raise e, self)) /\
  (SM.is_auto distance = true -> loss = SM.LossList [] ->
   compile keras_args loss spe distance eo kv_store search evaluator sbs self
   = (raise (IndexError "list index out of range"), self)).
Proof.
  unfold SM.compile. split; [|split].
  - intros e Ha He. rewrite Ha. unfold ebind at 1, lift. now rewrite He.
  - intros e Ha -> He. rewrite Ha. unfold ebind at 1 2, lift. now rewrite He.
  - intros Ha ->. rewrite Ha. reflexivity.
Qed.

End ModelIndexFacts.

(** ** A [PNLoss] given to [compile] *)

Section LossToIndex.
Context {T : Type} `{Scalar T}.
Variable W : Type.
Variable registry : @PN.distance_arg T W -> result (@PN.Distance T W).
Variables Search Store Evaluator : Type.
Variable distance_str : @PN.Distance T W -> string.
Variable distances_get :
  SM.distance_arg (@PN.Distance T W) -> result (@PN.Distance T W).
Variable Indexer_init :
  SM.Indexer (@PN.Distance T W) Search Store Evaluator -> result unit.
Variable KerasArgs : Type.
Variable keras_compile :
  KerasArgs -> SM.loss_arg (@PN.Distance T W) -> option Z ->
  Eff (SM.SimilarityModel (@PN.Distance T W) Search Store Evaluator) unit.
Variable executing_eagerly : bool.

(** X9. Compiling a model with [distance="auto"] and a [PNLoss] (alone or
    first in a list) configures the index with the distance of that loss,
    which is what the registry returned for the [distance] argument of the
    constructor of the loss ("cosine" when omitted): [compile] announces
    that distance and hands it to [create_index]. *)
Theorem compile_auto_with_PNLoss
    distance ps ns margin name rd (loss_obj : @PN.PNLoss T W) d
    keras_args rest spe eo kv_store search evaluator sbs self :
  registry (default (@PN.DistanceName T W "cosine") distance) = ok d ->
  PN.PNLoss_init registry distance ps ns margin name rd = ok loss_obj ->
  forall loss,
    loss = SM.LossObject (Link.PNLoss_as_loss loss_obj) \/
    loss = SM.LossList (Link.PNLoss_as_loss loss_obj :: rest) ->
    SM.compile distance_str distances_get Indexer_init keras_compile
               executing_eagerly
               keras_args loss spe (SM.DistanceName "auto") eo kv_store search
               evaluator sbs self
    = (_ <- SM.print (SM.auto_message distance_str d) ;;
       _ <- SM.create_index Indexer_init d search kv_store evaluator eo sbs ;;
       if executing_eagerly
       then keras_compile keras_args loss (Some spe)
       else keras_compile keras_args loss None)%eff self.
Proof.
  intros Hd Hinit loss Hloss.
  assert (Hdist : PN.self_distance loss_obj = d).
  { unfold PN.PNLoss_init in Hinit. rewrite Hd in Hinit. cbn in Hinit.
    destruct (negb _) in Hinit; [discriminate|].
    destruct (negb _) in Hinit; [discriminate|].
    inversion Hinit. reflexivity. }
  unfold SM.compile. cbn [SM.is_auto].
  change ("auto" =? "auto") with true. cbv iota.
  destruct Hloss as [-> | ->]; unfold ebind at 1 2 3, lift; cbn;
    unfold SM.metric_loss_distance; cbn; rewrite Hdist; reflexivity.
Qed.

End LossToIndex.

(** ** Using the index *)

Lemma ebind_ok {W A B} (m : Eff W A) (k : A -> Eff W B) w a w' :
  m w = (ok a, w') -> ebind m k w = k a w'.
Proof. intros E. unfold ebind. now rewrite E. Qed.

Lemma ebind_raise {W A B} (m : Eff W A) (k : A -> Eff W B) w e w' :
  m w = (raise e, w') -> ebind m k w = (raise e, w').
Proof. intros E. unfold ebind. now rewrite E. Qed.

Ltac run_step E := rewrite (ebind_ok _ _ _ _ _ E); cbv beta.

(** ** Dicts *)

Lemma dict_get_missing {V} (d : SMI.dict V) (key : string) :
  SMI.dict_mem d key = false -> SMI.dict_get d key = raise (SMI.KeyError key).
Proof.
  induction d as [|[k v] d IH]; cbn; [reflexivity|].
  destruct (String.eqb k key); cbn; [discriminate | exact IH].
Qed.

Lemma dict_get_present {V} (d : SMI.dict V) (key : string) :
  SMI.dict_mem d key = true -> exists v, SMI.dict_get d key = ok v.
Proof.
  induction d as [|[k v] d IH]; cbn; [discriminate|].
  destruct (String.eqb k key); cbn; [eauto | exact IH].
Qed.

Section IndexUseFacts.
Variables Distance Search Store Evaluator Contents : Type.

Local Abbreviation Model := (SM.SimilarityModel Distance Search Store Evaluator).
Local Abbreviation Indexer := (SM.Indexer Distance Search Store Evaluator).
Local Abbreviation World := (SMI.World Distance Search Store Evaluator Contents).

Variable Indexer_bool : Indexer -> Eff World bool.
Variables Samples Predictions Labels Matcher : Type.
Variable predict : Samples -> Eff World Predictions.
Variable Indexer_is_calibrated : Indexer -> Eff World bool.
Variable Indexer_size : Indexer -> Eff World Z.
Variable Indexer_match :
  Indexer -> Predictions -> Z -> Z -> Matcher -> Z -> Eff World (SMI.dict Labels).
Variables RetrievalMetrics MetricValue : Type.
Variable Indexer_evaluate_retrieval :
  Indexer -> Predictions -> Labels -> RetrievalMetrics -> Z ->
  Eff World (SMI.dict MetricValue).
Variable tabulate_results : SMI.dict MetricValue -> list string -> string.
Variables KerasSaveArgs Path : Type.
Variable keras_save : string -> bool -> KerasSaveArgs -> Eff World unit.
Variable index_path : string -> Path.
Variable Indexer_save : Indexer -> Path -> bool -> bool -> Eff World unit.

Local Abbreviation _index := (SMI._index Indexer_bool).
Local Abbreviation match_ :=
  (SMI.match_ Indexer_bool predict Indexer_is_calibrated Indexer_match).
Local Abbreviation evaluate_retrieval :=
  (SMI.evaluate_retrieval Indexer_bool predict Indexer_size
                          Indexer_evaluate_retrieval tabulate_results).
Local Abbreviation save :=
  (SMI.save Indexer_bool keras_save index_path Indexer_save).

(** X10. The getter of the [_index] property is a plain read of the
    attribute [_ix]: with an index it returns it, without one the read
    itself fails with Python's [AttributeError] for a missing attribute.
    The getter's own message ("The model does not currently have an index
    ...") is never raised, and the truth value of the index is never asked
    for. *)
Theorem index_getter_reads_attribute (w : World) :
  _index w = SMI.getattr_ix w /\
  fst (_index w) <> raise (SMI.AttributeError SMI.no_index_message).
Proof.
  assert (E : _index w = SMI.getattr_ix w).
  { unfold SMI._index, ebind, SMI.hasattr_ix, SMI.getattr_ix, eret, lift.
    destruct (SM._ix (fst w)) eqn:Eix; cbn; rewrite ?Eix; reflexivity. }
  split; [exact E|]. rewrite E. unfold SMI.getattr_ix.
  destruct (SM._ix (fst w)); cbn; discriminate.
Qed.

Lemma index_getter_some (w : World) ix :
  SM._ix (fst w) = Some ix -> _index w = (ok ix, w).
Proof.
  intros E. unfold SMI._index, ebind, SMI.hasattr_ix, SMI.getattr_ix, eret, lift.
  rewrite E. cbn. rewrite ?E. reflexivity.
Qed.

Lemma index_getter_none (w : World) :
  SM._ix (fst w) = None ->
  _index w
  = (raise (SMI.AttributeError "'SimilarityModel' object has no attribute '_ix'"), w).
Proof.
  intros E. unfold SMI._index, ebind, SMI.hasattr_ix, SMI.getattr_ix, eret, lift.
  rewrite E. cbn. rewrite ?E. reflexivity.
Qed.

(** X11. [match] on an index that is not calibrated raises [ValueError]
    right after reading the calibration flag: no prediction is computed.  On
    a calibrated index it predicts, lets the index match, and then returns
    every cutpoint for [cutpoint="all"] and the labels of the named cutpoint
    otherwise; a cutpoint the index did not return is a [KeyError], raised
    after the matching was done. *)
Theorem match_calibration_and_cutpoint
    x cutpoint no_match_label k matcher verbose (w w1 : World) ix :
  SM._ix (fst w) = Some ix ->
  (Indexer_is_calibrated ix w = (ok false, w1) ->
   match_ x cutpoint no_match_label k matcher verbose w
   = (raise (ValueError SMI.uncalibrated_message), w1)) /\
  (forall predictions w2 ix2 found w3,
     Indexer_is_calibrated ix w = (ok true, w1) ->
     predict x w1 = (ok predictions, w2) ->
     SM._ix (fst w2) = Some ix2 ->
     Indexer_match ix2 predictions no_match_label k matcher verbose w2
     = (ok found, w3) ->
     match_ x cutpoint no_match_label k matcher verbose w
     = (if String.eqb cutpoint "all" then ok (SMI.AllCutpoints found)
        else if SMI.dict_mem found cutpoint
             then rbind (SMI.dict_get found cutpoint)
                        (fun labels => ok (SMI.OneCutpoint labels))
             else raise (SMI.KeyError cutpoint),
        w3)).
Proof.
  intros Hix. pose proof (index_getter_some w ix Hix) as Hget. split.
  - intros Hcal. unfold SMI.match_.
    run_step Hget. run_step Hcal. reflexivity.
  - intros predictions w2 ix2 found w3 Hcal Hp Hix2 Hm.
    pose proof (index_getter_some w2 ix2 Hix2) as Hget2.
    unfold SMI.match_.
    run_step Hget. run_step Hcal. cbn [negb].
    run_step Hp. run_step Hget2. run_step Hm.
    destruct (String.eqb cutpoint "all"); [reflexivity|].
    unfold lift. f_equal.
    destruct (SMI.dict_mem found cutpoint) eqn:Emem; [reflexivity|].
    now rewrite (dict_get_missing found cutpoint Emem).
Qed.

(** X12. [evaluate_retrieval] on an empty index raises [IndexError] right
    after asking the index for its size: nothing is printed and no
    prediction is computed.  On a non-empty index and with [verbose=0] it
    prints nothing and returns what the index computed from the
    predictions. *)
Theorem evaluate_retrieval_empty_index x y metrics verbose (w w1 : World) ix :
  SM._ix (fst w) = Some ix ->
  (Indexer_size ix w = (ok 0%Z, w1) ->
   evaluate_retrieval x y metrics verbose w
   = (raise (IndexError SMI.empty_index_message), w1)) /\
  (forall n predictions w2 ix2 results w3,
     Indexer_size ix w = (ok n, w1) -> n <> 0%Z ->
     predict x w1 = (ok predictions, w2) ->
     SM._ix (fst w2) = Some ix2 ->
     Indexer_evaluate_retrieval ix2 predictions y metrics 0%Z w2 = (ok results, w3) ->
     evaluate_retrieval x y metrics 0%Z w = (ok results, w3)).
Proof.
  intros Hix. pose proof (index_getter_some w ix Hix) as Hget. split.
  - intros Hsize. unfold SMI.evaluate_retrieval.
    run_step Hget. run_step Hsize. reflexivity.
  - intros n predictions w2 ix2 results w3 Hsize Hn Hp Hix2 Hev.
    pose proof (index_getter_some w2 ix2 Hix2) as Hget2.
    unfold SMI.evaluate_retrieval.
    run_step Hget. run_step Hsize.
    replace (n =? 0)%Z with false by (symmetry; now apply Z.eqb_neq).
    unfold SMI.print_if. cbn [Z.eqb].
    rewrite (ebind_ok _ _ w1 tt w1 eq_refl). cbv beta.
    run_step Hp.
    rewrite (ebind_ok _ _ w2 tt w2 eq_refl). cbv beta.
    run_step Hget2. run_step Hev.
    reflexivity.
Qed.

(** X13. [save] first lets Keras save the model.  It then writes the index,
    under [Path(filepath) / "index"], only if the model has an index, the
    index is truthy and [save_index] is set.  Otherwise it prints exactly
    one line: "The index was not saved with the model.", directly followed
    (without a space) by the explanation that the model has no index when
    that is so, and by " The save_index param is set to False." when the
    flag is off.  A model without index is never asked for the truth value
    of an index. *)
Theorem save_writes_or_explains
    filepath flag compression overwrite keras_args (w w1 : World) :
  keras_save filepath overwrite keras_args w = (ok tt, w1) ->
  (SM._ix (fst w1) = None ->
   save filepath flag compression overwrite keras_args w
   = SMI.print
       (SMI.not_saved_message ++ SMI.no_index_to_save_message
          ++ (if flag then "" else SMI.save_index_false_message)) w1) /\
  (forall ix truth w2,
     SM._ix (fst w1) = Some ix ->
     Indexer_bool ix w1 = (ok truth, w2) ->
     SM._ix (fst w2) <> None ->
     truth && flag = false ->
     save filepath flag compression overwrite keras_args w
     = SMI.print
         (SMI.not_saved_message
            ++ (if flag then "" else SMI.save_index_false_message)) w2) /\
  (forall ix ix2 w2,
     SM._ix (fst w1) = Some ix ->
     Indexer_bool ix w1 = (ok true, w2) ->
     SM._ix (fst w2) = Some ix2 ->
     flag = true ->
     save filepath flag compression overwrite keras_args w
     = Indexer_save ix2 (index_path filepath) compression overwrite w2).
Proof.
  intros Hk.
  assert (Hhas : forall w0 : World,
            SMI.hasattr_ix w0
            = (ok (match SM._ix (fst w0) with Some _ => true | None => false end), w0))
    by reflexivity.
  split; [|split].
  - intros Hnone. unfold SMI.save. run_step Hk.
    pose proof (Hhas w1) as Hh. rewrite Hnone in Hh.
    run_step Hh. cbv iota.
    rewrite (ebind_ok _ _ w1 false w1 eq_refl). cbv beta iota.
    run_step Hh. cbn [negb].
    destruct flag; reflexivity.
  - intros ix truth w2 Hix Hb Hix2 Htf.
    pose proof (index_getter_some w1 ix Hix) as Hget.
    unfold SMI.save. run_step Hk.
    pose proof (Hhas w1) as Hh. rewrite Hix in Hh.
    run_step Hh. cbv iota.
    assert (Hc : ebind _index
                   (fun ix0 => ebind (Indexer_bool ix0)
                      (fun truth0 : bool =>
                         if truth0 then eret flag else eret false)) w1
                 = (ok false, w2)).
    { run_step Hget. run_step Hb.
      destruct truth; cbn in Htf; [subst flag|]; reflexivity. }
    run_step Hc. cbv iota.
    pose proof (Hhas w2) as Hh2.
    destruct (SM._ix (fst w2)); [|contradiction].
    run_step Hh2. cbn [negb].
    destruct flag; cbn [negb]; [|reflexivity].
    destruct truth; [discriminate|]. reflexivity.
  - intros ix ix2 w2 Hix Hb Hix2 ->.
    pose proof (index_getter_some w1 ix Hix) as Hget.
    pose proof (index_getter_some w2 ix2 Hix2) as Hget2.
    unfold SMI.save. run_step Hk.
    pose proof (Hhas w1) as Hh. rewrite Hix in Hh.
    run_step Hh. cbv iota.
    assert (Hc : ebind _index
                   (fun ix0 => ebind (Indexer_bool ix0)
                      (fun truth0 : bool =>
                         if truth0 then eret true else eret false)) w1
                 = (ok true, w2)).
    { run_step Hget. run_step Hb. reflexivity. }
    run_step Hc. cbv iota.
    unfold SMI.save_index. now run_step Hget2.
Qed.

End IndexUseFacts.

(** ** [evaluate_classification] *)

Lemma ebind_ok_inv {W A B} (m : Eff W A) (k : A -> Eff W B) w b w' :
  ebind m k w = (ok b, w') ->
  exists a w1, m w = (ok a, w1) /\ k a w1 = (ok b, w').
Proof.
  unfold ebind. destruct (m w) as [[e|a] w1]; [discriminate|]. eauto.
Qed.

Lemma dict_get_set_same {V} (d : SMI.dict V) key v :
  SMI.dict_get (SMI.dict_set d key v) key = ok v.
Proof.
  induction d as [|[k x] d IH]; cbn.
  - now rewrite String.eqb_refl.
  - destruct (String.eqb k key) eqn:E; cbn; rewrite E; [reflexivity | exact IH].
Qed.

Lemma dict_get_set_other {V} (d : SMI.dict V) key key' v :
  key <> key' ->
  SMI.dict_get (SMI.dict_set d key v) key' = SMI.dict_get d key'.
Proof.
  intros Hne. induction d as [|[k x] d IH]; cbn.
  - destruct (String.eqb key key') eqn:E; [|reflexivity].
    apply String.eqb_eq in E. contradiction.
  - destruct (String.eqb k key) eqn:E; cbn.
    + apply String.eqb_eq in E. subst k.
      destruct (String.eqb key key') eqn:E'; [|reflexivity].
      apply String.eqb_eq in E'. contradiction.
    + destruct (String.eqb k key'); [reflexivity | exact IH].
Qed.

Lemma dict_set_In {V} (d : SMI.dict V) key v k' v' :
  In (k', v') (SMI.dict_set d key v) ->
  (k' = key /\ v' = v) \/ In (k', v') d.
Proof.
  induction d as [|[k x] d IH]; cbn.
  - intros [E|[]]. inversion E; auto.
  - destruct (String.eqb k key) eqn:E; cbn.
    + apply String.eqb_eq in E. subst k.
      intros [E'|Hin]; [inversion E'; auto | auto].
    + intros [E'|Hin]; [auto|]. destruct (IH Hin); auto.
Qed.

Lemma dict_set_keys {V} (d : SMI.dict V) key v k' :
  In k' (map fst (SMI.dict_set d key v)) <-> k' = key \/ In k' (map fst d).
Proof.
  induction d as [|[k x] d IH]; cbn.
  - intuition.
  - destruct (String.eqb k key) eqn:E; cbn.
    + apply String.eqb_eq in E. subst k. intuition.
    + rewrite IH. intuition.
Qed.

Lemma dict_mem_keys {V} (d : SMI.dict V) key :
  SMI.dict_mem d key = true <-> In key (map fst d).
Proof.
  unfold SMI.dict_mem. rewrite existsb_exists. split.
  - intros ([k v] & Hin & E). apply String.eqb_eq in E. cbn in E. subst k.
    apply in_map_iff. exists (key, v). auto.
  - intros Hin. apply in_map_iff in Hin. destruct Hin as ([k v] & E & Hin).
    cbn in E. subst k. exists (key, v). split; [assumption|].
    apply String.eqb_refl.
Qed.

Lemma map_result_last_fails {A B} (f : A -> result B) (l : list A) a e :
  f a = raise e ->
  exists e',
    SMI.map_result f (l ++ [a]) = raise e' /\
    (e' = e \/ exists x, In x l /\ f x = raise e').
Proof.
  intros Ha. induction l as [|x l IH]; cbn.
  - rewrite Ha. cbn. eauto.
  - destruct (f x) as [ex|b] eqn:Ex; cbn.
    + exists ex. split; [reflexivity|]. right. exists x. auto.
    + destruct IH as (e' & -> & Hor). cbn. exists e'. split; [reflexivity|].
      destruct Hor as [->|(x' & Hin & Hx')]; [now left|].
      right. exists x'. auto.
Qed.

Lemma row_error {V} (data : SMI.dict V) (headers : list string) e :
  SMI.map_result (fun v => SMI.dict_get data v) headers = raise e ->
  exists key, In key headers /\ e = SMI.KeyError key.
Proof.
  induction headers as [|h headers IH]; cbn; [discriminate|].
  destruct (SMI.dict_mem data h) eqn:Em.
  - destruct (dict_get_present data h Em) as [v ->]. cbn.
    destruct (SMI.map_result _ headers) as [e'|bs]; cbn; [|discriminate].
    intros E. inversion E; subst. destruct (IH eq_refl) as (key & Hin & ->).
    exists key. auto.
  - rewrite (dict_get_missing data h Em). cbn. intros E. inversion E.
    exists h. auto.
Qed.

Section ClassificationFacts.
Variables Distance Search Store Evaluator Contents : Type.

Local Abbreviation Indexer := (SM.Indexer Distance Search Store Evaluator).
Local Abbreviation World := (SMI.World Distance Search Store Evaluator Contents).

Variable Indexer_bool : Indexer -> Eff World bool.
Variables Samples Predictions Labels Matcher : Type.
Variable predict : Samples -> Eff World Predictions.
Variable Indexer_is_calibrated : Indexer -> Eff World bool.
Variable Indexer_size : Indexer -> Eff World Z.
Variables Float Array CutpointValue Metric CalibrationMetric ProgressBar : Type.
Variable Indexer_get_calibration_metric : Indexer -> Eff World CalibrationMetric.
Variable metric_name : CalibrationMetric -> string.
Variable Indexer_cutpoints :
  Indexer -> Eff World (SMI.dict (SMI.dict CutpointValue)).
Variable to_float : CutpointValue -> result Float.
Variable make_classification_metric : string -> result Metric.
Variable Indexer_evaluate_classification :
  Indexer -> Predictions -> Labels -> list Float -> list Metric -> Matcher -> Z ->
  Eff World (SMI.dict Array).
Variable tqdm : nat -> Eff World ProgressBar.
Variable pb_update : ProgressBar -> Eff World unit.
Variable pb_close : ProgressBar -> Eff World unit.
Variable tabulate : list (list (SMI.Value Float Array)) -> list string -> string.

Local Abbreviation Value := (SMI.Value Float Array).
Local Abbreviation evaluate_cutpoint :=
  (SMI.evaluate_cutpoint Indexer_bool metric_name to_float
     make_classification_metric Indexer_evaluate_classification pb_update).
Local Abbreviation evaluate_classification :=
  (SMI.evaluate_classification Indexer_bool predict Indexer_is_calibrated
     Indexer_size Indexer_get_calibration_metric metric_name Indexer_cutpoints
     to_float make_classification_metric Indexer_evaluate_classification
     tqdm pb_update pb_close tabulate).

(** An entry of the result made for the cutpoint [name] out of [cutpoints]:
    it carries the name and, as a constant, the float of the cutpoint's
    "distance". *)
Local Abbreviation entry_of cutpoints nm res :=
  (SMI.dict_get res "name" = ok (SMI.VStr Float Array nm) /\
   exists cp_data v threshold,
     In (nm%string, cp_data) cutpoints /\
     SMI.dict_get cp_data "distance" = ok v /\
     to_float v = ok threshold /\
     SMI.dict_get res "distance" = ok (SMI.VConstant Array threshold)).

Lemma evaluate_cutpoint_inv predictions y k extra_metrics matcher cal_metric pb
      cp results (w w' : World) results' :
  evaluate_cutpoint predictions y k extra_metrics matcher cal_metric pb
                    cp results w = (ok results', w') ->
  exists res,
    results' = SMI.dict_set results (fst cp) res /\
    entry_of [cp] (fst cp) res.
Proof.
  unfold SMI.evaluate_cutpoint. intros E.
  apply ebind_ok_inv in E. destruct E as (threshold & w1 & Ht & E).
  apply ebind_ok_inv in E. destruct E as (metric & w2 & _ & E).
  apply ebind_ok_inv in E. destruct E as (ix & w3 & _ & E).
  apply ebind_ok_inv in E. destruct E as (computed & w4 & _ & E).
  apply ebind_ok_inv in E. destruct E as ([] & w5 & _ & E).
  cbv zeta in E. unfold eret in E. inversion E; subst results' w'. clear E.
  eexists. split; [reflexivity|].
  split.
  - apply dict_get_set_same.
  - unfold lift in Ht. inversion Ht as [[Hv Hw]].
    destruct (SMI.dict_get (snd cp) "distance") as [e|v] eqn:Ev; cbn in Hv;
      [discriminate|].
    exists (snd cp), v, threshold. repeat split.
    + left. now destruct cp.
    + exact Ev.
    + exact Hv.
    + rewrite dict_get_set_other by discriminate. apply dict_get_set_same.
Qed.

Lemma for_each_cutpoints_inv predictions y k extra_metrics matcher cal_metric pb
      cutpoints :
  forall results (w w' : World) results',
    SMI.for_each
      (evaluate_cutpoint predictions y k extra_metrics matcher cal_metric pb)
      cutpoints results w = (ok results', w') ->
    (forall name,
       In name (map fst results') <->
       In name (map fst results) \/ In name (map fst cutpoints)) /\
    (forall name res,
       In (name, res) results' ->
       In (name, res) results \/ entry_of cutpoints name res).
Proof.
  induction cutpoints as [|cp cutpoints IH]; intros results w w' results' E.
  - cbn in E. inversion E; subst. split.
    + intros name. cbn. tauto.
    + intros name res Hres. now left.
  - cbn [SMI.for_each] in E.
    apply ebind_ok_inv in E. destruct E as (acc & w1 & Hbody & E).
    destruct (evaluate_cutpoint_inv _ _ _ _ _ _ _ _ _ _ _ _ Hbody)
      as (res0 & -> & Hname & cp_data & v & thr & Hin & Hd & Hf & Hdist).
    destruct (IH _ _ _ _ E) as [Hkeys Hentries]. split.
    + intros name. rewrite Hkeys, dict_set_keys. cbn. intuition.
    + intros name res Hres. destruct (Hentries name res Hres) as [Hacc|Hent].
      * apply dict_set_In in Hacc. destruct Hacc as [[-> ->]|Hold]; [|auto].
        right. split; [exact Hname|].
        exists cp_data, v, thr. repeat split; try assumption.
        destruct Hin as [Hin|[]]. left. exact Hin.
      * right. destruct Hent as (Hn & cp_data' & v' & thr' & Hin' & Hrest).
        split; [exact Hn|]. exists cp_data', v', thr'. split; [now right | exact Hrest].
Qed.

(** X14. [evaluate_classification] checks the index in a fixed order: an
    empty index raises [IndexError] right after the size was read, whether
    or not the index is calibrated; a non-empty index that is not
    calibrated raises [ValueError] right after the flag was read.  In both
    cases nothing is printed and no prediction is computed. *)
Theorem evaluate_classification_checks
    x y k extra_metrics matcher verbose (w w1 : World) ix n :
  SM._ix (fst w) = Some ix ->
  Indexer_size ix w = (ok n, w1) ->
  (n = 0%Z ->
   evaluate_classification x y k extra_metrics matcher verbose w
   = (raise (IndexError SMI.empty_index_message_classification), w1)) /\
  (forall ix1 w2,
     n <> 0%Z ->
     SM._ix (fst w1) = Some ix1 ->
     Indexer_is_calibrated ix1 w1 = (ok false, w2) ->
     evaluate_classification x y k extra_metrics matcher verbose w
     = (raise (ValueError SMI.uncalibrated_message), w2)).
Proof.
  intros Hix Hsize.
  pose proof (index_getter_some _ _ _ _ _ Indexer_bool w ix Hix) as Hget.
  split.
  - intros ->. unfold SMI.evaluate_classification.
    run_step Hget. run_step Hsize. reflexivity.
  - intros ix1 w2 Hn Hix1 Hcal.
    pose proof (index_getter_some _ _ _ _ _ Indexer_bool w1 ix1 Hix1) as Hget1.
    unfold SMI.evaluate_classification.
    run_step Hget. run_step Hsize.
    replace (n =? 0)%Z with false by (symmetry; now apply Z.eqb_neq).
    run_step Hget1. run_step Hcal. reflexivity.
Qed.

Local Ltac step_in E H := rewrite (ebind_ok _ _ _ _ _ H) in E; cbv beta in E.

(** X15. With [verbose=0], [evaluate_classification] reads the cutpoints
    of the model's index once, after the embeddings were computed.  What it
    returns has one entry for each of these cutpoints and no other; the
    entry of a cutpoint carries the cutpoint's name under "name" and, under
    "distance", the constant made from the float of the cutpoint's own
    "distance", whatever the index computed under these two keys. *)
Theorem evaluate_classification_entries
    x y k extra_metrics matcher (w w1 w2 w3 w4 w5 w' : World)
    ix ix1 ix2 ix4 n cal_metric predictions cutpoints results :
  SM._ix (fst w) = Some ix ->
  Indexer_size ix w = (ok n, w1) ->
  SM._ix (fst w1) = Some ix1 ->
  Indexer_is_calibrated ix1 w1 = (ok true, w2) ->
  SM._ix (fst w2) = Some ix2 ->
  Indexer_get_calibration_metric ix2 w2 = (ok cal_metric, w3) ->
  predict x w3 = (ok predictions, w4) ->
  SM._ix (fst w4) = Some ix4 ->
  Indexer_cutpoints ix4 w4 = (ok cutpoints, w5) ->
  evaluate_classification x y k extra_metrics matcher 0%Z w = (ok results, w') ->
  (forall name, In name (map fst results) <-> In name (map fst cutpoints)) /\
  (forall name res, In (name, res) results -> entry_of cutpoints name res).
Proof.
  intros Hix Hsize Hix1 Hcal Hix2 Hmetric Hpredict Hix4 Hcut E.
  pose proof (index_getter_some _ _ _ _ _ Indexer_bool w ix Hix) as G.
  pose proof (index_getter_some _ _ _ _ _ Indexer_bool w1 ix1 Hix1) as G1.
  pose proof (index_getter_some _ _ _ _ _ Indexer_bool w2 ix2 Hix2) as G2.
  pose proof (index_getter_some _ _ _ _ _ Indexer_bool w4 ix4 Hix4) as G4.
  unfold SMI.evaluate_classification in E.
  step_in E G. step_in E Hsize.
  destruct (n =? 0)%Z; [discriminate|].
  step_in E G1. step_in E Hcal. cbv beta iota delta [negb] in E.
  step_in E G2. step_in E Hmetric.
  change (SMI.print_if 0 "|-Computing embeddings") with (@eret World unit tt) in E.
  rewrite (ebind_ok (eret tt) _ w3 tt w3 eq_refl) in E. cbv beta in E.
  step_in E Hpredict.
  change (0 =? 0)%Z with true in E. cbv iota in E.
  rewrite (ebind_ok (eret None) _ w4 None w4 eq_refl) in E. cbv beta in E.
  step_in E G4. step_in E Hcut.
  apply ebind_ok_inv in E. destruct E as (results0 & w6 & Hloop & E).
  apply ebind_ok_inv in E. destruct E as ([] & w7 & _ & E).
  inversion E; subst results0 w7. clear E.
  destruct (for_each_cutpoints_inv _ _ _ _ _ _ _ _ _ _ _ _ Hloop)
    as [Hkeys Hentries].
  split.
  - intros name. rewrite Hkeys. cbn. intuition.
  - intros name res Hres. destruct (Hentries name res Hres) as [[]|Hent].
    exact Hent.
Qed.

(** Without an entry called "optimal" the summary cannot be printed: the
    lookup creates an empty entry, which has no "name". *)
Lemma print_summary_without_optimal cal_metric
      (results : SMI.dict (SMI.dict Value)) (w : World) :
  SMI.dict_mem results "optimal" = false ->
  exists key,
    SMI.print_summary (Contents := Contents) metric_name tabulate cal_metric results w
    = (raise (SMI.KeyError key), w) /\
    (key = "name" \/ key = metric_name cal_metric).
Proof.
  intros Hmem. unfold SMI.print_summary, SMI.defaultdict_get.
  rewrite Hmem. cbn [map fst fold_left].
  rewrite map_app. cbn [map snd].
  destruct (map_result_last_fails
              (fun data : SMI.dict Value =>
                 SMI.map_result (fun v => SMI.dict_get data v)
                                ["name"; metric_name cal_metric])
              (map snd results) [] (SMI.KeyError "name") eq_refl)
    as (e' & Hrows & Hor).
  assert (Hkey : exists key, e' = SMI.KeyError key /\
                             (key = "name" \/ key = metric_name cal_metric)).
  { destruct Hor as [->|(data & _ & Hrow)]; [eauto|].
    destruct (row_error data _ e' Hrow) as (key & Hin & ->).
    exists key. split; [reflexivity|].
    destruct Hin as [<-|[<-|[]]]; auto. }
  destruct Hkey as (key & -> & Hk). exists key. split; [|exact Hk].
  unfold ebind at 1, lift. now rewrite Hrows.
Qed.

(** X16. With [verbose] set, [evaluate_classification] reads the cutpoints
    of the model's index twice: once for the length of the progress bar,
    and once more for the loop.  If those of the second read have no
    cutpoint named "optimal", the call never returns a result: when the
    loop and the progress bar go through, the summary is built from the
    entry "optimal" of the results, the lookup creates an empty one, and
    the table cannot be filled ([KeyError]). *)
Theorem evaluate_classification_verbose_needs_optimal
    x y k extra_metrics matcher verbose (w w1 w2 w3 w4 w5 w6 w7 : World)
    ix ix1 ix2 ix4 ix6 n cal_metric predictions shown pb cutpoints :
  verbose <> 0%Z ->
  SM._ix (fst w) = Some ix ->
  Indexer_size ix w = (ok n, w1) ->
  n <> 0%Z ->
  SM._ix (fst w1) = Some ix1 ->
  Indexer_is_calibrated ix1 w1 = (ok true, w2) ->
  SM._ix (fst w2) = Some ix2 ->
  Indexer_get_calibration_metric ix2 w2 = (ok cal_metric, w3) ->
  predict x (snd (SMI.print "|-Computing embeddings" w3)) = (ok predictions, w4) ->
  SM._ix (fst w4) = Some ix4 ->
  Indexer_cutpoints ix4 w4 = (ok shown, w5) ->
  tqdm (length shown) w5 = (ok pb, w6) ->
  SM._ix (fst w6) = Some ix6 ->
  Indexer_cutpoints ix6 w6 = (ok cutpoints, w7) ->
  ~ In "optimal" (map fst cutpoints) ->
  (forall results w',
     evaluate_classification x y k extra_metrics matcher verbose w
     <> (ok results, w')) /\
  (forall results0 w8 w9,
     SMI.for_each
       (evaluate_cutpoint predictions y k extra_metrics matcher cal_metric (Some pb))
       cutpoints [] w7 = (ok results0, w8) ->
     pb_close pb w8 = (ok tt, w9) ->
     exists key,
       evaluate_classification x y k extra_metrics matcher verbose w
       = (raise (SMI.KeyError key), w9) /\
       (key = "name" \/ key = metric_name cal_metric)).
Proof.
  intros Hv Hix Hsize Hn Hix1 Hcal Hix2 Hmetric Hpredict Hix4 Hshown Hbar
         Hix6 Hcut Hno.
  pose proof (index_getter_some _ _ _ _ _ Indexer_bool w ix Hix) as G.
  pose proof (index_getter_some _ _ _ _ _ Indexer_bool w1 ix1 Hix1) as G1.
  pose proof (index_getter_some _ _ _ _ _ Indexer_bool w2 ix2 Hix2) as G2.
  pose proof (index_getter_some _ _ _ _ _ Indexer_bool w4 ix4 Hix4) as G4.
  pose proof (index_getter_some _ _ _ _ _ Indexer_bool w6 ix6 Hix6) as G6.
  apply Z.eqb_neq in Hv, Hn.
  assert (Hrun :
    evaluate_classification x y k extra_metrics matcher verbose w
    = (results <- SMI.for_each
                    (evaluate_cutpoint predictions y k extra_metrics matcher
                                       cal_metric (Some pb))
                    cutpoints [] ;;
       _ <- pb_close pb ;;
       SMI.print_summary metric_name tabulate cal_metric results)%eff w7).
  { unfold SMI.evaluate_classification.
    run_step G. run_step Hsize. rewrite Hn.
    run_step G1. run_step Hcal. cbv beta iota delta [negb].
    run_step G2. run_step Hmetric.
    unfold SMI.print_if. rewrite Hv.
    rewrite (ebind_ok (SMI.print "|-Computing embeddings") _ w3 tt
               (snd (SMI.print "|-Computing embeddings" w3)) eq_refl).
    cbv beta.
    run_step Hpredict.
    rewrite (ebind_ok _ _ w4 (Some pb) w6).
    2:{ run_step G4. run_step Hshown. run_step Hbar. reflexivity. }
    cbv beta.
    run_step G6. run_step Hcut. reflexivity. }
  assert (Hsummary : forall results0 w8 w9,
    SMI.for_each
      (evaluate_cutpoint predictions y k extra_metrics matcher cal_metric (Some pb))
      cutpoints [] w7 = (ok results0, w8) ->
    pb_close pb w8 = (ok tt, w9) ->
    exists key,
      evaluate_classification x y k extra_metrics matcher verbose w
      = (raise (SMI.KeyError key), w9) /\
      (key = "name" \/ key = metric_name cal_metric)).
  { intros results0 w8 w9 Hloop Hclose.
    destruct (for_each_cutpoints_inv _ _ _ _ _ _ _ _ _ _ _ _ Hloop) as [Hkeys _].
    assert (Hmem : SMI.dict_mem results0 "optimal" = false).
    { destruct (SMI.dict_mem results0 "optimal") eqn:Hm; [|reflexivity].
      exfalso. apply dict_mem_keys in Hm. apply Hkeys in Hm.
      destruct Hm as [[]|Hin]. exact (Hno Hin). }
    destruct (print_summary_without_optimal cal_metric results0 w9 Hmem)
      as (key & Hs & Hk).
    exists key. split; [|exact Hk].
    rewrite Hrun. run_step Hloop. run_step Hclose. exact Hs. }
  split; [|exact Hsummary].
  intros results w' E. rewrite Hrun in E.
  apply ebind_ok_inv in E. destruct E as (results0 & w8 & Hloop & E).
  apply ebind_ok_inv in E. destruct E as ([] & w9 & Hclose & E).
  destruct (Hsummary results0 w8 w9 Hloop Hclose) as (key & Hs & _).
  rewrite Hrun in Hs. rewrite (ebind_ok _ _ _ _ _ Hloop) in Hs. cbv beta in Hs.
  rewrite (ebind_ok _ _ _ _ _ Hclose) in Hs. cbv beta in Hs.
  rewrite Hs in E. discriminate.
Qed.

End ClassificationFacts.

(** ** The further properties on concrete data *)

Module ExtraWitness.
Import Example Example2 Example3.

Local Abbreviation pn_loss_ex :=
  (pn_loss (@Helpers.build_masks) Helpers.positive_distances
           Helpers.negative_distances show_loss).
Local Abbreviation match_ex :=
  (SMI.match_ always_true identity_predict is_calibrated match_all_seven).
Local Abbreviation evaluate_retrieval_ex :=
  (SMI.evaluate_retrieval always_true identity_predict size no_metrics
                          (fun _ headers => String.concat " " headers)).
Local Abbreviation save_ex :=
  (SMI.save always_true keras_save_ok index_dir index_save_ok).
Local Abbreviation evaluate_classification_ex :=
  (SMI.evaluate_classification always_true identity_predict is_calibrated size
     calibration_metric (fun name : string => name) cutpoints float_ok metric_ok
     one_array_per_metric no_bar bar_ok bar_ok headers_only).

Lemma cross_term_positive_index_beyond_rows_witness :
  cross_term one_query [1] [0] [4%Z]
  = raise (InvalidArgumentError "indices out of bounds").
Proof.
  exact (cross_term_positive_index_beyond_rows one_query [1] [0] [4%Z] 0
           eq_refl (Nat.lt_0_succ 0) (le_n 1)).
Defined.


Lemma PNLoss_init_check_order_witness :
  PNLoss_init (@registry unit) (Some (DistanceName "manhattan"))
              (Some "bogus") (Some "other") None None None
  = raise (ValueError "Unknown distance") /\
  PNLoss_init (@registry unit) (Some (DistanceName "l1"))
              (Some "bogus") (Some "other") None None None
  = raise (ValueError "Invalid positive mining strategy.") /\
  PNLoss_init (@registry unit) (Some (DistanceName "l1"))
              (Some "easy") (Some "other") None None None
  = raise (ValueError "Invalid negative mining strategy.").
Proof.
  split; [|split].
  - exact (proj1 (PNLoss_init_check_order unit registry
                    (Some (DistanceName "manhattan")) (Some "bogus")
                    (Some "other") None None None)
                 (ValueError "Unknown distance") eq_refl).
  - apply (proj1 (proj2 (PNLoss_init_check_order unit registry
                           (Some (DistanceName "l1")) (Some "bogus")
                           (Some "other") None None None))
                 l1_distance eq_refl).
    cbn. intros [E|[E|[]]]; discriminate.
  - apply (proj2 (proj2 (PNLoss_init_check_order unit registry
                           (Some (DistanceName "l1")) (Some "easy")
                           (Some "other") None None None))
                 l1_distance eq_refl).
    + cbn. now left.
    + cbn. intros [E|[E|[E|[]]]]; discriminate.
Defined.

Lemma create_index_returns_witness :
  SM.create_index accept_index "cosine" tt tt tt None 1000%Z model
  = (ok tt,
     {| SM.output_names := SM.output_names model;
        SM.outputs := SM.outputs model;
        SM.embedding_size := Some (Some 16);
        SM._ix :=
          Some {| SM.ix_embedding_size := Some 16;
                  SM.ix_distance := "cosine";
                  SM.ix_search := tt;
                  SM.ix_kv_store := tt;
                  SM.ix_evaluator := tt;
                  SM.ix_embedding_output := Some 0%Z;
                  SM.ix_stat_buffer_size := 1000%Z |};
        SM.stdout :=
          (SM.stdout model ++
           ["Embedding output set to be model output 0.  Use the embedding_output arg to override this."])%list |}).
Proof.
  exact (create_index_returns string unit unit unit accept_index
           "cosine" tt tt tt None 1000%Z model [None; Some 16] (Some 16)
           (fun e (E : None = Some e) =>
              match E in (_ = o) return
                    match o with Some e' => (e' <= 2)%Z | None => True end
              with eq_refl => I end)
           eq_refl eq_refl eq_refl).
Defined.

Lemma create_index_negative_embedding_output_witness :
  SM.create_index accept_index "cosine" tt tt tt (Some (-3)%Z) 1000%Z model
  = (raise (IndexError "list index out of range"), model) /\
  exists self',
    SM.create_index accept_index "cosine" tt tt tt (Some (-1)%Z) 1000%Z model
    = (ok tt, self') /\
    SM.embedding_size self' = Some (Some 8) /\
    option_map (@SM.ix_embedding_output _ _ _ _) (SM._ix self')
    = Some (Some (-1)%Z).
Proof.
  split.
  - exact (proj1 (create_index_negative_embedding_output string unit unit unit
                    accept_index "cosine" tt tt tt (-3)%Z 1000%Z model
                    eq_refl eq_refl eq_refl) eq_refl).
  - apply (proj2 (create_index_negative_embedding_output string unit unit unit
                    accept_index "cosine" tt tt tt (-1)%Z 1000%Z model
                    eq_refl eq_refl eq_refl) [None; Some 8] (Some 8)).
    + discriminate.
    + reflexivity.
    + reflexivity.
    + reflexivity.
Defined.

Lemma create_index_keeps_model_witness :
  SM.output_names two_heads_after_failure = SM.output_names two_heads /\
  SM.outputs two_heads_after_failure = SM.outputs two_heads /\
  (exists lines,
      SM.stdout two_heads_after_failure = (SM.stdout two_heads ++ lines)%list) /\
  (forall ex,
     @raise unit unknown_search = raise ex ->
     SM._ix two_heads_after_failure = SM._ix two_heads /\
     (SM.embedding_size two_heads_after_failure = SM.embedding_size two_heads \/
      exists ix, linear_only ix = raise ex)) /\
  (@raise unit unknown_search = ok tt ->
   exists ix, SM._ix two_heads_after_failure = Some ix).
Proof.
  exact (create_index_keeps_model string string unit unit linear_only
           "cosine" "nmslib" tt tt None 1000%Z two_heads two_heads_after_failure
           (raise unknown_search) eq_refl).
Defined.

Lemma compile_unresolved_distance_witness :
  SM.compile (fun d : string => d) names_get accept_index keras_ok true
             tt (SM.LossList []) 1%Z (SM.DistanceName "auto")
             None tt tt tt 1000%Z model
  = (raise (IndexError "list index out of range"), model).
Proof.
  exact (proj2 (proj2 (compile_unresolved_distance string unit unit unit
                         (fun d : string => d) names_get accept_index unit
                         keras_ok true tt (SM.LossList []) 1%Z
                         (SM.DistanceName "auto") None tt tt tt 1000%Z model))
               eq_refl eq_refl).
Defined.

Lemma compile_auto_with_PNLoss_witness :
  SM.compile (fun _ => "l1") (fun _ => ok (@l1_distance unit)) (fun _ => ok tt)
             (fun (_ : unit) _ _ => eret tt) true
             tt (SM.LossList [Link.PNLoss_as_loss l1_loss]) 1%Z
             (SM.DistanceName "auto") None tt tt tt 1000%Z fresh_model
  = (_ <- SM.print (SM.auto_message (fun _ => "l1") (@l1_distance unit)) ;;
     _ <- SM.create_index (Search := unit) (Store := unit) (Evaluator := unit)
            (fun _ => ok tt) (@l1_distance unit) tt tt tt None 1000%Z ;;
     (fun (_ : unit) _ _ => eret tt) tt
       (SM.LossList [Link.PNLoss_as_loss l1_loss]) (Some 1%Z))%eff
      fresh_model.
Proof.
  exact (compile_auto_with_PNLoss unit registry unit unit unit
           (fun _ => "l1") (fun _ => ok (@l1_distance unit)) (fun _ => ok tt) unit
           (fun (_ : unit) _ _ => eret tt) true
           (Some (DistanceName "l1")) None None None None None l1_loss l1_distance
           tt [] 1%Z None tt tt tt 1000%Z fresh_model eq_refl eq_refl
           (SM.LossList [Link.PNLoss_as_loss l1_loss]) (or_intror eq_refl)).
Defined.

Lemma match_calibration_and_cutpoint_witness :
  match_ex [1; 2]%Z "optimal" (-1)%Z 1%Z tt 0%Z uncalibrated_world
  = (raise (ValueError SMI.uncalibrated_message), uncalibrated_world) /\
  match_ex [1; 2]%Z "0.9" (-1)%Z 1%Z tt 0%Z calibrated_world
  = (raise (SMI.KeyError "0.9"), calibrated_world).
Proof.
  split.
  - exact (proj1 (match_calibration_and_cutpoint string unit unit unit Contents
                    always_true (list Z) (list Z) (list Z) unit identity_predict
                    is_calibrated match_all_seven
                    [1; 2]%Z "optimal" (-1)%Z 1%Z tt 0%Z
                    uncalibrated_world uncalibrated_world cosine_index eq_refl)
                 eq_refl).
  - exact (proj2 (match_calibration_and_cutpoint string unit unit unit Contents
                    always_true (list Z) (list Z) (list Z) unit identity_predict
                    is_calibrated match_all_seven
                    [1; 2]%Z "0.9" (-1)%Z 1%Z tt 0%Z
                    calibrated_world calibrated_world cosine_index eq_refl)
                 [1; 2]%Z calibrated_world cosine_index
                 [("optimal", [7; 7]%Z)] calibrated_world
                 eq_refl eq_refl eq_refl eq_refl).
Defined.

(** On the calibrated index: the labels of "optimal", every cutpoint for
    "all"; without an index, the [AttributeError] of the attribute read. *)
Example match_on_calibrated_index :
  fst (match_ex [1; 2]%Z "optimal" (-1)%Z 1%Z tt 0%Z calibrated_world)
  = ok (SMI.OneCutpoint [7; 7]%Z) /\
  fst (match_ex [1; 2]%Z "all" (-1)%Z 1%Z tt 0%Z calibrated_world)
  = ok (SMI.AllCutpoints [("optimal", [7; 7]%Z)]) /\
  fst (match_ex [1; 2]%Z "optimal" (-1)%Z 1%Z tt 0%Z no_index_world)
  = raise (SMI.AttributeError "'SimilarityModel' object has no attribute '_ix'").
Proof. repeat split. Qed.

Lemma evaluate_retrieval_empty_index_witness :
  evaluate_retrieval_ex [1; 2]%Z [0; 1]%Z tt 1%Z empty_world
  = (raise (IndexError SMI.empty_index_message), empty_world) /\
  evaluate_retrieval_ex [1; 2]%Z [0; 1]%Z tt 0%Z calibrated_world
  = (ok [], calibrated_world).
Proof.
  split.
  - exact (proj1 (evaluate_retrieval_empty_index string unit unit unit Contents
                    always_true (list Z) (list Z) (list Z) identity_predict size
                    unit Z no_metrics (fun _ headers => String.concat " " headers)
                    [1; 2]%Z [0; 1]%Z tt 1%Z empty_world empty_world
                    cosine_index eq_refl)
                 eq_refl).
  - exact (proj2 (evaluate_retrieval_empty_index string unit unit unit Contents
                    always_true (list Z) (list Z) (list Z) identity_predict size
                    unit Z no_metrics (fun _ headers => String.concat " " headers)
                    [1; 2]%Z [0; 1]%Z tt 0%Z calibrated_world calibrated_world
                    cosine_index eq_refl)
                 3%Z [1; 2]%Z calibrated_world cosine_index [] calibrated_world
                 eq_refl ltac:(discriminate) eq_refl eq_refl eq_refl).
Defined.

Lemma save_writes_or_explains_witness :
  save_ex "model" true true true tt no_index_world
  = SMI.print
      "The index was not saved with the model.The model does not currently have an index. To use indexing you must call either model.compile() or model.create_index() and set a valid Distance."
      no_index_world /\
  save_ex "model" false true true tt calibrated_world
  = SMI.print
      "The index was not saved with the model. The save_index param is set to False."
      calibrated_world /\
  save_ex "model" true true true tt calibrated_world
  = index_save_ok cosine_index (index_dir "model") true true calibrated_world.
Proof.
  split; [|split].
  - exact (proj1 (save_writes_or_explains string unit unit unit Contents
                    always_true unit string keras_save_ok index_dir index_save_ok
                    "model" true true true tt no_index_world no_index_world
                    eq_refl)
                 eq_refl).
  - exact (proj1 (proj2 (save_writes_or_explains string unit unit unit Contents
                           always_true unit string keras_save_ok index_dir
                           index_save_ok
                           "model" false true true tt calibrated_world
                           calibrated_world eq_refl))
                 cosine_index true calibrated_world eq_refl eq_refl
                 ltac:(discriminate) eq_refl).
  - exact (proj2 (proj2 (save_writes_or_explains string unit unit unit Contents
                           always_true unit string keras_save_ok index_dir
                           index_save_ok
                           "model" true true true tt calibrated_world
                           calibrated_world eq_refl))
                 cosine_index cosine_index calibrated_world
                 eq_refl eq_refl eq_refl eq_refl).
Defined.

Lemma evaluate_classification_checks_witness :
  evaluate_classification_ex [1; 2]%Z [0; 1]%Z 1%Z ["precision"; "recall"] tt 1%Z
                             empty_world
  = (raise (IndexError SMI.empty_index_message_classification), empty_world) /\
  evaluate_classification_ex [1; 2]%Z [0; 1]%Z 1%Z ["precision"; "recall"] tt 1%Z
                             uncalibrated_world
  = (raise (ValueError SMI.uncalibrated_message), uncalibrated_world).
Proof.
  split.
  - exact (proj1 (evaluate_classification_checks string unit unit unit Contents
                    always_true (list Z) (list Z) (list Z) unit identity_predict
                    is_calibrated size Z (list Z) Z string string unit
                    calibration_metric (fun name : string => name) cutpoints
                    float_ok metric_ok one_array_per_metric no_bar bar_ok bar_ok
                    headers_only
                    [1; 2]%Z [0; 1]%Z 1%Z ["precision"; "recall"] tt 1%Z
                    empty_world empty_world cosine_index 0%Z eq_refl eq_refl)
                 eq_refl).
  - exact (proj2 (evaluate_classification_checks string unit unit unit Contents
                    always_true (list Z) (list Z) (list Z) unit identity_predict
                    is_calibrated size Z (list Z) Z string string unit
                    calibration_metric (fun name : string => name) cutpoints
                    float_ok metric_ok one_array_per_metric no_bar bar_ok bar_ok
                    headers_only
                    [1; 2]%Z [0; 1]%Z 1%Z ["precision"; "recall"] tt 1%Z
                    uncalibrated_world uncalibrated_world cosine_index 3%Z
                    eq_refl eq_refl)
                 cosine_index uncalibrated_world
                 ltac:(discriminate) eq_refl eq_refl).
Defined.

Lemma evaluate_classification_entries_witness :
  evaluate_classification_ex [1; 2]%Z [0; 1]%Z 1%Z ["precision"; "recall"] tt 0%Z
                             calibrated_world
  = (ok [("optimal",
          [("precision", SMI.VArray Z [25%Z]);
           ("recall", SMI.VArray Z [25%Z]);
           ("f1", SMI.VArray Z [25%Z]);
           ("distance", SMI.VConstant (list Z) 25%Z);
           ("name", SMI.VStr Z (list Z) "optimal")])],
     calibrated_world) /\
  cutpoints cosine_index calibrated_world
  = (ok [("optimal", [("value", 90%Z); ("distance", 25%Z)])], calibrated_world) /\
  (forall name,
     In name (map fst
                [("optimal",
                  [("precision", SMI.VArray Z [25%Z]);
                   ("recall", SMI.VArray Z [25%Z]);
                   ("f1", SMI.VArray Z [25%Z]);
                   ("distance", SMI.VConstant (list Z) 25%Z);
                   ("name", SMI.VStr Z (list Z) "optimal")])])
     <-> In name (map fst [("optimal", [("value", 90%Z); ("distance", 25%Z)])])) /\
  (forall name res,
     In (name, res)
        [("optimal",
          [("precision", SMI.VArray Z [25%Z]);
           ("recall", SMI.VArray Z [25%Z]);
           ("f1", SMI.VArray Z [25%Z]);
           ("distance", SMI.VConstant (list Z) 25%Z);
           ("name", SMI.VStr Z (list Z) "optimal")])] ->
     SMI.dict_get res "name" = ok (SMI.VStr Z (list Z) name) /\
     exists cp_data v threshold,
       In (name, cp_data) [("optimal", [("value", 90%Z); ("distance", 25%Z)])] /\
       SMI.dict_get cp_data "distance" = ok v /\
       float_ok v = ok threshold /\
       SMI.dict_get res "distance" = ok (SMI.VConstant (list Z) threshold)).
Proof.
  split; [reflexivity|]. split; [reflexivity|].
  exact (evaluate_classification_entries string unit unit unit Contents
           always_true (list Z) (list Z) (list Z) unit identity_predict
           is_calibrated size Z (list Z) Z string string unit
           calibration_metric (fun name : string => name) cutpoints float_ok
           metric_ok one_array_per_metric no_bar bar_ok bar_ok headers_only
           [1; 2]%Z [0; 1]%Z 1%Z ["precision"; "recall"] tt
           calibrated_world calibrated_world calibrated_world calibrated_world
           calibrated_world calibrated_world calibrated_world
           cosine_index cosine_index cosine_index cosine_index 3%Z "f1" [1; 2]%Z
           [("optimal", [("value", 90%Z); ("distance", 25%Z)])]
           [("optimal",
             [("precision", SMI.VArray Z [25%Z]);
              ("recall", SMI.VArray Z [25%Z]);
              ("f1", SMI.VArray Z [25%Z]);
              ("distance", SMI.VConstant (list Z) 25%Z);
              ("name", SMI.VStr Z (list Z) "optimal")])]
           eq_refl eq_refl eq_refl eq_refl eq_refl eq_refl eq_refl eq_refl eq_refl
           eq_refl).
Defined.

(** The calibrated index after "|-Computing embeddings" was printed. *)
Local Abbreviation announced_world :=
  (snd (SMI.print (Contents := Contents) "|-Computing embeddings" calibrated_world)).

Lemma evaluate_classification_verbose_needs_optimal_witness :
  (forall results w',
     SMI.evaluate_classification always_true identity_predict is_calibrated size
       calibration_metric (fun name : string => name)
       Example4.cutpoints_without_optimal float_ok metric_ok one_array_per_metric
       no_bar bar_ok bar_ok headers_only
       [1; 2]%Z [0; 1]%Z 1%Z ["precision"; "recall"] tt 1%Z calibrated_world
     <> (ok results, w')) /\
  SMI.evaluate_classification always_true identity_predict is_calibrated size
    calibration_metric (fun name : string => name)
    Example4.cutpoints_without_optimal float_ok metric_ok one_array_per_metric
    no_bar bar_ok bar_ok headers_only
    [1; 2]%Z [0; 1]%Z 1%Z ["precision"; "recall"] tt 1%Z calibrated_world
  = (raise (SMI.KeyError "name"), announced_world).
Proof.
  pose proof (evaluate_classification_verbose_needs_optimal
                string unit unit unit Contents
                always_true (list Z) (list Z) (list Z) unit identity_predict
                is_calibrated size Z (list Z) Z string string unit
                calibration_metric (fun name : string => name)
                Example4.cutpoints_without_optimal float_ok
                metric_ok one_array_per_metric no_bar bar_ok bar_ok headers_only
                [1; 2]%Z [0; 1]%Z 1%Z ["precision"; "recall"] tt 1%Z
                calibrated_world calibrated_world calibrated_world
                calibrated_world announced_world announced_world
                announced_world announced_world
                cosine_index cosine_index cosine_index cosine_index cosine_index
                3%Z "f1" [1; 2]%Z
                [("0.9", [("value", 90%Z); ("distance", 25%Z)])] tt
                [("0.9", [("value", 90%Z); ("distance", 25%Z)])]
                ltac:(discriminate) eq_refl eq_refl ltac:(discriminate)
                eq_refl eq_refl eq_refl eq_refl eq_refl eq_refl eq_refl eq_refl
                eq_refl eq_refl
                ltac:(cbn; intros [E|[]]; discriminate E))
    as [Hnever Hkey].
  split; [exact Hnever|].
  destruct (Hkey _ announced_world announced_world eq_refl eq_refl)
    as (key & Hrun & _).
  assert (E : key = "name").
  { vm_compute in Hrun. now inversion Hrun. }
  rewrite E in Hrun. exact Hrun.
Defined.

End ExtraWitness.
